(** * Social_Media_API: access-control and soft-delete rules of the route handlers

    A shallow embedding of the FastAPI route handlers of [app/routes] over a
    functional model of the MongoDB collections they query, followed by the
    properties of those handlers.

    Conventions of the embedding:
    - a collection is a finite map from [_id] to document ([gmap string D]);
      MongoDB keeps [_id] unique inside a collection, and [insert_one] on a
      taken [_id] raises [DuplicateKeyError];
    - a handler is a function from the database to an outcome and the
      database it leaves behind, so that writes issued before an exception
      persist, as they do in the source (no transaction);
    - an exception that no handler catches ([KeyError], [DuplicateKeyError])
      is what FastAPI answers with status 500;
    - the datastore handle is connected: every [get_collection] returns a
      usable collection, so the "Database connection error" guards pass;
    - [datetime.utcnow()] is read from a [Clock] handed to the handler;
    - the [$inc] path ["questions.$.response_counts." + answer] is read as
      the server reads it, split at its dots: a plain answer addresses one
      counter, an answer with a dot a field of an embedded document, and a
      path with an empty component or one that starts with [$] is refused;
    - a value that BSON cannot encode ([datetime.time]) makes [insert_one]
      raise [InvalidDocument];
    - a reply schema built from the [model_dump()] of a model fails its
      validation: the dump names the identifier [id], and the reply schema,
      which has no [populate_by_name], takes it under its alias [_id]
      only. *)

From Stdlib Require Import ZArith Ascii.
From stdpp Require Import gmap strings list fin_maps sorting pretty.

Open Scope string_scope.
Open Scope Z_scope.

(** ** HTTP errors ([fastapi.HTTPException], [fastapi.status]) *)

Record HTTPException := mkHTTPException { status_code : Z; detail : string }.

Definition HTTP_400_BAD_REQUEST : Z := 400.
Definition HTTP_401_UNAUTHORIZED : Z := 401.
Definition HTTP_403_FORBIDDEN : Z := 403.
Definition HTTP_404_NOT_FOUND : Z := 404.
Definition HTTP_500_INTERNAL_SERVER_ERROR : Z := 500.

(** An exception that escapes the handler. *)
Definition unhandled (what : string) : HTTPException :=
  mkHTTPException HTTP_500_INTERNAL_SERVER_ERROR what.

(** ** Models ([app/models]) *)

Module UserInDB.
Record t := mk {
  _id : string;
  username : string;
  email : string;
  first_name : option string;
  last_name : option string;
  profile_picture : option string;
  hashed_password : string;
  is_active : bool;
  created_at : Z;
  updated_at : Z }.
End UserInDB.

Module User.
Record t := mk {
  id : string;
  username : string;
  email : string;
  first_name : option string;
  last_name : option string;
  profile_picture : option string;
  is_active : bool;
  created_at : Z;
  updated_at : Z }.

(** The [User] built from a stored document: the same fields without the
    password hash. *)
Definition of_doc (d : UserInDB.t) : t :=
  mk (UserInDB._id d) (UserInDB.username d) (UserInDB.email d)
     (UserInDB.first_name d) (UserInDB.last_name d)
     (UserInDB.profile_picture d) (UserInDB.is_active d)
     (UserInDB.created_at d) (UserInDB.updated_at d).
End User.

Module UserCreate.
Record t := mk {
  username : string;
  email : string;
  first_name : option string;
  last_name : option string;
  profile_picture : option string;
  password : string }.
End UserCreate.

Module GroupType.
Inductive t := PUBLIC | PRIVATE | SECRET.
#[global] Instance eq_dec : EqDecision t.
Proof. solve_decision. Defined.
End GroupType.

Module Group.
Record t := mk {
  _id : string;
  name : string;
  description : option string;
  icon : option string;
  cover_photo : option string;
  type : GroupType.t;
  allow_member_posts : bool;
  allow_member_events : bool;
  admin_ids : list string;
  member_ids : list string;
  creator_id : string;
  is_active : bool;
  created_at : Z;
  updated_at : Z }.

Definition set_member_ids (l : list string) (g : t) : t :=
  mk (_id g) (name g) (description g) (icon g) (cover_photo g) (type g)
     (allow_member_posts g) (allow_member_events g) (admin_ids g) l
     (creator_id g) (is_active g) (created_at g) (updated_at g).

Definition set_admin_ids (l : list string) (g : t) : t :=
  mk (_id g) (name g) (description g) (icon g) (cover_photo g) (type g)
     (allow_member_posts g) (allow_member_events g) l (member_ids g)
     (creator_id g) (is_active g) (created_at g) (updated_at g).

Definition set_updated_at (now : Z) (g : t) : t :=
  mk (_id g) (name g) (description g) (icon g) (cover_photo g) (type g)
     (allow_member_posts g) (allow_member_events g) (admin_ids g)
     (member_ids g) (creator_id g) (is_active g) (created_at g) now.
End Group.

(** The per-user summary that [get_group] and [get_event] attach. *)
Record UserDetails := mkUserDetails {
  details_id : string;
  details_username : string;
  details_email : string }.

Module GroupResponse.
Record t := mk {
  group : Group.t;
  admin_details : list UserDetails;
  member_details : list UserDetails;
  member_count : nat;
  event_count : nat }.
End GroupResponse.

Module EventPrivacy.
Inductive t := PUBLIC | PRIVATE.
#[global] Instance eq_dec : EqDecision t.
Proof. solve_decision. Defined.
End EventPrivacy.

Module Event.
Record t := mk {
  _id : string;
  name : string;
  description : option string;
  start_date : Z;
  end_date : Z;
  location : string;
  cover_photo : option string;
  privacy : EventPrivacy.t;
  organizers : list string;
  members : list string;
  group_id : option string;
  creator_id : string;
  is_active : bool;
  created_at : Z;
  updated_at : Z }.
End Event.

Module EventResponse.
Record t := mk {
  event : Event.t;
  organizer_details : list UserDetails;
  member_details : list UserDetails;
  participant_count : nat }.
End EventResponse.

(** What [response_counts] holds under a key once [$inc] has written to it:
    a number, or an embedded document when the path had more components. *)
Module Counter.
#[warnings="-register-all"]
Inductive t :=
  | Int (n : Z)
  | Document (fields : gmap string t).
End Counter.

(** A question as it sits inside a poll document. [create_poll] stores the
    questions of the request with their [response_counts] and gives them no
    [_id], so the key may be missing from the dictionary. *)
Module Question.
Record t := mk {
  _id : option string;
  text : string;
  answers : list string;
  response_counts : gmap string Counter.t }.

Definition set_response_counts (rc : gmap string Counter.t) (q : t) : t :=
  mk (_id q) (text q) (answers q) rc.
End Question.

Module Poll.
Record t := mk {
  _id : string;
  title : string;
  description : option string;
  event_id : string;
  creator_id : string;
  questions : list Question.t;
  is_anonymous : bool;
  allow_multiple_votes : bool;
  total_responses : Z;
  is_active : bool;
  created_at : Z;
  updated_at : Z }.

Definition set_counters (total : Z) (qs : list Question.t) (p : t) : t :=
  mk (_id p) (title p) (description p) (event_id p) (creator_id p) qs
     (is_anonymous p) (allow_multiple_votes p) total (is_active p)
     (created_at p) (updated_at p).
End Poll.

Module Vote.
Record t := mk {
  _id : string;
  poll_id : string;
  question_id : string;
  user_id : string;
  answer : string;
  created_at : Z }.
End Vote.

Module VoteCreate.
Record t := mk {
  poll_id : string;
  question_id : string;
  answer : string }.
End VoteCreate.

Module VoteResponse.
Record t := mk {
  success : bool;
  message : string;
  poll_id : string;
  question_id : string;
  chosen_answer : string;
  total_votes : Z }.
End VoteResponse.

(** [price], a float that no handler reads, is left out. *)
Module TicketType.
Record t := mk {
  _id : string;
  name : string;
  description : option string;
  event_id : string;
  quantity : Z;
  max_per_person : Z;
  sold_count : Z;
  is_active : bool;
  created_at : Z;
  updated_at : Z }.

Definition set_sold_count (n : Z) (tt : t) : t :=
  mk (_id tt) (name tt) (description tt) (event_id tt) (quantity tt)
     (max_per_person tt) n (is_active tt) (created_at tt) (updated_at tt).
End TicketType.

Module Ticket.
Record t := mk {
  _id : string;
  ticket_type_id : string;
  event_id : string;
  buyer_id : string;
  buyer_info : gmap string string;
  ticket_number : string;
  purchase_date : Z;
  is_valid : bool;
  checked_in : bool;
  checked_in_at : option Z }.
End Ticket.

Module TicketPurchase.
Record t := mk {
  ticket_type_id : string;
  buyer_info : gmap string string }.
End TicketPurchase.

(** The stored shopping item carries [is_active]; the output schema
    [ShoppingItem] has no such field. *)
Module ShoppingItemInDB.
Record t := mk {
  _id : string;
  name : string;
  quantity : Z;
  unit : option string;
  event_id : string;
  user_id : string;
  arrival_time : option Z;
  notes : option string;
  is_brought : bool;
  is_unique : bool;
  is_active : bool;
  created_at : Z;
  updated_at : Z }.
End ShoppingItemInDB.

Module ShoppingItem.
Record t := mk {
  id : string;
  name : string;
  quantity : Z;
  unit : option string;
  event_id : string;
  user_id : string;
  arrival_time : option Z;
  notes : option string;
  is_brought : bool;
  is_unique : bool;
  created_at : Z;
  updated_at : Z }.

Definition of_doc (d : ShoppingItemInDB.t) : t :=
  mk (ShoppingItemInDB._id d) (ShoppingItemInDB.name d)
     (ShoppingItemInDB.quantity d) (ShoppingItemInDB.unit d)
     (ShoppingItemInDB.event_id d) (ShoppingItemInDB.user_id d)
     (ShoppingItemInDB.arrival_time d) (ShoppingItemInDB.notes d)
     (ShoppingItemInDB.is_brought d) (ShoppingItemInDB.is_unique d)
     (ShoppingItemInDB.created_at d) (ShoppingItemInDB.updated_at d).
End ShoppingItem.

Module ShoppingListResponse.
Record t := mk {
  event_id : string;
  total_items : nat;
  brought_items : nat;
  pending_items : Z;
  items : list ShoppingItem.t }.
End ShoppingListResponse.

(** ** The datastore ([app/database.py]) *)

Record Database := mkDatabase {
  users : gmap string UserInDB.t;
  events : gmap string Event.t;
  groups : gmap string Group.t;
  polls : gmap string Poll.t;
  votes : gmap string Vote.t;
  ticket_types : gmap string TicketType.t;
  tickets : gmap string Ticket.t;
  shopping_items : gmap string ShoppingItemInDB.t }.

(** What a handler reads from [datetime.utcnow()]: the instant, the text of
    [.timestamp()] that goes into a generated [_id], and the text of
    [.strftime('%Y%m%d')]. *)
Record Clock := mkClock {
  utcnow : Z;
  timestamp : string;
  strftime_Ymd : string }.

(** ** Handlers: database passing with exceptions *)

Inductive result (A : Type) : Type :=
  | Ok (a : A)
  | Raise (e : HTTPException).
Arguments Ok {A} a.
Arguments Raise {A} e.

Definition Handler (A : Type) : Type := Database → result A * Database.

Definition ret {A} (a : A) : Handler A := λ db, (Ok a, db).

Definition raise {A} (e : HTTPException) : Handler A := λ db, (Raise e, db).

Definition bind {A B} (m : Handler A) (k : A → Handler B) : Handler B :=
  λ db, match m db with
        | (Ok a, db') => k a db'
        | (Raise e, db') => (Raise e, db')
        end.

Notation "'do' x <- m ; k" := (bind m (λ x, k))
  (at level 10, x name, m at level 100, k at level 200,
   format "'[v' 'do'  x  <-  m ; '/' k ']'").

(** [if cond: raise HTTPException(...)] *)
Definition raise_if (cond : bool) (e : HTTPException) : Handler unit :=
  if cond then raise e else ret tt.

(** ** Collections and the MongoDB operators the handlers use *)

Section collection.
Context {D : Type}.
Implicit Types (c : gmap string D) (q : D → bool).

(** The documents of a collection in natural order. *)
Definition documents c : list D := (map_to_list c).*2.

(** [find(query)] *)
Definition find_in q c : list D := filter (λ d, q d) (documents c).

(** [find_one(query)] *)
Definition find_one_in q c : option D := head (find_in q c).

(** [find_one({"_id": id, ...query})]: [_id] is the key of the collection. *)
Definition find_one_by_id_in (id : string) q c : option D :=
  match c !! id with
  | Some d => if q d then Some d else None
  | None => None
  end.

(** [count_documents(query)] *)
Definition count_documents_in q c : nat := length (find_in q c).

(** A handle on one collection of the database, as [get_collection] returns. *)
Record Collection := mkCollection {
  docs : Database → gmap string D;
  set_docs : gmap string D → Database → Database }.

Definition find (coll : Collection) q : Handler (list D) :=
  λ db, (Ok (find_in q (docs coll db)), db).

Definition find_one (coll : Collection) q : Handler (option D) :=
  λ db, (Ok (find_one_in q (docs coll db)), db).

Definition find_one_by_id (coll : Collection) (id : string) q
  : Handler (option D) :=
  λ db, (Ok (find_one_by_id_in id q (docs coll db)), db).

Definition count_documents (coll : Collection) q : Handler nat :=
  λ db, (Ok (count_documents_in q (docs coll db)), db).

(** [insert_one(doc)]: refused when the [_id] is taken. *)
Definition insert_one (coll : Collection) (id : string) (d : D)
  : Handler unit :=
  λ db, match docs coll db !! id with
        | Some _ => (Raise (unhandled "DuplicateKeyError"), db)
        | None => (Ok tt, set_docs coll (<[id := d]> (docs coll db)) db)
        end.

(** [update_one({"_id": id}, update)]: the update rewrites the document
    stored under [id], if there is one. *)
Definition update_one (coll : Collection) (id : string) (update : D → D)
  : Handler unit :=
  λ db, (Ok tt, set_docs coll (alter update id (docs coll db)) db).

(** [update_one] with an update that the server cannot always apply to the
    document it finds: it then writes nothing and the driver raises
    [WriteError]. *)
Definition update_one_or_fail (coll : Collection) (id : string)
    (update : D → option D) : Handler unit :=
  λ db, match docs coll db !! id with
        | Some d =>
            match update d with
            | Some d' => (Ok tt, set_docs coll (<[id := d']> (docs coll db)) db)
            | None => (Raise (unhandled "WriteError"), db)
            end
        | None => (Ok tt, db)
        end.

End collection.
Arguments Collection D : clear implicits.

(** [cursor.to_list(length=n)] *)
Definition to_list {A} (n : nat) (cursor : list A) : list A := take n cursor.

(** [$pull]: every occurrence of the value leaves the array. *)
Definition pull (x : string) (l : list string) : list string :=
  filter (λ y, y ≠ x) l.

(** [$addToSet]: the value joins the array unless it is there already. *)
Definition addToSet (x : string) (l : list string) : list string :=
  if bool_decide (x ∈ l) then l else l ++ [x].

Definition users_collection : Collection UserInDB.t :=
  mkCollection users
    (λ c db, mkDatabase c (events db) (groups db) (polls db) (votes db)
               (ticket_types db) (tickets db) (shopping_items db)).

Definition events_collection : Collection Event.t :=
  mkCollection events
    (λ c db, mkDatabase (users db) c (groups db) (polls db) (votes db)
               (ticket_types db) (tickets db) (shopping_items db)).

Definition groups_collection : Collection Group.t :=
  mkCollection groups
    (λ c db, mkDatabase (users db) (events db) c (polls db) (votes db)
               (ticket_types db) (tickets db) (shopping_items db)).

Definition polls_collection : Collection Poll.t :=
  mkCollection polls
    (λ c db, mkDatabase (users db) (events db) (groups db) c (votes db)
               (ticket_types db) (tickets db) (shopping_items db)).

Definition votes_collection : Collection Vote.t :=
  mkCollection votes
    (λ c db, mkDatabase (users db) (events db) (groups db) (polls db) c
               (ticket_types db) (tickets db) (shopping_items db)).

Definition ticket_types_collection : Collection TicketType.t :=
  mkCollection ticket_types
    (λ c db, mkDatabase (users db) (events db) (groups db) (polls db)
               (votes db) c (tickets db) (shopping_items db)).

Definition tickets_collection : Collection Ticket.t :=
  mkCollection tickets
    (λ c db, mkDatabase (users db) (events db) (groups db) (polls db)
               (votes db) (ticket_types db) c (shopping_items db)).

Definition shopping_collection : Collection ShoppingItemInDB.t :=
  mkCollection shopping_items
    (λ c db, mkDatabase (users db) (events db) (groups db) (polls db)
               (votes db) (ticket_types db) (tickets db) c).

(** ** Group routes ([app/routes/groups.py]) *)

(** [.sort("created_at", -1)] *)
Definition newer_first (g1 g2 : Group.t) : Prop :=
  (Group.created_at g2 ≤ Group.created_at g1)%Z.

#[global] Instance newer_first_dec : RelDecision newer_first.
Proof. intros g1 g2. unfold newer_first. apply _. Defined.

Definition sort_by_created_at_desc (l : list Group.t) : list Group.t :=
  merge_sort newer_first l.

(** [skip] and [limit] arrive validated by the framework ([ge=0], [ge=1]). *)
Definition get_groups (skip limit : nat) (group_type : option GroupType.t)
    (current_user : User.t) : Handler (list Group.t) :=
  let query (g : Group.t) :=
    Group.is_active g &&
    match group_type with
    | Some t => bool_decide (Group.type g = t)
    | None =>
        bool_decide (Group.type g ∈ [GroupType.PUBLIC; GroupType.PRIVATE])
    end in
  do matched <- find groups_collection query;
  let cursor := take limit (drop skip (sort_by_created_at_desc matched)) in
  ret (to_list limit cursor).

Definition details_of (u : UserInDB.t) : UserDetails :=
  mkUserDetails (UserInDB._id u) (UserInDB.username u) (UserInDB.email u).

(** The active users among [ids], as [get_group] and [get_event] list them. *)
Definition user_details (ids : list string) : Handler (list UserDetails) :=
  match ids with
  | [] => ret []
  | _ =>
      do found <- find users_collection
        (λ u, bool_decide (UserInDB._id u ∈ ids) && UserInDB.is_active u);
      ret (details_of <$> to_list (length ids) found)
  end.

(** Building, from a dictionary of fields, a schema that declares its
    identifier as [id: str = Field(..., alias="_id")] and has no
    [populate_by_name]: the
    identifier is read from the key [_id], and a dictionary without that key
    is a [ValidationError]. [id_key] is the key under which [fields] holds
    the identifier: ["_id"] in a stored document, ["id"] in the
    [model_dump()] of a model. *)
Definition validate_aliased {A} (id_key : string) (built : A) : Handler A :=
  if bool_decide (id_key = "_id") then ret built
  else raise (unhandled "ValidationError").

(** The reply is a [GroupResponse] built from the [model_dump()] of the
    [Group], with the details added to the dump. *)
Definition get_group (group_id : string) (current_user : User.t)
  : Handler GroupResponse.t :=
  do found <- find_one_by_id groups_collection group_id Group.is_active;
  match found with
  | None => raise (mkHTTPException HTTP_404_NOT_FOUND "Group not found")
  | Some group =>
      do _ <- raise_if
        (bool_decide (Group.type group = GroupType.SECRET) &&
         (bool_decide (User.id current_user ∉ Group.member_ids group) &&
          bool_decide (User.id current_user ∉ Group.admin_ids group) &&
          bool_decide (User.id current_user ≠ Group.creator_id group)))
        (mkHTTPException HTTP_403_FORBIDDEN
           "Not authorized to view this secret group");
      do admin_details <- user_details (Group.admin_ids group);
      do member_details <- user_details (Group.member_ids group);
      let member_count := length (Group.member_ids group) in
      do event_count <- count_documents events_collection
        (λ e, bool_decide (Event.group_id e = Some group_id) &&
              Event.is_active e);
      validate_aliased "id"
        (GroupResponse.mk group admin_details member_details member_count
           event_count)
  end.

(** The re-read by [_id] alone that ends the mutating handlers; building the
    [Group] from a missing document is a [TypeError]. *)
Definition reread_group (group_id : string) : Handler Group.t :=
  do updated_group <- find_one_by_id groups_collection group_id (λ _, true);
  match updated_group with
  | Some g => ret g
  | None => raise (unhandled "TypeError")
  end.

Definition join_group (clock : Clock) (group_id : string)
    (current_user : User.t) : Handler Group.t :=
  do found <- find_one_by_id groups_collection group_id Group.is_active;
  match found with
  | None => raise (mkHTTPException HTTP_404_NOT_FOUND "Group not found")
  | Some group =>
      do _ <- raise_if (bool_decide (Group.type group = GroupType.SECRET))
        (mkHTTPException HTTP_403_FORBIDDEN
           "Cannot join a secret group without invitation");
      do _ <- raise_if
        (bool_decide (User.id current_user ∈ Group.member_ids group))
        (mkHTTPException HTTP_400_BAD_REQUEST
           "Already a member of this group");
      do _ <- raise_if
        (bool_decide (User.id current_user ∈ Group.admin_ids group))
        (mkHTTPException HTTP_400_BAD_REQUEST
           "Already an administrator of this group");
      do _ <- update_one groups_collection group_id
        (λ g, Group.set_updated_at (utcnow clock)
                (Group.set_member_ids
                   (addToSet (User.id current_user) (Group.member_ids g)) g));
      reread_group group_id
  end.

Definition leave_group (clock : Clock) (group_id : string)
    (current_user : User.t) : Handler Group.t :=
  do found <- find_one_by_id groups_collection group_id Group.is_active;
  match found with
  | None => raise (mkHTTPException HTTP_404_NOT_FOUND "Group not found")
  | Some group =>
      do _ <- raise_if
        (bool_decide (User.id current_user ∉ Group.member_ids group) &&
         bool_decide (User.id current_user ∉ Group.admin_ids group))
        (mkHTTPException HTTP_400_BAD_REQUEST "Not a member of this group");
      let is_admin :=
        bool_decide (User.id current_user ∈ Group.admin_ids group) in
      let admin_ids := Group.admin_ids group in
      do _ <- raise_if
        (is_admin &&
         (bool_decide (length admin_ids = 1%nat) &&
          bool_decide (admin_ids !! 0%nat = Some (User.id current_user))))
        (mkHTTPException HTTP_400_BAD_REQUEST
           "Cannot leave group as the only administrator");
      let pull_member (g : Group.t) :=
        if bool_decide (User.id current_user ∈ Group.member_ids group)
        then Group.set_member_ids
               (pull (User.id current_user) (Group.member_ids g)) g
        else g in
      let pull_admin (g : Group.t) :=
        if is_admin
        then Group.set_admin_ids
               (pull (User.id current_user) (Group.admin_ids g)) g
        else g in
      do _ <- update_one groups_collection group_id
        (λ g, Group.set_updated_at (utcnow clock)
                (pull_admin (pull_member g)));
      reread_group group_id
  end.

(** ** Event routes ([app/routes/events.py]) *)

(** The reply is an [EventResponse] built from the [model_dump()] of the
    [Event], with the details added to the dump. *)
Definition get_event (event_id : string) (current_user : User.t)
  : Handler EventResponse.t :=
  do found <- find_one_by_id events_collection event_id Event.is_active;
  match found with
  | None => raise (mkHTTPException HTTP_404_NOT_FOUND "Event not found")
  | Some event =>
      do _ <- raise_if
        (bool_decide (Event.privacy event = EventPrivacy.PRIVATE) &&
         (bool_decide (User.id current_user ∉ Event.members event) &&
          bool_decide (User.id current_user ∉ Event.organizers event) &&
          bool_decide (User.id current_user ≠ Event.creator_id event)))
        (mkHTTPException HTTP_403_FORBIDDEN
           "Not authorized to view this private event");
      let organizer_ids := Event.organizers event in
      do organizer_details <- user_details organizer_ids;
      let member_ids := Event.members event in
      do member_details <- user_details member_ids;
      let participant_count :=
        (length organizer_ids + length member_ids)%nat in
      validate_aliased "id"
        (EventResponse.mk event organizer_details member_details
           participant_count)
  end.

(** ** User routes ([app/routes/users.py]) *)

Definition get_users (skip limit : nat) (current_user : User.t)
  : Handler (list User.t) :=
  do matched <- find users_collection UserInDB.is_active;
  let cursor := take limit (drop skip matched) in
  ret (User.of_doc <$> to_list limit cursor).

Definition get_user (user_id : string) (current_user : User.t)
  : Handler User.t :=
  do found <- find_one_by_id users_collection user_id UserInDB.is_active;
  match found with
  | None => raise (mkHTTPException HTTP_404_NOT_FOUND "User not found")
  | Some user => ret (User.of_doc user)
  end.

Definition deactivate (now : Z) (u : UserInDB.t) : UserInDB.t :=
  UserInDB.mk (UserInDB._id u) (UserInDB.username u) (UserInDB.email u)
    (UserInDB.first_name u) (UserInDB.last_name u)
    (UserInDB.profile_picture u) (UserInDB.hashed_password u) false
    (UserInDB.created_at u) now.

Definition delete_user (clock : Clock) (user_id : string)
    (current_user : User.t) : Handler unit :=
  do existing_user <-
    find_one_by_id users_collection user_id UserInDB.is_active;
  match existing_user with
  | None => raise (mkHTTPException HTTP_404_NOT_FOUND "User not found")
  | Some _ =>
      do _ <- raise_if (bool_decide (User.id current_user ≠ user_id))
        (mkHTTPException HTTP_403_FORBIDDEN
           "Not authorized to delete this user");
      update_one users_collection user_id (deactivate (utcnow clock))
  end.

(** ** Validators ([app/utils/validators.py]) *)

Definition validate_email_unique (email : string)
    (exclude_user_id : option string) : Handler unit :=
  let excluded (u : UserInDB.t) :=
    match exclude_user_id with
    | Some x => negb (bool_decide (x = "")) && bool_decide (UserInDB._id u = x)
    | None => false
    end in
  do existing_user <- find_one users_collection
    (λ u, bool_decide (UserInDB.email u = email) && UserInDB.is_active u &&
          negb (excluded u));
  raise_if (bool_decide (is_Some existing_user))
    (mkHTTPException HTTP_400_BAD_REQUEST "Email already registered").

(** ** Authentication routes ([app/routes/auth.py], [app/utils/security.py]) *)

Section auth.

(** [jwt.decode(token, SECRET_KEY, algorithms=[ALGORITHM])] at the instant of
    the request: the claims of the token, or [None] where the library raises
    [JWTError] (bad signature, malformed or expired token). *)
Variable jwt_decode : string → option (gmap string string).

(** [bcrypt.hashpw] with the salt drawn when the module was loaded. *)
Variable bcrypt_hashpw : string → string.

Definition credentials_exception : HTTPException :=
  mkHTTPException HTTP_401_UNAUTHORIZED "Could not validate credentials".

Definition get_current_user (token : string) : Handler User.t :=
  match jwt_decode token with
  | None => raise credentials_exception
  | Some payload =>
      match payload !! "sub" with
      | None => raise credentials_exception
      | Some user_id =>
          do user <- find_one_by_id users_collection user_id (λ _, true);
          match user with
          | None => raise credentials_exception
          | Some user => ret (User.of_doc user)
          end
      end
  end.

(** The source hashes the literal [b'password'], whatever it is given. *)
Definition get_password_hash (password : string) : string :=
  bcrypt_hashpw "password".

Definition register (clock : Clock) (user_data : UserCreate.t)
  : Handler User.t :=
  do _ <- validate_email_unique (UserCreate.email user_data) None;
  let hashed_password := get_password_hash (UserCreate.password user_data) in
  let user_dict :=
    UserInDB.mk ("user_" +:+ timestamp clock)
      (UserCreate.username user_data) (UserCreate.email user_data)
      (UserCreate.first_name user_data) (UserCreate.last_name user_data)
      (UserCreate.profile_picture user_data) hashed_password true
      (utcnow clock) (utcnow clock) in
  do _ <- insert_one users_collection (UserInDB._id user_dict) user_dict;
  ret (User.of_doc user_dict).

(** [GET /me] *)
Definition read_users_me (token : string) : Handler User.t :=
  get_current_user token.

End auth.

(** ** Poll routes ([app/routes/polls.py]) *)

(** The search of [vote_poll] through [poll["questions"]]: the first question
    whose [_id] is the one voted on; reading [question["_id"]] of a question
    that has none is a [KeyError]. *)
Inductive question_lookup :=
  | QuestionFound (question : Question.t)
  | QuestionNotFound
  | QuestionKeyError.

Fixpoint find_question (question_id : string) (questions : list Question.t)
  : question_lookup :=
  match questions with
  | [] => QuestionNotFound
  | question :: rest =>
      match Question._id question with
      | None => QuestionKeyError
      | Some qid =>
          if bool_decide (qid = question_id) then QuestionFound question
          else find_question question_id rest
      end
  end.

(** The components of a dotted path, as the server splits it. *)
Fixpoint split_dots (path : string) : list string :=
  match path with
  | EmptyString => [EmptyString]
  | String c rest =>
      if bool_decide (c = "."%char) then EmptyString :: split_dots rest
      else
        match split_dots rest with
        | [] => [String c EmptyString]
        | component :: components => String c component :: components
        end
  end.

(** The part of the [$inc] path of [vote_poll] below [response_counts]. *)
Definition field_path (answer : string) : list string := split_dots answer.

(** A component that an update path may hold: it is not empty and does not
    start with [$]. *)
Definition field_name (component : string) : bool :=
  match component with
  | EmptyString => false
  | String c _ => negb (bool_decide (c = "$"%char))
  end.

(** The document that [$inc] creates for the components it does not find. *)
Fixpoint nest (path : list string) (leaf : Counter.t) : Counter.t :=
  match path with
  | [] => leaf
  | name :: rest => Counter.Document {[name := nest rest leaf]}
  end.

(** [$inc] by 1 along a path inside a document: a missing field counts
    from 0, missing documents on the way are created, and the update is
    refused when the path runs through a number or ends on a document. *)
Fixpoint inc_path (path : list string) (doc : gmap string Counter.t)
  : option (gmap string Counter.t) :=
  match path with
  | [] => None
  | name :: rest =>
      match rest with
      | [] =>
          match doc !! name with
          | None => Some (<[name := Counter.Int 1]> doc)
          | Some (Counter.Int n) => Some (<[name := Counter.Int (n + 1)]> doc)
          | Some (Counter.Document _) => None
          end
      | _ :: _ =>
          match doc !! name with
          | None => Some (<[name := nest rest (Counter.Int 1)]> doc)
          | Some (Counter.Int _) => None
          | Some (Counter.Document fields) =>
              fields' ← inc_path rest fields;
              Some (<[name := Counter.Document fields']> doc)
          end
      end
  end.

(** [$inc] of ["response_counts." + answer] in one question. *)
Definition inc_response_count (answer : string) (q : Question.t)
  : option Question.t :=
  counts ← inc_path (field_path answer) (Question.response_counts q);
  Some (Question.set_response_counts counts q).

(** The positional [questions.$]: the first element of the array that the
    query [{"questions._id": question_id}] matches. *)
Fixpoint inc_matched_question (question_id answer : string)
    (questions : list Question.t) : option (list Question.t) :=
  match questions with
  | [] => Some []
  | question :: rest =>
      if bool_decide (Question._id question = Some question_id)
      then question' ← inc_response_count answer question;
           Some (question' :: rest)
      else rest' ← inc_matched_question question_id answer rest;
           Some (question :: rest')
  end.

(** The update of [vote_poll] on the poll stored under [poll_id]: both
    increments, when the query [{"questions._id": question_id}] selects the
    poll, and nothing when it does not. [None] is an update that the server
    refuses. *)
Definition record_vote (question_id answer : string) (p : Poll.t)
  : option Poll.t :=
  if bool_decide
       (Exists (λ q, Question._id q = Some question_id) (Poll.questions p))
  then
    questions ←
      inc_matched_question question_id answer (Poll.questions p);
    Some (Poll.set_counters (Poll.total_responses p + 1) questions p)
  else Some p.

Definition vote_poll (clock : Clock) (vote_data : VoteCreate.t)
    (current_user : User.t) : Handler VoteResponse.t :=
  do found <- find_one_by_id polls_collection (VoteCreate.poll_id vote_data)
                Poll.is_active;
  match found with
  | None => raise (mkHTTPException HTTP_404_NOT_FOUND "Poll not found")
  | Some poll =>
      do event <- find_one_by_id events_collection (Poll.event_id poll)
                    Event.is_active;
      do _ <- match event with
              | Some event =>
                  raise_if
                    (bool_decide (User.id current_user ∉ Event.members event)
                     && bool_decide
                          (User.id current_user ∉ Event.organizers event))
                    (mkHTTPException HTTP_403_FORBIDDEN
                       "Not authorized to vote in this poll")
              | None => ret tt
              end;
      do _ <- if negb (Poll.allow_multiple_votes poll) then
                do existing_vote <- find_one votes_collection
                  (λ v, bool_decide
                          (Vote.poll_id v = VoteCreate.poll_id vote_data) &&
                        bool_decide (Vote.user_id v = User.id current_user));
                raise_if (bool_decide (is_Some existing_vote))
                  (mkHTTPException HTTP_400_BAD_REQUEST
                     "You have already voted in this poll")
              else ret tt;
      do _ <- match find_question (VoteCreate.question_id vote_data)
                      (Poll.questions poll) with
              | QuestionKeyError => raise (unhandled "KeyError")
              | QuestionFound question =>
                  raise_if
                    (bool_decide
                       (VoteCreate.answer vote_data ∉ Question.answers question))
                    (mkHTTPException HTTP_400_BAD_REQUEST
                       "Invalid answer for this question")
              | QuestionNotFound =>
                  raise (mkHTTPException HTTP_404_NOT_FOUND
                           "Question not found in this poll")
              end;
      let vote_dict :=
        Vote.mk ("vote_" +:+ timestamp clock) (VoteCreate.poll_id vote_data)
          (VoteCreate.question_id vote_data) (User.id current_user)
          (VoteCreate.answer vote_data) (utcnow clock) in
      do _ <- insert_one votes_collection (Vote._id vote_dict) vote_dict;
      do _ <- raise_if
        (negb (forallb field_name (field_path (VoteCreate.answer vote_data))))
        (unhandled "WriteError");
      do _ <- update_one_or_fail polls_collection
                (VoteCreate.poll_id vote_data)
                (record_vote (VoteCreate.question_id vote_data)
                   (VoteCreate.answer vote_data));
      do updated_poll <- find_one_by_id polls_collection
                           (VoteCreate.poll_id vote_data) (λ _, true);
      let total_votes :=
        match updated_poll with
        | Some p => Poll.total_responses p
        | None => 0
        end in
      ret (VoteResponse.mk true "Vote recorded successfully"
             (VoteCreate.poll_id vote_data) (VoteCreate.question_id vote_data)
             (VoteCreate.answer vote_data) total_votes)
  end.

(** ** Ticket routes ([app/routes/tickets.py]) *)

(** [s[-n:]] *)
Definition last_chars (n : nat) (s : string) : string :=
  String.substring (String.length s - n) n s.

Definition purchase_ticket (clock : Clock) (purchase_data : TicketPurchase.t)
    (current_user : User.t) : Handler Ticket.t :=
  do found <- find_one_by_id ticket_types_collection
                (TicketPurchase.ticket_type_id purchase_data)
                TicketType.is_active;
  match found with
  | None =>
      raise (mkHTTPException HTTP_404_NOT_FOUND "Ticket type not found")
  | Some ticket_type =>
      let available :=
        TicketType.quantity ticket_type - TicketType.sold_count ticket_type in
      do _ <- raise_if (bool_decide (available ≤ 0))
        (mkHTTPException HTTP_400_BAD_REQUEST
           "No tickets available for this type");
      let max_per_person := TicketType.max_per_person ticket_type in
      do user_tickets_count <- count_documents tickets_collection
        (λ t, bool_decide
                (Ticket.ticket_type_id t =
                 TicketPurchase.ticket_type_id purchase_data) &&
              bool_decide (Ticket.buyer_id t = User.id current_user) &&
              Ticket.is_valid t);
      do _ <- raise_if
        (bool_decide (max_per_person ≤ Z.of_nat user_tickets_count))
        (mkHTTPException HTTP_400_BAD_REQUEST
           ("Maximum " +:+ pretty max_per_person +:+
            " ticket(s) per person reached"));
      let ticket_dict :=
        Ticket.mk
          ("ticket_" +:+ timestamp clock +:+ "_" +:+ User.id current_user)
          (TicketPurchase.ticket_type_id purchase_data)
          (TicketType.event_id ticket_type) (User.id current_user)
          (TicketPurchase.buyer_info purchase_data)
          ("TKT-" +:+ strftime_Ymd clock +:+ "-" +:+
             last_chars 6 (User.id current_user))
          (utcnow clock) true false None in
      do _ <- insert_one tickets_collection (Ticket._id ticket_dict)
                ticket_dict;
      do _ <- update_one ticket_types_collection
                (TicketPurchase.ticket_type_id purchase_data)
                (λ tt, TicketType.set_sold_count
                         (TicketType.sold_count tt + 1) tt);
      ret ticket_dict
  end.

Definition get_user_tickets (user_id : string) (current_user : User.t)
  : Handler (list Ticket.t) :=
  do _ <- raise_if (bool_decide (User.id current_user ≠ user_id))
    (mkHTTPException HTTP_403_FORBIDDEN
       "Not authorized to view other users' tickets");
  do tickets <- find tickets_collection
    (λ t, bool_decide (Ticket.buyer_id t = user_id) && Ticket.is_valid t);
  ret (to_list 100 tickets).

(** ** Shopping-list routes ([app/routes/shopping.py]) *)

Definition get_event_shopping_list (event_id : string)
    (current_user : User.t) : Handler ShoppingListResponse.t :=
  do event <- find_one_by_id events_collection event_id Event.is_active;
  match event with
  | None => raise (mkHTTPException HTTP_404_NOT_FOUND "Event not found")
  | Some event =>
      do _ <- raise_if
        (bool_decide (User.id current_user ∉ Event.members event) &&
         bool_decide (User.id current_user ∉ Event.organizers event))
        (mkHTTPException HTTP_403_FORBIDDEN
           "Not authorized to view shopping list for this event");
      do found <- find shopping_collection
        (λ i, bool_decide (ShoppingItemInDB.event_id i = event_id));
      let items := to_list 100 found in
      let total_items := length items in
      let brought_items :=
        length (filter (λ i, ShoppingItemInDB.is_brought i) items) in
      let pending_items := Z.of_nat total_items - Z.of_nat brought_items in
      ret (ShoppingListResponse.mk event_id total_items brought_items
             pending_items (ShoppingItem.of_doc <$> items))
  end.

(** ** The other validators ([app/utils/validators.py]) *)

Definition validate_user_exists (user_id : string) : Handler unit :=
  do user <- find_one_by_id users_collection user_id UserInDB.is_active;
  raise_if (bool_decide (user = None))
    (mkHTTPException HTTP_404_NOT_FOUND
       ("User with ID " +:+ user_id +:+ " not found")).

(** [for user_id in ids: await validate_user_exists(user_id)] *)
Fixpoint validate_users_exist (ids : list string) : Handler unit :=
  match ids with
  | [] => ret tt
  | user_id :: rest =>
      do _ <- validate_user_exists user_id;
      validate_users_exist rest
  end.

Module DiscussionType.
Inductive t := GROUP | EVENT.
#[global] Instance eq_dec : EqDecision t.
Proof. solve_decision. Defined.
End DiscussionType.

Module Discussion.
Record t := mk {
  _id : string;
  title : string;
  description : option string;
  discussion_type : DiscussionType.t;
  linked_id : string;
  creator_id : string;
  is_pinned : bool;
  is_active : bool;
  message_count : Z;
  created_at : Z;
  updated_at : Z }.
End Discussion.

Definition validate_discussion_access (discussion : Discussion.t)
    (user_id : string) : Handler unit :=
  let linked_id := Discussion.linked_id discussion in
  match Discussion.discussion_type discussion with
  | DiscussionType.GROUP =>
      do group <- find_one_by_id groups_collection linked_id Group.is_active;
      match group with
      | Some group =>
          raise_if
            (bool_decide (Group.type group = GroupType.SECRET) &&
             (bool_decide (user_id ∉ Group.member_ids group) &&
              bool_decide (user_id ∉ Group.admin_ids group)))
            (mkHTTPException HTTP_403_FORBIDDEN
               "Not authorized to access this discussion")
      | None => ret tt
      end
  | DiscussionType.EVENT =>
      do event <- find_one_by_id events_collection linked_id Event.is_active;
      match event with
      | Some event =>
          raise_if
            (bool_decide (Event.privacy event = EventPrivacy.PRIVATE) &&
             (bool_decide (user_id ∉ Event.members event) &&
              bool_decide (user_id ∉ Event.organizers event)))
            (mkHTTPException HTTP_403_FORBIDDEN
               "Not authorized to access this discussion")
      | None => ret tt
      end
  end.

(** ** The other group routes ([app/routes/groups.py]) *)

Module GroupCreate.
Record t := mk {
  name : string;
  description : option string;
  icon : option string;
  cover_photo : option string;
  type : GroupType.t;
  allow_member_posts : bool;
  allow_member_events : bool;
  admin_ids : list string }.
End GroupCreate.

(** Every field is optional; a field left out of the request and a field
    sent as [null] are both [None] and both stay out of the [$set]
    ([exclude_unset], [exclude_none]). *)
Module GroupUpdate.
Record t := mk {
  name : option string;
  description : option string;
  icon : option string;
  cover_photo : option string;
  type : option GroupType.t;
  allow_member_posts : option bool;
  allow_member_events : option bool }.
End GroupUpdate.

Definition create_group (clock : Clock) (group_data : GroupCreate.t)
    (current_user : User.t) : Handler Group.t :=
  do _ <- validate_users_exist (GroupCreate.admin_ids group_data);
  let admin_ids :=
    if bool_decide (User.id current_user ∉ GroupCreate.admin_ids group_data)
    then (GroupCreate.admin_ids group_data ++ [User.id current_user])%list
    else GroupCreate.admin_ids group_data in
  let group_dict :=
    Group.mk ("group_" +:+ timestamp clock) (GroupCreate.name group_data)
      (GroupCreate.description group_data) (GroupCreate.icon group_data)
      (GroupCreate.cover_photo group_data) (GroupCreate.type group_data)
      (GroupCreate.allow_member_posts group_data)
      (GroupCreate.allow_member_events group_data) admin_ids []
      (User.id current_user) true (utcnow clock) (utcnow clock) in
  do _ <- insert_one groups_collection (Group._id group_dict) group_dict;
  ret group_dict.

(** [$set] of the fields that the update carries, and of [updated_at]. *)
Definition set_group_fields (now : Z) (u : GroupUpdate.t) (g : Group.t)
  : Group.t :=
  Group.mk (Group._id g)
    (default (Group.name g) (GroupUpdate.name u))
    (from_option Some (Group.description g) (GroupUpdate.description u))
    (from_option Some (Group.icon g) (GroupUpdate.icon u))
    (from_option Some (Group.cover_photo g) (GroupUpdate.cover_photo u))
    (default (Group.type g) (GroupUpdate.type u))
    (default (Group.allow_member_posts g) (GroupUpdate.allow_member_posts u))
    (default (Group.allow_member_events g)
       (GroupUpdate.allow_member_events u))
    (Group.admin_ids g) (Group.member_ids g) (Group.creator_id g)
    (Group.is_active g) (Group.created_at g) now.

Definition update_group (clock : Clock) (group_id : string)
    (group_data : GroupUpdate.t) (current_user : User.t) : Handler Group.t :=
  do found <- find_one_by_id groups_collection group_id Group.is_active;
  match found with
  | None => raise (mkHTTPException HTTP_404_NOT_FOUND "Group not found")
  | Some group =>
      do _ <- raise_if
        (bool_decide (User.id current_user ∉ Group.admin_ids group) &&
         bool_decide (User.id current_user ≠ Group.creator_id group))
        (mkHTTPException HTTP_403_FORBIDDEN
           "Not authorized to update this group");
      do _ <- update_one groups_collection group_id
                (set_group_fields (utcnow clock) group_data);
      reread_group group_id
  end.

(** [$set] of [is_active] to [False] and of [updated_at]. *)
Definition deactivate_group (now : Z) (g : Group.t) : Group.t :=
  Group.mk (Group._id g) (Group.name g) (Group.description g) (Group.icon g)
    (Group.cover_photo g) (Group.type g) (Group.allow_member_posts g)
    (Group.allow_member_events g) (Group.admin_ids g) (Group.member_ids g)
    (Group.creator_id g) false (Group.created_at g) now.

Definition delete_group (clock : Clock) (group_id : string)
    (current_user : User.t) : Handler unit :=
  do found <- find_one_by_id groups_collection group_id Group.is_active;
  match found with
  | None => raise (mkHTTPException HTTP_404_NOT_FOUND "Group not found")
  | Some group =>
      do _ <- raise_if
        (bool_decide (User.id current_user ∉ Group.admin_ids group) &&
         bool_decide (User.id current_user ≠ Group.creator_id group))
        (mkHTTPException HTTP_403_FORBIDDEN
           "Not authorized to delete this group");
      update_one groups_collection group_id
        (deactivate_group (utcnow clock))
  end.

Definition promote_to_admin (clock : Clock) (group_id user_id : string)
    (current_user : User.t) : Handler Group.t :=
  do found <- find_one_by_id groups_collection group_id Group.is_active;
  match found with
  | None => raise (mkHTTPException HTTP_404_NOT_FOUND "Group not found")
  | Some group =>
      do _ <- raise_if
        (bool_decide (User.id current_user ∉ Group.admin_ids group) &&
         bool_decide (User.id current_user ≠ Group.creator_id group))
        (mkHTTPException HTTP_403_FORBIDDEN
           "Not authorized to promote members");
      do _ <- raise_if (bool_decide (user_id ∉ Group.member_ids group))
        (mkHTTPException HTTP_400_BAD_REQUEST
           "User is not a member of this group");
      do _ <- raise_if (bool_decide (user_id ∈ Group.admin_ids group))
        (mkHTTPException HTTP_400_BAD_REQUEST
           "User is already an administrator");
      do _ <- update_one groups_collection group_id
        (λ g, Group.set_updated_at (utcnow clock)
                (Group.set_admin_ids
                   (addToSet user_id (Group.admin_ids g)) g));
      reread_group group_id
  end.

Definition get_user_groups (user_id : string) (skip limit : nat)
    (current_user : User.t) : Handler (list Group.t) :=
  let query (g : Group.t) :=
    Group.is_active g &&
    (bool_decide (Group.creator_id g = user_id) ||
     bool_decide (user_id ∈ Group.admin_ids g) ||
     bool_decide (user_id ∈ Group.member_ids g)) in
  do matched <- find groups_collection query;
  let cursor := take limit (drop skip (sort_by_created_at_desc matched)) in
  ret (to_list limit cursor).

(** ** The other event routes ([app/routes/events.py]) *)

(** [.sort("start_date", 1)] *)
Definition earlier_first (e1 e2 : Event.t) : Prop :=
  Event.start_date e1 ≤ Event.start_date e2.

#[global] Instance earlier_first_dec : RelDecision earlier_first.
Proof. intros e1 e2. unfold earlier_first. apply _. Defined.

#[global] Instance earlier_first_total : Total earlier_first.
Proof. intros e1 e2. unfold earlier_first. lia. Qed.

Definition sort_by_start_date (l : list Event.t) : list Event.t :=
  merge_sort earlier_first l.

Definition get_events (skip limit : nat) (public_only : bool)
    (current_user : User.t) : Handler (list Event.t) :=
  let query (e : Event.t) :=
    Event.is_active e &&
    if public_only then bool_decide (Event.privacy e = EventPrivacy.PUBLIC)
    else
      bool_decide (Event.privacy e = EventPrivacy.PUBLIC) ||
      bool_decide (User.id current_user ∈ Event.members e) ||
      bool_decide (User.id current_user ∈ Event.organizers e) ||
      bool_decide (Event.creator_id e = User.id current_user) in
  do matched <- find events_collection query;
  let cursor := take limit (drop skip (sort_by_start_date matched)) in
  ret (to_list limit cursor).

(** Every field is optional; [None] stands for a field left out or sent as
    [null], both of which stay out of the [$set]. *)
Module EventUpdate.
Record t := mk {
  name : option string;
  description : option string;
  start_date : option Z;
  end_date : option Z;
  location : option string;
  cover_photo : option string;
  privacy : option EventPrivacy.t;
  organizers : option (list string);
  members : option (list string) }.
End EventUpdate.

Definition set_event_fields (now : Z) (u : EventUpdate.t) (e : Event.t)
  : Event.t :=
  Event.mk (Event._id e)
    (default (Event.name e) (EventUpdate.name u))
    (from_option Some (Event.description e) (EventUpdate.description u))
    (default (Event.start_date e) (EventUpdate.start_date u))
    (default (Event.end_date e) (EventUpdate.end_date u))
    (default (Event.location e) (EventUpdate.location u))
    (from_option Some (Event.cover_photo e) (EventUpdate.cover_photo u))
    (default (Event.privacy e) (EventUpdate.privacy u))
    (default (Event.organizers e) (EventUpdate.organizers u))
    (default (Event.members e) (EventUpdate.members u))
    (Event.group_id e) (Event.creator_id e) (Event.is_active e)
    (Event.created_at e) now.

(** The re-read by [_id] alone that ends the mutating event handlers. *)
Definition reread_event (event_id : string) : Handler Event.t :=
  do updated_event <- find_one_by_id events_collection event_id (λ _, true);
  match updated_event with
  | Some e => ret e
  | None => raise (unhandled "TypeError")
  end.

Definition update_event (clock : Clock) (event_id : string)
    (event_data : EventUpdate.t) (current_user : User.t) : Handler Event.t :=
  do found <- find_one_by_id events_collection event_id Event.is_active;
  match found with
  | None => raise (mkHTTPException HTTP_404_NOT_FOUND "Event not found")
  | Some event =>
      do _ <- raise_if
        (bool_decide (User.id current_user ∉ Event.organizers event) &&
         bool_decide (User.id current_user ≠ Event.creator_id event))
        (mkHTTPException HTTP_403_FORBIDDEN
           "Not authorized to update this event");
      do _ <- validate_users_exist
                (default [] (EventUpdate.organizers event_data));
      do _ <- validate_users_exist
                (default [] (EventUpdate.members event_data));
      do _ <- update_one events_collection event_id
                (set_event_fields (utcnow clock) event_data);
      reread_event event_id
  end.

(** [$set] of [is_active] to [False] and of [updated_at]. *)
Definition deactivate_event (now : Z) (e : Event.t) : Event.t :=
  Event.mk (Event._id e) (Event.name e) (Event.description e)
    (Event.start_date e) (Event.end_date e) (Event.location e)
    (Event.cover_photo e) (Event.privacy e) (Event.organizers e)
    (Event.members e) (Event.group_id e) (Event.creator_id e) false
    (Event.created_at e) now.

Definition delete_event (clock : Clock) (event_id : string)
    (current_user : User.t) : Handler unit :=
  do found <- find_one_by_id events_collection event_id Event.is_active;
  match found with
  | None => raise (mkHTTPException HTTP_404_NOT_FOUND "Event not found")
  | Some event =>
      do _ <- raise_if
        (bool_decide (User.id current_user ∉ Event.organizers event) &&
         bool_decide (User.id current_user ≠ Event.creator_id event))
        (mkHTTPException HTTP_403_FORBIDDEN
           "Not authorized to delete this event");
      update_one events_collection event_id (deactivate_event (utcnow clock))
  end.

(** [$addToSet] on [members] and [$set] of [updated_at]. *)
Definition add_member (now : Z) (user_id : string) (e : Event.t) : Event.t :=
  Event.mk (Event._id e) (Event.name e) (Event.description e)
    (Event.start_date e) (Event.end_date e) (Event.location e)
    (Event.cover_photo e) (Event.privacy e) (Event.organizers e)
    (addToSet user_id (Event.members e)) (Event.group_id e)
    (Event.creator_id e) (Event.is_active e) (Event.created_at e) now.

Definition join_event (clock : Clock) (event_id : string)
    (current_user : User.t) : Handler Event.t :=
  do found <- find_one_by_id events_collection event_id Event.is_active;
  match found with
  | None => raise (mkHTTPException HTTP_404_NOT_FOUND "Event not found")
  | Some event =>
      do _ <- raise_if
        (bool_decide (Event.privacy event ≠ EventPrivacy.PUBLIC))
        (mkHTTPException HTTP_403_FORBIDDEN
           "Cannot join a private event without invitation");
      do _ <- raise_if
        (bool_decide (User.id current_user ∈ Event.members event))
        (mkHTTPException HTTP_400_BAD_REQUEST
           "Already a member of this event");
      do _ <- raise_if
        (bool_decide (User.id current_user ∈ Event.organizers event))
        (mkHTTPException HTTP_400_BAD_REQUEST
           "Already an organizer of this event");
      do _ <- update_one events_collection event_id
                (add_member (utcnow clock) (User.id current_user));
      reread_event event_id
  end.

Definition get_user_events (user_id : string) (skip limit : nat)
    (current_user : User.t) : Handler (list Event.t) :=
  let query (e : Event.t) :=
    Event.is_active e &&
    (bool_decide (Event.creator_id e = user_id) ||
     bool_decide (user_id ∈ Event.organizers e) ||
     bool_decide (user_id ∈ Event.members e)) in
  do matched <- find events_collection query;
  let cursor := take limit (drop skip (sort_by_start_date matched)) in
  ret (to_list limit cursor).

(** ** The other user and authentication routes
    ([app/routes/users.py], [app/routes/auth.py]) *)

(** [UserUpdate] has no [email] field. *)
Module UserUpdate.
Record t := mk {
  username : option string;
  first_name : option string;
  last_name : option string;
  profile_picture : option string;
  password : option string }.
End UserUpdate.

(** After its two guards the handler reads [user_data.email]; the schema has
    no such attribute, so the read raises [AttributeError] and nothing below
    it runs. *)
Definition update_user (user_id : string) (user_data : UserUpdate.t)
    (current_user : User.t) : Handler User.t :=
  do existing_user <-
    find_one_by_id users_collection user_id UserInDB.is_active;
  match existing_user with
  | None => raise (mkHTTPException HTTP_404_NOT_FOUND "User not found")
  | Some _ =>
      do _ <- raise_if (bool_decide (User.id current_user ≠ user_id))
        (mkHTTPException HTTP_403_FORBIDDEN
           "Not authorized to update this user");
      raise (unhandled "AttributeError")
  end.

Module LoginRequest.
Record t := mk {
  username : string;
  password : string }.
End LoginRequest.

Module LoginResponse.
Record t := mk {
  access_token : string;
  token_type : string;
  user_id : string;
  email : string;
  username : string }.
End LoginResponse.

Section sessions.

(** [bcrypt.hashpw] with the module's salt and [pwd_context.verify]. *)
Variable bcrypt_hashpw : string → string.
Variable verify_password : string → string → bool.

(** [jwt.encode(claims, SECRET_KEY, algorithm=ALGORITHM)] and the configured
    lifetime of a token in minutes. *)
Variable jwt_encode : gmap string string → string.
Variable ACCESS_TOKEN_EXPIRE_MINUTES : Z.

Definition create_user (clock : Clock) (user_data : UserCreate.t)
    (current_user : User.t) : Handler User.t :=
  do _ <- validate_email_unique (UserCreate.email user_data) None;
  let hashed_password :=
    get_password_hash bcrypt_hashpw (UserCreate.password user_data) in
  let user_dict :=
    UserInDB.mk
      ("user_" +:+ timestamp clock +:+ "_" +:+ UserCreate.email user_data)
      (UserCreate.username user_data) (UserCreate.email user_data)
      (UserCreate.first_name user_data) (UserCreate.last_name user_data)
      (UserCreate.profile_picture user_data) hashed_password true
      (utcnow clock) (utcnow clock) in
  do _ <- insert_one users_collection (UserInDB._id user_dict) user_dict;
  ret (User.of_doc user_dict).

(** The clock counts seconds; a [timedelta] is a number of seconds, and a
    zero [timedelta] is falsy. *)
Definition create_access_token (clock : Clock) (data : gmap string string)
    (expires_delta : option Z) : string :=
  let expire :=
    match expires_delta with
    | Some delta =>
        if bool_decide (delta = 0)
        then utcnow clock + ACCESS_TOKEN_EXPIRE_MINUTES * 60
        else utcnow clock + delta
    | None => utcnow clock + ACCESS_TOKEN_EXPIRE_MINUTES * 60
    end in
  jwt_encode (<["exp" := pretty expire]> data).

Definition login (clock : Clock) (login_data : LoginRequest.t)
  : Handler LoginResponse.t :=
  do user <- find_one users_collection
    (λ u, bool_decide (UserInDB.email u = LoginRequest.username login_data));
  match user with
  | None =>
      raise (mkHTTPException HTTP_401_UNAUTHORIZED
               "Incorrect email or password")
  | Some user =>
      do _ <- raise_if
        (negb (verify_password (LoginRequest.password login_data)
                 (UserInDB.hashed_password user)))
        (mkHTTPException HTTP_401_UNAUTHORIZED "Incorrect email or password");
      do _ <- raise_if (negb (UserInDB.is_active user))
        (mkHTTPException HTTP_400_BAD_REQUEST "Inactive user");
      let access_token_expires := ACCESS_TOKEN_EXPIRE_MINUTES * 60 in
      let access_token :=
        create_access_token clock {["sub" := UserInDB._id user]}
          (Some access_token_expires) in
      ret (LoginResponse.mk access_token "bearer" (UserInDB._id user)
             (UserInDB.email user) (UserInDB.username user))
  end.

End sessions.

(** ** The other poll route modelled ([create_poll], [app/routes/polls.py]) *)

Module QuestionCreate.
Record t := mk {
  text : string;
  answers : list string }.
End QuestionCreate.

Module PollCreate.
Record t := mk {
  title : string;
  description : option string;
  event_id : string;
  questions : list QuestionCreate.t;
  is_anonymous : bool;
  allow_multiple_votes : bool }.
End PollCreate.

(** [{answer: 0 for answer in q_dict["answers"]}] *)
Definition zero_counts (answers : list string) : gmap string Counter.t :=
  list_to_map ((λ answer, (answer, Counter.Int 0)) <$> answers).

(** The question as [create_poll] stores it: the fields of the request and
    the counters, without [_id]. *)
Definition question_with_counts (q : QuestionCreate.t) : Question.t :=
  Question.mk None (QuestionCreate.text q) (QuestionCreate.answers q)
    (zero_counts (QuestionCreate.answers q)).

(** The handler ends by building the output schema from the stored
    dictionary; [Question] requires [_id] and [poll_id], which the stored
    questions lack, so with any question in the poll this is a
    [ValidationError], raised after the insert. *)
Definition create_poll (clock : Clock) (poll_data : PollCreate.t)
    (current_user : User.t) : Handler Poll.t :=
  do event <- find_one_by_id events_collection (PollCreate.event_id poll_data)
                Event.is_active;
  match event with
  | None => raise (mkHTTPException HTTP_404_NOT_FOUND "Event not found")
  | Some event =>
      do _ <- raise_if
        (bool_decide (User.id current_user ∉ Event.organizers event))
        (mkHTTPException HTTP_403_FORBIDDEN
           "Only event organizers can create polls");
      let questions_with_counts :=
        question_with_counts <$> PollCreate.questions poll_data in
      let poll_dict :=
        Poll.mk ("poll_" +:+ timestamp clock) (PollCreate.title poll_data)
          (PollCreate.description poll_data) (PollCreate.event_id poll_data)
          (User.id current_user) questions_with_counts
          (PollCreate.is_anonymous poll_data)
          (PollCreate.allow_multiple_votes poll_data) 0 true (utcnow clock)
          (utcnow clock) in
      do _ <- insert_one polls_collection (Poll._id poll_dict) poll_dict;
      match questions_with_counts with
      | [] => ret poll_dict
      | _ :: _ => raise (unhandled "ValidationError")
      end
  end.

(** ** The other shopping-list route ([create_shopping_item]) *)

Module ShoppingItemCreate.
Record t := mk {
  name : string;
  quantity : Z;
  unit : option string;
  event_id : string;
  arrival_time : option Z;
  notes : option string }.
End ShoppingItemCreate.

(** [arrival_time] is a [datetime.time], which [model_dump()] keeps as it
    is and BSON cannot encode: [insert_one] of a dictionary that carries one
    raises [InvalidDocument] before anything is sent to the server. *)
Definition create_shopping_item (clock : Clock)
    (item_data : ShoppingItemCreate.t) (current_user : User.t)
  : Handler ShoppingItem.t :=
  do event <- find_one_by_id events_collection
                (ShoppingItemCreate.event_id item_data) Event.is_active;
  match event with
  | None => raise (mkHTTPException HTTP_404_NOT_FOUND "Event not found")
  | Some event =>
      do _ <- raise_if
        (bool_decide (User.id current_user ∉ Event.members event) &&
         bool_decide (User.id current_user ∉ Event.organizers event))
        (mkHTTPException HTTP_403_FORBIDDEN
           "Not authorized to add items to this event's shopping list");
      do existing_item <- find_one shopping_collection
        (λ i, bool_decide (ShoppingItemInDB.event_id i =
                           ShoppingItemCreate.event_id item_data) &&
              bool_decide (ShoppingItemInDB.name i =
                           ShoppingItemCreate.name item_data) &&
              ShoppingItemInDB.is_active i);
      do _ <- raise_if (bool_decide (is_Some existing_item))
        (mkHTTPException HTTP_400_BAD_REQUEST
           "An item with this name already exists for this event");
      let item_dict :=
        ShoppingItemInDB.mk ("shopping_" +:+ timestamp clock)
          (ShoppingItemCreate.name item_data)
          (ShoppingItemCreate.quantity item_data)
          (ShoppingItemCreate.unit item_data)
          (ShoppingItemCreate.event_id item_data) (User.id current_user)
          (ShoppingItemCreate.arrival_time item_data)
          (ShoppingItemCreate.notes item_data) false true true
          (utcnow clock) (utcnow clock) in
      do _ <- raise_if
        (bool_decide (is_Some (ShoppingItemCreate.arrival_time item_data)))
        (unhandled "InvalidDocument");
      do _ <- insert_one shopping_collection (ShoppingItemInDB._id item_dict)
                item_dict;
      ret (ShoppingItem.of_doc item_dict)
  end.

(** ** Vocabulary of the properties *)

(** A participant of an event: one of its members or organizers, the test
    that [vote_poll] and the shopping-list routes apply. *)
Definition is_participant (user_id : string) (event : Event.t) : Prop :=
  user_id ∈ Event.members event ∨ user_id ∈ Event.organizers event.

(** The user has a vote on the poll in the [votes] collection. *)
Definition has_voted (db : Database) (poll_id user_id : string) : Prop :=
  ∃ id v, votes db !! id = Some v ∧ Vote.poll_id v = poll_id ∧
          Vote.user_id v = user_id.

(** The number that [response_counts] holds under a key; a key that is
    missing or holds an embedded document counts for 0. *)
Definition number (c : Counter.t) : Z :=
  match c with
  | Counter.Int n => n
  | Counter.Document _ => 0
  end.

Definition count_of (answer : string) (q : Question.t) : Z :=
  from_option number 0 (Question.response_counts q !! answer).

(** The counter of an answer in the question that a vote on [question_id]
    resolves to. *)
Definition response_count (question_id answer : string) (p : Poll.t) : Z :=
  match find_question question_id (Poll.questions p) with
  | QuestionFound q => count_of answer q
  | _ => 0
  end.

(** An answer without a dot: its [$inc] path has one component below
    [response_counts]. *)
Definition undotted (answer : string) : Prop := field_path answer = [answer].

(** The [$inc] of a vote for [answer] addresses a counter of the question:
    the answer is one field name, and what [response_counts] holds under it,
    if anything, is a number. *)
Definition addresses_counter (answer : string) (q : Question.t) : Prop :=
  undotted answer ∧ field_name answer = true ∧
  ∀ fields,
    Question.response_counts q !! answer ≠ Some (Counter.Document fields).

(** The question once the counter of [answer] has grown by 1. *)
Definition counted (answer : string) (q : Question.t) : Question.t :=
  Question.set_response_counts
    (<[answer := Counter.Int (count_of answer q + 1)]>
       (Question.response_counts q)) q.

(** The poll as the update of [vote_poll] leaves it: updated when the server
    accepts the update, as it was when it refuses. *)
Definition recorded (question_id answer : string) (p : Poll.t) : Poll.t :=
  if forallb field_name (field_path answer)
  then default p (record_vote question_id answer p)
  else p.

(** The number of valid tickets of a type that a buyer holds, as
    [purchase_ticket] counts them. *)
Definition valid_tickets_held (db : Database)
    (ticket_type_id buyer_id : string) : nat :=
  count_documents_in
    (λ t, bool_decide (Ticket.ticket_type_id t = ticket_type_id) &&
          bool_decide (Ticket.buyer_id t = buyer_id) && Ticket.is_valid t)
    (tickets db).

(** ** A small database to run the handlers on *)

Module Example.

Definition clock : Clock := mkClock 1000 "1700000000.5" "20231114".
Definition later : Clock := mkClock 2000 "1700000100.25" "20231114".

Definition alice_doc : UserInDB.t :=
  UserInDB.mk "user_1" "alice" "alice@example.com" None None None "hash" true
    1 1.
Definition bob_doc : UserInDB.t :=
  UserInDB.mk "user_2" "bob" "bob@example.com" None None None "hash" true 2 2.
(** carol has deleted her account. *)
Definition carol_doc : UserInDB.t :=
  UserInDB.mk "user_3" "carol" "carol@example.com" None None None "hash"
    false 3 9.
Definition dave_doc : UserInDB.t :=
  UserInDB.mk "user_4" "dave" "dave@example.com" None None None "hash" true
    4 4.

Definition alice : User.t := User.of_doc alice_doc.
Definition bob : User.t := User.of_doc bob_doc.
Definition carol : User.t := User.of_doc carol_doc.
Definition dave : User.t := User.of_doc dave_doc.

(** alice organizes a private party and has invited bob. *)
Definition party : Event.t :=
  Event.mk "event_1" "Party" None 100 200 "Paris" None EventPrivacy.PRIVATE
    ["user_1"] ["user_2"] None "user_1" true 5 5.

Definition club : Group.t :=
  Group.mk "group_1" "Club" None None None GroupType.SECRET true true
    ["user_1"] ["user_2"] "user_1" true 6 6.
Definition forum : Group.t :=
  Group.mk "group_2" "Forum" None None None GroupType.PUBLIC true true
    ["user_2"] [] "user_2" true 7 7.

Definition menu : Question.t :=
  Question.mk (Some "question_1") "Pizza?" ["yes"; "no"]
    (<["yes" := Counter.Int 0]> (<["no" := Counter.Int 0]> ∅)).
Definition survey : Poll.t :=
  Poll.mk "poll_1" "Food" None "event_1" "user_1" [menu] false false 0 true
    8 8.

(** One of the two standard tickets is sold, to alice; the only VIP ticket
    is gone. *)
Definition standard : TicketType.t :=
  TicketType.mk "ticket_type_1" "Standard" None "event_1" 2 1 1 true 9 9.
Definition vip : TicketType.t :=
  TicketType.mk "ticket_type_2" "VIP" None "event_1" 1 1 1 true 9 9.
Definition alice_ticket : Ticket.t :=
  Ticket.mk "ticket_1699999999.0_user_1" "ticket_type_1" "event_1" "user_1" ∅
    "TKT-20231113-user_1" 900 true false None.

(** The chips were taken off the list ([is_active] is false). *)
Definition chips : ShoppingItemInDB.t :=
  ShoppingItemInDB.mk "shopping_1" "chips" 2 None "event_1" "user_2" None
    None false true false 10 11.
Definition juice : ShoppingItemInDB.t :=
  ShoppingItemInDB.mk "shopping_2" "juice" 1 None "event_1" "user_1" None
    None false true true 12 12.

Definition db : Database :=
  mkDatabase
    (<["user_1" := alice_doc]> (<["user_2" := bob_doc]>
       (<["user_3" := carol_doc]> (<["user_4" := dave_doc]> ∅))))
    {["event_1" := party]}
    (<["group_1" := club]> {["group_2" := forum]})
    {["poll_1" := survey]}
    ∅
    (<["ticket_type_1" := standard]> {["ticket_type_2" := vip]})
    {["ticket_1699999999.0_user_1" := alice_ticket]}
    (<["shopping_1" := chips]> {["shopping_2" := juice]}).



(** A decoder that accepts one token, issued to carol before she left. *)
Definition jwt_decode (token : string) : option (gmap string string) :=
  if bool_decide (token = "token_of_carol") then Some {["sub" := "user_3"]}
  else None.

Definition bcrypt_hashpw (password : string) : string := "$2b$" +:+ password.

End Example.

(** ** Vocabulary of the further properties *)

(** The database after a write to one group, one event. *)
Definition with_group (group_id : string) (g : Group.t) (db : Database)
  : Database :=
  set_docs groups_collection (<[group_id := g]> (groups db)) db.

Definition with_event (event_id : string) (e : Event.t) (db : Database)
  : Database :=
  set_docs events_collection (<[event_id := e]> (events db)) db.

(** The group as [join_group] leaves it for a newcomer. *)
Definition joined_by (now : Z) (user_id : string) (g : Group.t) : Group.t :=
  Group.set_updated_at now
    (Group.set_member_ids (Group.member_ids g ++ [user_id]) g).

(** The database after [vote_poll] has stored a vote and sent its update. *)
Definition after_vote (clock : Clock) (poll_id question_id answer : string)
    (user_id : string) (db : Database) : Database :=
  set_docs polls_collection
    (alter (recorded question_id answer) poll_id (polls db))
    (set_docs votes_collection
       (<["vote_" +:+ timestamp clock :=
            Vote.mk ("vote_" +:+ timestamp clock) poll_id question_id user_id
              answer (utcnow clock)]> (votes db)) db).

(** A second example database, with a public event organized by alice. *)
Module More.

Definition picnic : Event.t :=
  Event.mk "event_2" "Picnic" None 300 400 "Lyon" None EventPrivacy.PUBLIC
    ["user_1"] [] None "user_1" true 13 13.

Definition db : Database := with_event "event_2" picnic Example.db.

(** A password check and a token encoder to run [login] with: the check
    accepts the password that [Example.bcrypt_hashpw] hashed. *)
Definition verify_password (plain_password hashed_password : string) : bool :=
  bool_decide (hashed_password = Example.bcrypt_hashpw plain_password).

Definition jwt_encode (claims : gmap string string) : string :=
  "token_of_" +:+ default "" (claims !! "sub").

End More.

(** The sum of the numbers in the [response_counts] of a question, of the
    questions of a poll. *)
Definition answer_total (q : Question.t) : Z :=
  map_fold (λ _ c acc, number c + acc) 0 (Question.response_counts q).

Definition tally (p : Poll.t) : Z :=
  foldr (λ q acc, answer_total q + acc) 0 (Poll.questions p).

(** [total_responses] is the sum of the numbers in the [response_counts] of
    the questions. *)
Definition well_counted (p : Poll.t) : Prop :=
  Poll.total_responses p = tally p.

(** The ticket that [purchase_ticket] issues and the database it leaves. *)
Definition issued_ticket (clock : Clock) (purchase_data : TicketPurchase.t)
    (current_user : User.t) (ticket_type : TicketType.t) : Ticket.t :=
  Ticket.mk ("ticket_" +:+ timestamp clock +:+ "_" +:+ User.id current_user)
    (TicketPurchase.ticket_type_id purchase_data)
    (TicketType.event_id ticket_type) (User.id current_user)
    (TicketPurchase.buyer_info purchase_data)
    ("TKT-" +:+ strftime_Ymd clock +:+ "-" +:+
       last_chars 6 (User.id current_user))
    (utcnow clock) true false None.

Definition after_purchase (ticket : Ticket.t) (db : Database) : Database :=
  set_docs ticket_types_collection
    (alter (λ tt, TicketType.set_sold_count (TicketType.sold_count tt + 1) tt)
       (Ticket.ticket_type_id ticket) (ticket_types db))
    (set_docs tickets_collection
       (<[Ticket._id ticket := ticket]> (tickets db)) db).

(** * Properties *)

(** ** Stepping through a handler *)

Section handler_laws.
Context {A B : Type}.
Implicit Types (k : A → Handler B) (db : Database).

Lemma bind_ret (a : A) k db : bind (ret a) k db = k a db.
Proof. reflexivity. Qed.

Lemma bind_raise e k db : bind (raise e) k db = (Raise e, db).
Proof. reflexivity. Qed.

Lemma bind_ok (m : Handler A) k db a db' :
  m db = (Ok a, db') → bind m k db = k a db'.
Proof. intros H. unfold bind. by rewrite H. Qed.

Lemma bind_fail (m : Handler A) k db e db' :
  m db = (Raise e, db') → bind m k db = (Raise e, db').
Proof. intros H. unfold bind. by rewrite H. Qed.

End handler_laws.

Lemma bind_assoc {A B C} (m : Handler A) (f : A → Handler B)
    (k : B → Handler C) db :
  bind (bind m f) k db = bind m (λ a, bind (f a) k) db.
Proof. unfold bind. by destruct (m db) as [[a|e] db']. Qed.

Lemma bind_raise_if_true {B} cond e (k : unit → Handler B) db :
  cond = true → bind (raise_if cond e) k db = (Raise e, db).
Proof. by intros ->. Qed.

Lemma bind_raise_if_false {B} cond e (k : unit → Handler B) db :
  cond = false → bind (raise_if cond e) k db = k tt db.
Proof. by intros ->. Qed.

Section collection_laws.
Context {D B : Type}.
Implicit Types (coll : Collection D) (q : D → bool) (db : Database).

Lemma bind_find coll q (k : list D → Handler B) db :
  bind (find coll q) k db = k (find_in q (docs coll db)) db.
Proof. reflexivity. Qed.

Lemma bind_find_one coll q (k : option D → Handler B) db :
  bind (find_one coll q) k db = k (find_one_in q (docs coll db)) db.
Proof. reflexivity. Qed.

Lemma bind_find_one_by_id coll id q (k : option D → Handler B) db :
  bind (find_one_by_id coll id q) k db =
  k (find_one_by_id_in id q (docs coll db)) db.
Proof. reflexivity. Qed.

Lemma bind_count_documents coll q (k : nat → Handler B) db :
  bind (count_documents coll q) k db =
  k (count_documents_in q (docs coll db)) db.
Proof. reflexivity. Qed.

Lemma bind_insert_one_fresh coll id d (k : unit → Handler B) db :
  docs coll db !! id = None →
  bind (insert_one coll id d) k db =
  k tt (set_docs coll (<[id := d]> (docs coll db)) db).
Proof. intros H. unfold bind, insert_one. by rewrite H. Qed.

Lemma bind_update_one coll id f (k : unit → Handler B) db :
  bind (update_one coll id f) k db =
  k tt (set_docs coll (alter f id (docs coll db)) db).
Proof. reflexivity. Qed.

End collection_laws.

(** ** Queries over a collection *)

Section collection_facts.
Context {D : Type}.
Implicit Types (c : gmap string D) (q : D → bool) (d : D).

Lemma find_one_by_id_in_Some id q c d :
  c !! id = Some d → q d = true → find_one_by_id_in id q c = Some d.
Proof. intros Hd Hq. unfold find_one_by_id_in. by rewrite Hd, Hq. Qed.

Lemma find_one_by_id_in_inactive id q c d :
  c !! id = Some d → q d = false → find_one_by_id_in id q c = None.
Proof. intros Hd Hq. unfold find_one_by_id_in. by rewrite Hd, Hq. Qed.

Lemma elem_of_documents c d : d ∈ documents c ↔ ∃ id, c !! id = Some d.
Proof.
  unfold documents. rewrite list_elem_of_fmap. split.
  - intros [[id d'] [-> Hin]]. exists id. by apply elem_of_map_to_list.
  - intros [id Hid]. exists (id, d). split; [done|].
    by apply elem_of_map_to_list.
Qed.

Lemma elem_of_find_in q c d :
  d ∈ find_in q c ↔ q d = true ∧ ∃ id, c !! id = Some d.
Proof.
  unfold find_in. rewrite list_elem_of_filter, elem_of_documents.
  by rewrite Is_true_true.
Qed.

Lemma find_one_in_None q c :
  (∀ id d, c !! id = Some d → q d = false) → find_one_in q c = None.
Proof.
  intros Hq. unfold find_one_in. apply head_None.
  destruct (find_in q c) as [|d l] eqn:E; [done|].
  assert (d ∈ find_in q c) as Hd by (rewrite E; left).
  apply elem_of_find_in in Hd as [Htrue [id Hid]].
  rewrite (Hq _ _ Hid) in Htrue. done.
Qed.

Lemma find_one_in_is_Some q c id d :
  c !! id = Some d → q d = true → is_Some (find_one_in q c).
Proof.
  intros Hid Hq. unfold find_one_in. apply head_is_Some.
  intros E. assert (d ∈ find_in q c) as Hd by (apply elem_of_find_in; eauto).
  rewrite E in Hd. by apply not_elem_of_nil in Hd.
Qed.

End collection_facts.

(** Steps that the proofs about the handlers repeat: a document found by
    its [_id], a guard that passes, a guard to split on. *)
Ltac stored := first [done | apply lookup_insert_eq].

Ltac found doc :=
  rewrite bind_find_one_by_id, (find_one_by_id_in_Some _ _ _ doc) by stored.

Ltac passes := rewrite bind_raise_if_false.

Lemma bind_raise_if {B} cond e (k : unit → Handler B) db :
  bind (raise_if cond e) k db = if cond then (Raise e, db) else k tt db.
Proof. by destruct cond. Qed.

Ltac branch H :=
  rewrite bind_raise_if;
  match goal with |- context [if ?c then (Raise _, _) else _] =>
    destruct c eqn:H end.

Lemma alter_stored {D} (f : D → D) (c : gmap string D) id d :
  c !! id = Some d → alter f id c = <[id := f d]> c.
Proof.
  intros Hd. apply map_eq. intros i. destruct (decide (i = id)) as [->|Hne].
  - by rewrite lookup_alter_eq, lookup_insert_eq, Hd.
  - by rewrite lookup_alter_ne, lookup_insert_ne.
Qed.

Lemma bind_insert_one_taken {D B} (coll : Collection D) id d d'
    (k : unit → Handler B) db :
  docs coll db !! id = Some d' →
  bind (insert_one coll id d) k db =
    (Raise (unhandled "DuplicateKeyError"), db).
Proof. intros H. unfold bind, insert_one. by rewrite H. Qed.

Lemma bind_update_one_or_fail_ok {D B} (coll : Collection D) id
    (f : D → option D) d d' (k : unit → Handler B) db :
  docs coll db !! id = Some d → f d = Some d' →
  bind (update_one_or_fail coll id f) k db =
    k tt (set_docs coll (<[id := d']> (docs coll db)) db).
Proof. intros Hd Hf. unfold bind, update_one_or_fail. by rewrite Hd, Hf. Qed.

Lemma bind_update_one_or_fail_refused {D B} (coll : Collection D) id
    (f : D → option D) d (k : unit → Handler B) db :
  docs coll db !! id = Some d → f d = None →
  bind (update_one_or_fail coll id f) k db =
    (Raise (unhandled "WriteError"), db).
Proof. intros Hd Hf. unfold bind, update_one_or_fail. by rewrite Hd, Hf. Qed.

(** A page of a cursor holds only documents of the cursor, and holds the
    document at every rank between [skip] and [skip + limit]. *)
Lemma elem_of_page {A} (x : A) skip limit l :
  x ∈ take limit (take limit (drop skip l)) → x ∈ l.
Proof.
  intros H. apply elem_of_take in H as (i & H & _).
  apply lookup_take_Some in H as [H _]. rewrite lookup_drop in H.
  apply list_elem_of_lookup. eauto.
Qed.

Lemma lookup_page {A} (x : A) skip limit l rank :
  l !! rank = Some x → (skip ≤ rank < skip + limit)%nat →
  x ∈ take limit (take limit (drop skip l)).
Proof.
  intros H Hr. apply list_elem_of_lookup. exists (rank - skip)%nat.
  rewrite !lookup_take_lt, lookup_drop by lia.
  by replace (skip + (rank - skip))%nat with rank by lia.
Qed.

Lemma elem_of_sort_by_created_at_desc g l :
  g ∈ sort_by_created_at_desc l ↔ g ∈ l.
Proof. unfold sort_by_created_at_desc. by rewrite merge_sort_Permutation. Qed.

Lemma user_details_total ids db : ∃ l, user_details ids db = (Ok l, db).
Proof. destruct ids; eexists; reflexivity. Qed.

(** ** Groups *)

(** C2. In an active group whose [admin_ids] is the one-element list holding
    the caller, [leave_group] raises 400 "Cannot leave group as the only
    administrator" and hands back the database it was given: [member_ids],
    [admin_ids] and every other field of the group are what they were. *)
Theorem leave_group_sole_admin clock db group_id group current_user :
  groups db !! group_id = Some group →
  Group.is_active group = true →
  Group.admin_ids group = [User.id current_user] →
  leave_group clock group_id current_user db =
    (Raise (mkHTTPException HTTP_400_BAD_REQUEST
              "Cannot leave group as the only administrator"), db).
Proof.
  intros Hg Hact Hadm. unfold leave_group.
  rewrite bind_find_one_by_id.
  rewrite (find_one_by_id_in_Some _ _ _ group) by done.
  rewrite Hadm.
  rewrite bind_raise_if_false.
  2:{ apply andb_false_intro2, bool_decide_eq_false_2. set_solver. }
  rewrite bind_raise_if_true; [done|].
  rewrite !andb_true_iff, !bool_decide_eq_true. set_solver.
Qed.

Lemma leave_group_sole_admin_witness :
  leave_group Example.clock "group_1" Example.alice Example.db =
    (Raise (mkHTTPException HTTP_400_BAD_REQUEST
              "Cannot leave group as the only administrator"), Example.db).
Proof.
  apply (leave_group_sole_admin Example.clock Example.db "group_1"
           Example.club Example.alice); reflexivity.
Defined.

(** C8. For an active secret group, [get_group] raises 403 for a caller who
    is neither member, admin nor creator, and [join_group] raises 403 for
    every caller; neither touches the database. *)
Theorem secret_group_hidden_and_closed db group_id group :
  groups db !! group_id = Some group →
  Group.is_active group = true →
  Group.type group = GroupType.SECRET →
  (∀ current_user,
     User.id current_user ∉ Group.member_ids group →
     User.id current_user ∉ Group.admin_ids group →
     User.id current_user ≠ Group.creator_id group →
     get_group group_id current_user db =
       (Raise (mkHTTPException HTTP_403_FORBIDDEN
                 "Not authorized to view this secret group"), db)) ∧
  (∀ clock current_user,
     join_group clock group_id current_user db =
       (Raise (mkHTTPException HTTP_403_FORBIDDEN
                 "Cannot join a secret group without invitation"), db)).
Proof.
  intros Hg Hact Hty. split.
  - intros u Hm Ha Hc. unfold get_group.
    rewrite bind_find_one_by_id, (find_one_by_id_in_Some _ _ _ group) by done.
    rewrite bind_raise_if_true; [done|].
    rewrite !andb_true_iff, !bool_decide_eq_true. done.
  - intros clock u. unfold join_group.
    rewrite bind_find_one_by_id, (find_one_by_id_in_Some _ _ _ group) by done.
    rewrite bind_raise_if_true; [done|]. by apply bool_decide_eq_true.
Qed.

(** dave is a stranger to the club; alice, its creator and admin, cannot
    join it either. *)
Lemma secret_group_hidden_and_closed_witness :
  get_group "group_1" Example.dave Example.db =
    (Raise (mkHTTPException HTTP_403_FORBIDDEN
              "Not authorized to view this secret group"), Example.db) ∧
  join_group Example.clock "group_1" Example.alice Example.db =
    (Raise (mkHTTPException HTTP_403_FORBIDDEN
              "Cannot join a secret group without invitation"), Example.db).
Proof.
  destruct (secret_group_hidden_and_closed Example.db "group_1" Example.club
              eq_refl eq_refl eq_refl) as [Hget Hjoin].
  split; [|apply Hjoin].
  apply Hget; [apply (bool_decide_unpack _) ..|]; by vm_compute.
Defined.

(** C10. An active secret group has a rank in the listing that
    [get_groups] builds for [group_type=secret], the same for every caller,
    and every page that covers that rank contains the group: no membership
    or admin test is applied. Without a type filter no page contains it. *)
Theorem get_groups_secret_filter db group_id group :
  groups db !! group_id = Some group →
  Group.is_active group = true →
  Group.type group = GroupType.SECRET →
  (∃ rank, ∀ current_user skip limit,
     (skip ≤ rank < skip + limit)%nat →
     ∃ page,
       get_groups skip limit (Some GroupType.SECRET) current_user db =
         (Ok page, db) ∧
       group ∈ page) ∧
  (∀ current_user skip limit page,
     get_groups skip limit None current_user db = (Ok page, db) →
     group ∉ page).
Proof.
  intros Hg Hact Hty. split.
  - set (q := λ g : Group.t,
        Group.is_active g && bool_decide (Group.type g = GroupType.SECRET)).
    assert (group ∈ sort_by_created_at_desc (find_in q (groups db))) as Hin.
    { apply elem_of_sort_by_created_at_desc, elem_of_find_in. split; [|eauto].
      unfold q. rewrite Hact. by apply bool_decide_eq_true. }
    apply list_elem_of_lookup in Hin as [rank Hrank]. exists rank.
    intros u skip limit Hr. eexists. split; [reflexivity|].
    unfold to_list. by eapply lookup_page.
  - intros u skip limit page Hpage. unfold get_groups in Hpage.
    rewrite bind_find in Hpage. injection Hpage as <-.
    intros Hin. apply elem_of_page in Hin.
    rewrite elem_of_sort_by_created_at_desc, elem_of_find_in in Hin.
    destruct Hin as [Hq _].
    apply andb_true_iff in Hq as [_ Hq]. apply bool_decide_eq_true in Hq.
    rewrite Hty, !elem_of_cons, elem_of_nil in Hq.
    by destruct Hq as [?|[?|?]].
Qed.

Lemma get_groups_secret_filter_witness :
  (∃ rank, ∀ current_user skip limit,
     (skip ≤ rank < skip + limit)%nat →
     ∃ page,
       get_groups skip limit (Some GroupType.SECRET) current_user Example.db =
         (Ok page, Example.db) ∧
       Example.club ∈ page) ∧
  (∀ current_user skip limit page,
     get_groups skip limit None current_user Example.db =
       (Ok page, Example.db) →
     Example.club ∉ page).
Proof.
  apply (get_groups_secret_filter Example.db "group_1" Example.club);
    reflexivity.
Defined.

(** dave, who has nothing to do with the club, is shown it. *)
Lemma get_groups_secret_example :
  get_groups 0 10 (Some GroupType.SECRET) Example.dave Example.db =
    (Ok [Example.club], Example.db).
Proof. vm_compute. reflexivity. Qed.

(** ** Events *)

(** What C7 says of a stranger holds: for an active private event,
    [get_event] raises 403 for a caller who is not its creator, not an
    organizer and not a member. *)
Lemma private_event_stranger_forbidden db event_id event current_user :
  events db !! event_id = Some event →
  Event.is_active event = true →
  Event.privacy event = EventPrivacy.PRIVATE →
  User.id current_user ≠ Event.creator_id event →
  User.id current_user ∉ Event.organizers event →
  User.id current_user ∉ Event.members event →
  get_event event_id current_user db =
    (Raise (mkHTTPException HTTP_403_FORBIDDEN
              "Not authorized to view this private event"), db).
Proof.
  intros He Hact Hpriv Hc Ho Hm. unfold get_event.
  rewrite bind_find_one_by_id, (find_one_by_id_in_Some _ _ _ event) by done.
  rewrite bind_raise_if_true; [done|].
  rewrite !andb_true_iff, !bool_decide_eq_true. done.
Qed.

(** A caller whom the access test of [get_event] lets through gets no event:
    the reply fails its validation. *)
Lemma get_event_reply_fails db event_id event current_user :
  events db !! event_id = Some event →
  Event.is_active event = true →
  Event.privacy event ≠ EventPrivacy.PRIVATE ∨
    User.id current_user ∈ Event.members event ∨
    User.id current_user ∈ Event.organizers event ∨
    User.id current_user = Event.creator_id event →
  get_event event_id current_user db =
    (Raise (unhandled "ValidationError"), db).
Proof.
  intros He Hact Hmay. unfold get_event.
  rewrite bind_find_one_by_id, (find_one_by_id_in_Some _ _ _ event) by done.
  rewrite bind_raise_if_false.
  2:{ rewrite !andb_false_iff, !bool_decide_eq_false.
      destruct Hmay as [?|[?|[?|?]]]; [by left|right..].
      - left. left. by intros ?.
      - left. right. by intros ?.
      - right. by intros ?. }
  cbv zeta.
  destruct (user_details_total (Event.organizers event) db) as [od Hod].
  rewrite (bind_ok _ _ _ _ _ Hod).
  destruct (user_details_total (Event.members event) db) as [md Hmd].
  rewrite (bind_ok _ _ _ _ _ Hmd).
  reflexivity.
Qed.

(** C7. A member of an active private event is not served the event by
    [get_event]: the access test lets the member through, and the reply,
    built from the dump of the [Event], fails its validation, an unhandled
    error that is answered with status 500, not 200. *)
Theorem private_event_member_not_served db event_id event current_user :
  events db !! event_id = Some event →
  Event.is_active event = true →
  Event.privacy event = EventPrivacy.PRIVATE →
  User.id current_user ∈ Event.members event →
  ∃ e,
    get_event event_id current_user db = (Raise e, db) ∧
    e = unhandled "ValidationError" ∧
    status_code e = HTTP_500_INTERNAL_SERVER_ERROR.
Proof.
  intros He Hact Hpriv Hm. eexists. split; [|done].
  apply (get_event_reply_fails db event_id event); auto.
Qed.

(** bob, a member of the party, asks for it and gets a 500. *)
Lemma private_event_member_not_served_witness :
  ∃ e,
    get_event "event_1" Example.bob Example.db = (Raise e, Example.db) ∧
    e = unhandled "ValidationError" ∧
    status_code e = HTTP_500_INTERNAL_SERVER_ERROR.
Proof.
  apply (private_event_member_not_served Example.db "event_1" Example.party
           Example.bob eq_refl eq_refl eq_refl).
  apply (bool_decide_unpack _). by vm_compute.
Defined.

(** ** Reads and the [is_active] flag *)

(** The user routes filter on [is_active]: a deleted account is on no page of
    [get_users], and [get_user] answers 404 for it. *)
Lemma get_users_only_active skip limit current_user db page db' :
  get_users skip limit current_user db = (Ok page, db') →
  ∀ user, user ∈ page → User.is_active user = true.
Proof.
  unfold get_users. rewrite bind_find. intros [= <- <-] user Hin.
  apply list_elem_of_fmap in Hin as (doc & -> & Hin).
  apply elem_of_page in Hin. by apply elem_of_find_in in Hin as [? _].
Qed.

Lemma get_user_inactive user_id current_user db doc :
  users db !! user_id = Some doc →
  UserInDB.is_active doc = false →
  get_user user_id current_user db =
    (Raise (mkHTTPException HTTP_404_NOT_FOUND "User not found"), db).
Proof.
  intros Hdoc Hact. unfold get_user.
  by rewrite bind_find_one_by_id, (find_one_by_id_in_inactive _ _ _ doc).
Qed.

(** [get_user_tickets] filters on [is_valid]. *)
Lemma get_user_tickets_only_valid user_id current_user db page db' :
  get_user_tickets user_id current_user db = (Ok page, db') →
  ∀ ticket, ticket ∈ page → Ticket.is_valid ticket = true.
Proof.
  unfold get_user_tickets, raise_if.
  destruct (bool_decide _); [done|]. rewrite bind_ret, bind_find. unfold ret.
  intros Hpage ticket Hin.
  assert (to_list 100
            (find_in (λ t, bool_decide (Ticket.buyer_id t = user_id) &&
                           Ticket.is_valid t) (docs tickets_collection db))
          = page) as Hp by congruence.
  rewrite <- Hp in Hin. unfold to_list in Hin.
  apply elem_of_take in Hin as (i & Hi & _).
  apply (list_elem_of_lookup_2 _ _ _) in Hi.
  apply elem_of_find_in in Hi as [Hq _].
  by apply andb_true_iff in Hq as [_ ?].
Qed.

(** C1. The shopping-list route does not filter on [is_active]: in the
    example database the chips, whose [is_active] is false, are among the
    items that [get_event_shopping_list] returns to bob, a member of the
    event, and they are counted in [total_items]. *)
Theorem inactive_shopping_item_listed :
  ∃ response,
    get_event_shopping_list "event_1" Example.bob Example.db =
      (Ok response, Example.db) ∧
    ShoppingItemInDB.is_active Example.chips = false ∧
    ShoppingItem.of_doc Example.chips ∈ ShoppingListResponse.items response ∧
    ShoppingListResponse.total_items response = 2%nat.
Proof.
  eexists. split; [vm_compute; reflexivity|]. split; [reflexivity|].
  split; [|reflexivity]. apply list_elem_of_In. vm_compute. auto.
Qed.

(** The same holds of every database: whatever the event, an item of it is
    listed to a participant without regard to its [is_active] flag, as long
    as it is among the first hundred of the cursor. *)
Lemma get_event_shopping_list_ignores_is_active
    event_id current_user db event rank item :
  events db !! event_id = Some event →
  Event.is_active event = true →
  is_participant (User.id current_user) event →
  find_in (λ i, bool_decide (ShoppingItemInDB.event_id i = event_id))
    (shopping_items db) !! rank = Some item →
  (rank < 100)%nat →
  ∃ response,
    get_event_shopping_list event_id current_user db = (Ok response, db) ∧
    ShoppingItem.of_doc item ∈ ShoppingListResponse.items response.
Proof.
  intros He Hact Hpart Hitem Hrank. unfold get_event_shopping_list.
  rewrite bind_find_one_by_id, (find_one_by_id_in_Some _ _ _ event) by done.
  rewrite bind_raise_if_false.
  2:{ destruct Hpart.
      - apply andb_false_intro1, bool_decide_eq_false_2. tauto.
      - apply andb_false_intro2, bool_decide_eq_false_2. tauto. }
  rewrite bind_find. eexists. split; [reflexivity|].
  cbn [ShoppingListResponse.items].
  apply list_elem_of_fmap_2, list_elem_of_lookup. exists rank.
  unfold to_list. by rewrite lookup_take_lt.
Qed.

(** ** Authentication *)

Section authentication.
Variable jwt_decode : string → option (gmap string string).

(** A token that does not decode, a token without subject and a subject that
    is not in the [users] collection are answered 401. *)
Lemma get_current_user_bad_token token db :
  jwt_decode token = None →
  get_current_user jwt_decode token db = (Raise credentials_exception, db).
Proof. intros H. unfold get_current_user. by rewrite H. Qed.

Lemma get_current_user_no_subject token payload db :
  jwt_decode token = Some payload →
  payload !! "sub" = None →
  get_current_user jwt_decode token db = (Raise credentials_exception, db).
Proof. intros H Hsub. unfold get_current_user. by rewrite H, Hsub. Qed.

Lemma get_current_user_unknown_user token payload user_id db :
  jwt_decode token = Some payload →
  payload !! "sub" = Some user_id →
  users db !! user_id = None →
  get_current_user jwt_decode token db = (Raise credentials_exception, db).
Proof.
  intros H Hsub Hu. unfold get_current_user. rewrite H, Hsub.
  rewrite bind_find_one_by_id. unfold find_one_by_id_in.
  by change (docs users_collection db) with (users db); rewrite Hu.
Qed.

(** C4. [get_current_user] looks the subject up by [_id] alone: a token that
    decodes to the id of a stored user authenticates as that user although
    the user's [is_active] is false. *)
Theorem soft_deleted_user_authenticates token payload user_id user db :
  jwt_decode token = Some payload →
  payload !! "sub" = Some user_id →
  users db !! user_id = Some user →
  UserInDB.is_active user = false →
  get_current_user jwt_decode token db = (Ok (User.of_doc user), db).
Proof.
  intros H Hsub Hu _. unfold get_current_user. rewrite H, Hsub.
  by rewrite bind_find_one_by_id, (find_one_by_id_in_Some _ _ _ user).
Qed.

End authentication.

(** carol, whose account is deleted, still passes with her old token, and
    [GET /me] shows her record. *)
Lemma soft_deleted_user_authenticates_witness :
  UserInDB.is_active Example.carol_doc = false ∧
  read_users_me Example.jwt_decode "token_of_carol" Example.db =
    (Ok Example.carol, Example.db).
Proof.
  split; [reflexivity|].
  apply (soft_deleted_user_authenticates Example.jwt_decode "token_of_carol"
           {["sub" := "user_3"]} "user_3" Example.carol_doc Example.db);
    reflexivity.
Defined.

(** ** Registration *)

Lemma validate_email_unique_taken email db id holder :
  users db !! id = Some holder →
  UserInDB.is_active holder = true →
  UserInDB.email holder = email →
  validate_email_unique email None db =
    (Raise (mkHTTPException HTTP_400_BAD_REQUEST "Email already registered"),
     db).
Proof.
  intros Hid Hact Hmail. unfold validate_email_unique.
  rewrite bind_find_one. unfold raise_if.
  rewrite bool_decide_eq_true_2; [done|].
  eapply find_one_in_is_Some; [exact Hid|].
  rewrite Hact. by rewrite bool_decide_eq_true_2 by done.
Qed.

Lemma validate_email_unique_free email db :
  (∀ id u, users db !! id = Some u →
     UserInDB.is_active u = true → UserInDB.email u ≠ email) →
  validate_email_unique email None db = (Ok tt, db).
Proof.
  intros Hfree. unfold validate_email_unique.
  rewrite bind_find_one. unfold raise_if.
  rewrite find_one_in_None; [done|].
  intros id u Hu. destruct (UserInDB.is_active u) eqn:Hact.
  - by rewrite bool_decide_eq_false_2 by eauto.
  - by rewrite andb_false_r.
Qed.

(** C9. While an active user holds the email, [register] raises 400 "Email
    already registered" (the status of the Conflict/BadRequest class) and
    leaves the database as it was. Once that user, the only active holder,
    has deleted the account, which keeps the record with [is_active] false,
    [register] with the same email inserts a new active user under the
    generated [_id], provided that [_id] is not taken. *)
Theorem register_email_unique_among_active
    bcrypt_hashpw clock db user_data holder_id holder :
  users db !! holder_id = Some holder →
  UserInDB.is_active holder = true →
  UserInDB.email holder = UserCreate.email user_data →
  register bcrypt_hashpw clock user_data db =
    (Raise (mkHTTPException HTTP_400_BAD_REQUEST "Email already registered"),
     db) ∧
  ∀ clock' current_user,
    User.id current_user = holder_id →
    (∀ id u, users db !! id = Some u → UserInDB.is_active u = true →
       UserInDB.email u = UserCreate.email user_data → id = holder_id) →
    users db !! ("user_" +:+ timestamp clock) = None →
    ∃ db' user db'',
      delete_user clock' holder_id current_user db = (Ok tt, db') ∧
      users db' !! holder_id = Some (deactivate (utcnow clock') holder) ∧
      register bcrypt_hashpw clock user_data db' = (Ok user, db'') ∧
      User.email user = UserCreate.email user_data ∧
      User.is_active user = true ∧
      (∃ doc, users db'' !! User.id user = Some doc ∧ User.of_doc doc = user)
      ∧ users db'' !! holder_id = Some (deactivate (utcnow clock') holder).
Proof.
  intros Hh Hact Hmail. split.
  - unfold register. erewrite bind_fail; [done|].
    by eapply validate_email_unique_taken.
  - intros clock' u Hu Honly Hfresh.
    assert ("user_" +:+ timestamp clock ≠ holder_id) as Hne by congruence.
    eexists _, _, _. split; [|split; [|split]].
    + unfold delete_user.
      rewrite bind_find_one_by_id,
        (find_one_by_id_in_Some _ _ _ holder) by done.
      rewrite bind_raise_if_false by (apply bool_decide_eq_false; tauto).
      reflexivity.
    + simpl. by rewrite lookup_alter_eq, Hh.
    + unfold register. erewrite bind_ok; cycle 1.
      { apply validate_email_unique_free. simpl.
        intros id d Hd Hd_act Hd_mail.
        destruct (decide (id = holder_id)) as [->|Hid].
        - rewrite lookup_alter_eq, Hh in Hd. by injection Hd as <-.
        - rewrite lookup_alter_ne in Hd by done. eauto. }
      cbv zeta. rewrite bind_insert_one_fresh; [reflexivity|].
      simpl. by rewrite lookup_alter_ne by done.
    + simpl. repeat split; try done.
      * eexists. split; [apply lookup_insert_eq|done].
      * rewrite lookup_insert_ne by done. by rewrite lookup_alter_eq, Hh.
Qed.

(** A second account on alice's address is refused; after alice has deleted
    hers it is accepted. *)
Lemma register_email_unique_among_active_witness :
  let user_data :=
    UserCreate.mk "alice2" "alice@example.com" None None None "password1" in
  register Example.bcrypt_hashpw Example.clock user_data Example.db =
    (Raise (mkHTTPException HTTP_400_BAD_REQUEST "Email already registered"),
     Example.db) ∧
  ∃ db' user db'',
    delete_user Example.later "user_1" Example.alice Example.db =
      (Ok tt, db') ∧
    register Example.bcrypt_hashpw Example.clock user_data db' =
      (Ok user, db'') ∧
    User.email user = "alice@example.com" ∧
    User.is_active user = true ∧
    UserInDB.is_active <$> users db'' !! "user_1" = Some false.
Proof.
  intros user_data.
  destruct (register_email_unique_among_active Example.bcrypt_hashpw
              Example.clock Example.db user_data "user_1" Example.alice_doc
              eq_refl eq_refl eq_refl) as [Hrefused Hthen].
  split; [exact Hrefused|].
  destruct (Hthen Example.later Example.alice eq_refl)
    as (db' & user & db'' & Hdel & _ & Hreg & Hmail & Hact & _ & Hold).
  - apply (bool_decide_unpack
             (map_Forall (λ id u,
                UserInDB.is_active u = true →
                UserInDB.email u = "alice@example.com" → id = "user_1")
                (users Example.db))).
    by vm_compute.
  - reflexivity.
  - exists db', user, db''.
    split; [exact Hdel|]. split; [exact Hreg|]. split; [exact Hmail|].
    split; [exact Hact|]. rewrite Hold. reflexivity.
Defined.

(** ** Tickets *)

(** C6. For an active ticket type, [purchase_ticket] raises 400 when nothing
    remains of [quantity - sold_count], and raises 400 when the buyer holds
    [max_per_person] valid tickets of the type although some remain; in both
    cases the database is left as it was. Otherwise the ticket is inserted
    under its generated [_id] (which must be free) and [sold_count] grows
    by 1. *)
Theorem purchase_ticket_limits
    clock db ticket_type_id buyer_info current_user ticket_type :
  ticket_types db !! ticket_type_id = Some ticket_type →
  TicketType.is_active ticket_type = true →
  (TicketType.quantity ticket_type - TicketType.sold_count ticket_type ≤ 0 →
     purchase_ticket clock (TicketPurchase.mk ticket_type_id buyer_info)
       current_user db =
       (Raise (mkHTTPException HTTP_400_BAD_REQUEST
                 "No tickets available for this type"), db)) ∧
  (0 < TicketType.quantity ticket_type - TicketType.sold_count ticket_type →
   TicketType.max_per_person ticket_type ≤
     Z.of_nat (valid_tickets_held db ticket_type_id (User.id current_user)) →
     purchase_ticket clock (TicketPurchase.mk ticket_type_id buyer_info)
       current_user db =
       (Raise (mkHTTPException HTTP_400_BAD_REQUEST
                 ("Maximum " +:+ pretty (TicketType.max_per_person ticket_type)
                  +:+ " ticket(s) per person reached")), db)) ∧
  (0 < TicketType.quantity ticket_type - TicketType.sold_count ticket_type →
   Z.of_nat (valid_tickets_held db ticket_type_id (User.id current_user)) <
     TicketType.max_per_person ticket_type →
   tickets db !!
     ("ticket_" +:+ timestamp clock +:+ "_" +:+ User.id current_user) = None →
     ∃ ticket db',
       purchase_ticket clock (TicketPurchase.mk ticket_type_id buyer_info)
         current_user db = (Ok ticket, db')
       ∧ Ticket.ticket_type_id ticket = ticket_type_id
       ∧ Ticket.buyer_id ticket = User.id current_user
       ∧ Ticket.is_valid ticket = true
       ∧ tickets db' = <[Ticket._id ticket := ticket]> (tickets db)
       ∧ ticket_types db' !! ticket_type_id =
           Some (TicketType.set_sold_count
                   (TicketType.sold_count ticket_type + 1) ticket_type)).
Proof.
  intros Htt Hact.
  assert (∀ k : option TicketType.t → Handler Ticket.t,
    bind (find_one_by_id ticket_types_collection ticket_type_id
            TicketType.is_active) k db = k (Some ticket_type) db) as Hfind.
  { intros k. rewrite bind_find_one_by_id.
    by rewrite (find_one_by_id_in_Some _ _ _ ticket_type). }
  split; [|split].
  - intros Hrem. unfold purchase_ticket.
    cbn [TicketPurchase.ticket_type_id TicketPurchase.buyer_info].
    rewrite Hfind.
    rewrite bind_raise_if_true; [done|]. by apply bool_decide_eq_true.
  - intros Hrem Hheld. unfold purchase_ticket.
    cbn [TicketPurchase.ticket_type_id TicketPurchase.buyer_info].
    rewrite Hfind.
    rewrite bind_raise_if_false by (apply bool_decide_eq_false; lia).
    cbv zeta. rewrite bind_count_documents.
    by rewrite bind_raise_if_true by by apply bool_decide_eq_true.
  - intros Hrem Hheld Hfresh. unfold purchase_ticket.
    cbn [TicketPurchase.ticket_type_id TicketPurchase.buyer_info].
    rewrite Hfind.
    rewrite bind_raise_if_false by (apply bool_decide_eq_false; lia).
    cbv zeta. rewrite bind_count_documents.
    rewrite bind_raise_if_false.
    2:{ apply bool_decide_eq_false. unfold valid_tickets_held in Hheld.
        change (docs tickets_collection db) with (tickets db). lia. }
    rewrite bind_insert_one_fresh by done.
    rewrite bind_update_one. unfold ret.
    do 2 eexists. split; [reflexivity|].
    cbn [Ticket.ticket_type_id Ticket.buyer_id Ticket.is_valid Ticket._id].
    do 4 (split; [reflexivity|]).
    cbn [ticket_types set_docs docs ticket_types_collection
         tickets_collection].
    by rewrite lookup_alter_eq, Htt.
Qed.

(** The VIP tickets are sold out; alice already holds her one standard
    ticket; bob buys the standard ticket that is left. *)
Lemma purchase_ticket_limits_witness :
  purchase_ticket Example.clock (TicketPurchase.mk "ticket_type_2" ∅)
    Example.bob Example.db =
    (Raise (mkHTTPException HTTP_400_BAD_REQUEST
              "No tickets available for this type"), Example.db) ∧
  purchase_ticket Example.clock (TicketPurchase.mk "ticket_type_1" ∅)
    Example.alice Example.db =
    (Raise (mkHTTPException HTTP_400_BAD_REQUEST
              "Maximum 1 ticket(s) per person reached"), Example.db) ∧
  ∃ ticket db',
    purchase_ticket Example.clock (TicketPurchase.mk "ticket_type_1" ∅)
      Example.bob Example.db = (Ok ticket, db') ∧
    TicketType.sold_count <$> ticket_types db' !! "ticket_type_1" = Some 2.
Proof.
  split; [|split].
  - apply (purchase_ticket_limits Example.clock Example.db "ticket_type_2" ∅
             Example.bob Example.vip eq_refl eq_refl).
    by vm_compute.
  - apply (purchase_ticket_limits Example.clock Example.db "ticket_type_1" ∅
             Example.alice Example.standard eq_refl eq_refl);
      by vm_compute.
  - destruct (purchase_ticket_limits Example.clock Example.db "ticket_type_1"
                ∅ Example.bob Example.standard eq_refl eq_refl)
      as (_ & _ & Hbuy).
    destruct Hbuy as (ticket & db' & Hok & _ & _ & _ & _ & Hsold);
      [by vm_compute ..|].
    exists ticket, db'. split; [exact Hok|]. rewrite Hsold. reflexivity.
Defined.

(** ** Polls *)

Lemma find_question_Exists question_id questions question :
  find_question question_id questions = QuestionFound question →
  Exists (λ q, Question._id q = Some question_id) questions.
Proof.
  induction questions as [|q qs IH]; simpl; [done|].
  destruct (Question._id q) as [qid|] eqn:Hq; [|done].
  case_bool_decide as Hid.
  - intros _. left. by rewrite Hq, Hid.
  - intros H. right. auto.
Qed.

(** On a counter, [$inc] is the increment of one number. *)
Lemma inc_response_count_counter answer q :
  addresses_counter answer q →
  inc_response_count answer q = Some (counted answer q).
Proof.
  intros (Hpath & _ & Hnumber).
  unfold inc_response_count, counted, count_of. rewrite Hpath.
  cbn [inc_path].
  destruct (Question.response_counts q !! answer) as [[n|fields]|] eqn:Hc;
    [done| |done].
  by destruct (Hnumber fields).
Qed.

(** The positional update lands on the question that the search of the
    handler found. *)
Lemma find_question_inc question_id answer questions question :
  find_question question_id questions = QuestionFound question →
  addresses_counter answer question →
  ∃ questions',
    inc_matched_question question_id answer questions = Some questions' ∧
    find_question question_id questions' =
      QuestionFound (counted answer question).
Proof.
  intros Hfound Hcounter.
  induction questions as [|q qs IH]; simpl in *; [done|].
  destruct (Question._id q) as [qid|] eqn:Hq; [|done].
  case_bool_decide as Hid.
  - injection Hfound as ->. rewrite bool_decide_eq_true_2 by congruence.
    rewrite (inc_response_count_counter _ _ Hcounter).
    eexists. split; [done|]. simpl. rewrite Hq.
    by rewrite bool_decide_eq_true_2.
  - rewrite bool_decide_eq_false_2 by congruence.
    destruct (IH Hfound) as (qs' & -> & Hqs'). eexists. split; [done|].
    simpl. rewrite Hq. by rewrite bool_decide_eq_false_2.
Qed.

Lemma addresses_counter_path answer q :
  addresses_counter answer q →
  forallb field_name (field_path answer) = true.
Proof.
  intros (Hpath & Hname & _). unfold undotted in Hpath. rewrite Hpath.
  cbn [forallb]. by rewrite Hname.
Qed.

Lemma record_vote_counts question_id answer poll question :
  find_question question_id (Poll.questions poll) = QuestionFound question →
  addresses_counter answer question →
  ∃ poll',
    record_vote question_id answer poll = Some poll' ∧
    recorded question_id answer poll = poll' ∧
    Poll.total_responses poll' = Poll.total_responses poll + 1 ∧
    response_count question_id answer poll' =
      response_count question_id answer poll + 1 ∧
    ∀ other, other ≠ answer →
      response_count question_id other poll' =
      response_count question_id other poll.
Proof.
  intros Hq Hcounter.
  destruct (find_question_inc _ _ _ _ Hq Hcounter) as (qs' & Hinc & Hqs').
  assert (record_vote question_id answer poll =
          Some (Poll.set_counters (Poll.total_responses poll + 1) qs' poll))
    as Hrecord.
  { unfold record_vote.
    rewrite bool_decide_eq_true_2 by by eapply find_question_Exists.
    by rewrite Hinc. }
  eexists. split; [exact Hrecord|]. split; [|split; [done|]].
  - unfold recorded. rewrite (addresses_counter_path _ _ Hcounter).
    by rewrite Hrecord.
  - unfold response_count. cbn [Poll.questions Poll.set_counters].
    rewrite Hqs', Hq. unfold count_of, counted.
    cbn [Question.response_counts Question.set_response_counts]. split.
    + by rewrite lookup_insert_eq.
    + intros other Hne. by rewrite lookup_insert_ne.
Qed.

Lemma recorded_settings question_id answer poll :
  Poll.is_active (recorded question_id answer poll) = Poll.is_active poll ∧
  Poll.event_id (recorded question_id answer poll) = Poll.event_id poll ∧
  Poll.allow_multiple_votes (recorded question_id answer poll) =
    Poll.allow_multiple_votes poll.
Proof.
  unfold recorded, record_vote.
  destruct (forallb _ _); [|done]. case_bool_decide; [|done].
  by destruct (inc_matched_question _ _ _).
Qed.

Lemma participant_passes user_id event :
  is_participant user_id event →
  bool_decide (user_id ∉ Event.members event) &&
  bool_decide (user_id ∉ Event.organizers event) = false.
Proof.
  intros [Hm|Ho].
  - apply andb_false_intro1, bool_decide_eq_false_2. tauto.
  - apply andb_false_intro2, bool_decide_eq_false_2. tauto.
Qed.


Lemma not_voted_not_found db poll_id user_id :
  ¬ has_voted db poll_id user_id →
  find_one_in
    (λ v, bool_decide (Vote.poll_id v = poll_id) &&
          bool_decide (Vote.user_id v = user_id)) (votes db) = None.
Proof.
  intros Hnv. apply find_one_in_None. intros id v Hv.
  apply andb_false_iff. rewrite !bool_decide_eq_false.
  destruct (decide (Vote.poll_id v = poll_id)); [right|by left].
  intros Hu. apply Hnv. by exists id, v.
Qed.

(** A vote that gets past the participation test, the duplicate test and the
    answer test, and whose [$inc] addresses a counter, is recorded. *)
Lemma vote_poll_recorded
    clock db poll_id question_id answer current_user poll question :
  polls db !! poll_id = Some poll →
  Poll.is_active poll = true →
  match find_one_by_id_in (Poll.event_id poll) Event.is_active (events db)
  with
  | Some event => is_participant (User.id current_user) event
  | None => True
  end →
  Poll.allow_multiple_votes poll = true ∨
    ¬ has_voted db poll_id (User.id current_user) →
  find_question question_id (Poll.questions poll) = QuestionFound question →
  answer ∈ Question.answers question →
  addresses_counter answer question →
  votes db !! ("vote_" +:+ timestamp clock) = None →
  vote_poll clock (VoteCreate.mk poll_id question_id answer) current_user db =
    (Ok (VoteResponse.mk true "Vote recorded successfully" poll_id
           question_id answer (Poll.total_responses poll + 1)),
     after_vote clock poll_id question_id answer (User.id current_user) db).
Proof.
  intros Hp Hact Hevent Hmay Hq Hans Hcounter Hfresh.
  destruct (record_vote_counts _ _ _ _ Hq Hcounter)
    as (poll' & Hrecord & Hrecorded & Htotal & _).
  unfold vote_poll.
  cbn [VoteCreate.poll_id VoteCreate.question_id VoteCreate.answer].
  found poll. rewrite bind_find_one_by_id.
  change (docs events_collection db) with (events db).
  destruct (find_one_by_id_in (Poll.event_id poll) Event.is_active
              (events db)) as [event|];
    [passes; [|by apply participant_passes]|rewrite bind_ret];
    (destruct (Poll.allow_multiple_votes poll) eqn:Hmulti;
     simpl negb; cbv iota;
     [rewrite bind_ret
     |destruct Hmay as [?|Hnv]; [done|];
      rewrite bind_assoc, bind_find_one;
      change (docs votes_collection db) with (votes db);
      rewrite (not_voted_not_found _ _ _ Hnv);
      passes; [|done]]);
    rewrite Hq;
    (passes; [|apply bool_decide_eq_false_2; intros Hn; by apply Hn]);
    cbv zeta; rewrite bind_insert_one_fresh by done;
    (passes; [|by rewrite (addresses_counter_path _ _ Hcounter)]);
    rewrite (bind_update_one_or_fail_ok _ _ _ poll poll') by done;
    rewrite bind_find_one_by_id; unfold after_vote, ret;
    cbn [docs set_docs polls_collection votes_collection polls votes];
    rewrite (alter_stored _ _ _ poll) by done; rewrite Hrecorded;
    rewrite (find_one_by_id_in_Some _ _ _ poll')
      by first [apply lookup_insert_eq|done];
    by rewrite Htotal.
Qed.

(** A vote that gets past the participation test and the duplicate test on
    a poll whose questions, up to the one voted on, have no [_id] dies on
    the read of the missing key. *)
Lemma vote_poll_key_error
    clock db poll_id question_id answer current_user poll :
  polls db !! poll_id = Some poll →
  Poll.is_active poll = true →
  match find_one_by_id_in (Poll.event_id poll) Event.is_active (events db)
  with
  | Some event => is_participant (User.id current_user) event
  | None => True
  end →
  Poll.allow_multiple_votes poll = true ∨
    ¬ has_voted db poll_id (User.id current_user) →
  find_question question_id (Poll.questions poll) = QuestionKeyError →
  vote_poll clock (VoteCreate.mk poll_id question_id answer) current_user db =
    (Raise (unhandled "KeyError"), db).
Proof.
  intros Hp Hact Hevent Hmay Hq. unfold vote_poll.
  cbn [VoteCreate.poll_id VoteCreate.question_id VoteCreate.answer].
  found poll. rewrite bind_find_one_by_id.
  change (docs events_collection db) with (events db).
  destruct (find_one_by_id_in (Poll.event_id poll) Event.is_active
              (events db)) as [event|];
    [passes; [|by apply participant_passes]|rewrite bind_ret];
    (destruct (Poll.allow_multiple_votes poll) eqn:Hmulti;
     simpl negb; cbv iota;
     [rewrite bind_ret
     |destruct Hmay as [?|Hnv]; [done|];
      rewrite bind_assoc, bind_find_one;
      change (docs votes_collection db) with (votes db);
      rewrite (not_voted_not_found _ _ _ Hnv);
      passes; [|done]]);
    by rewrite Hq, bind_raise.
Qed.

(** Where the first vote is recorded, C3 holds. On an active poll with
    [allow_multiple_votes] false whose question voted on is found by the
    search of the handler, the first vote of a participant of the event for
    a declared answer that addresses a counter is recorded:
    [total_responses] and the counter of the chosen answer grow by 1 and no
    other counter of the question moves (the generated vote [_id] must be
    free). Any further vote of the same user on that poll is then answered
    400 "You have already voted in this poll" and leaves the database,
    hence every counter, as it was. *)
Lemma vote_poll_counts_once
    clock db poll_id question_id answer current_user poll event question :
  polls db !! poll_id = Some poll →
  Poll.is_active poll = true →
  Poll.allow_multiple_votes poll = false →
  events db !! Poll.event_id poll = Some event →
  Event.is_active event = true →
  is_participant (User.id current_user) event →
  ¬ has_voted db poll_id (User.id current_user) →
  find_question question_id (Poll.questions poll) = QuestionFound question →
  answer ∈ Question.answers question →
  addresses_counter answer question →
  votes db !! ("vote_" +:+ timestamp clock) = None →
  ∃ response db' poll',
    vote_poll clock (VoteCreate.mk poll_id question_id answer) current_user db
      = (Ok response, db') ∧
    polls db' !! poll_id = Some poll' ∧
    Poll.total_responses poll' = Poll.total_responses poll + 1 ∧
    response_count question_id answer poll' =
      response_count question_id answer poll + 1 ∧
    (∀ other, other ≠ answer →
       response_count question_id other poll' =
       response_count question_id other poll) ∧
    ∀ clock' question_id' answer',
      vote_poll clock' (VoteCreate.mk poll_id question_id' answer')
        current_user db' =
        (Raise (mkHTTPException HTTP_400_BAD_REQUEST
                  "You have already voted in this poll"), db').
Proof.
  intros Hp Hact Hsingle He Heact Hpart Hfirst Hq Hans Hcounter Hfresh.
  pose proof (participant_passes _ _ Hpart) as Hcheck.
  destruct (record_vote_counts question_id answer poll question Hq Hcounter)
    as (poll' & _ & Hrecorded & Htotal & Hcount & Hothers).
  destruct (recorded_settings question_id answer poll)
    as (Hact' & Hev' & Hsingle'). rewrite Hrecorded in Hact', Hev', Hsingle'.
  assert (polls (after_vote clock poll_id question_id answer
                   (User.id current_user) db) !! poll_id = Some poll')
    as Hstored.
  { unfold after_vote.
    cbn [polls set_docs docs polls_collection votes_collection].
    rewrite lookup_alter_eq, Hp. cbn [fmap option_fmap option_map].
    by rewrite Hrecorded. }
  eexists _, _, poll'.
  split; [|split; [exact Hstored|split; [done|split; [done|split;
    [done|]]]]].
  - apply (vote_poll_recorded _ _ _ _ _ _ poll question); try done.
    + by rewrite (find_one_by_id_in_Some _ _ _ event).
    + by right.
  - intros clock' question_id' answer'. unfold vote_poll.
    cbn [VoteCreate.poll_id VoteCreate.question_id VoteCreate.answer].
    rewrite bind_find_one_by_id, (find_one_by_id_in_Some _ _ _ poll')
      by first [exact Hstored|congruence].
    rewrite bind_find_one_by_id.
    unfold after_vote at 1.
    cbn [docs set_docs polls_collection votes_collection events_collection
         events].
    rewrite Hev', (find_one_by_id_in_Some _ _ _ event) by done.
    rewrite bind_raise_if_false by done.
    rewrite Hsingle', Hsingle. simpl negb. cbv iota.
    rewrite bind_assoc, bind_find_one.
    rewrite bind_raise_if_true; [reflexivity|].
    apply bool_decide_eq_true_2. unfold after_vote.
    cbn [docs set_docs polls_collection votes_collection votes].
    eapply find_one_in_is_Some; [apply lookup_insert_eq|].
    cbn [Vote.poll_id Vote.user_id Vote._id].
    by rewrite !bool_decide_eq_true_2.
Qed.

(** C3. The first vote does not succeed on every active poll. A poll that
    [create_poll] has stored for an organizer is active and its questions
    have the declared answers of the request but no [_id]; on such a poll,
    with [allow_multiple_votes] false, the first vote of a participant of
    the event, whatever the question and the answer named, a declared
    answer included, dies on the read of the missing [_id]: an unhandled
    [KeyError], answered with status 500, and nothing is written, so neither
    [total_responses] nor any counter grows. *)
Theorem first_vote_on_created_poll_fails
    clock clock' db poll_data current_user event voter question_id answer :
  events db !! PollCreate.event_id poll_data = Some event →
  Event.is_active event = true →
  User.id current_user ∈ Event.organizers event →
  PollCreate.questions poll_data ≠ [] →
  PollCreate.allow_multiple_votes poll_data = false →
  polls db !! ("poll_" +:+ timestamp clock) = None →
  is_participant (User.id voter) event →
  ¬ has_voted db ("poll_" +:+ timestamp clock) (User.id voter) →
  ∃ poll db' e,
    (create_poll clock poll_data current_user db).2 = db' ∧
    polls db' !! ("poll_" +:+ timestamp clock) = Some poll ∧
    Poll.is_active poll = true ∧
    Poll.allow_multiple_votes poll = false ∧
    Poll.event_id poll = PollCreate.event_id poll_data ∧
    Question.answers <$> Poll.questions poll =
      QuestionCreate.answers <$> PollCreate.questions poll_data ∧
    vote_poll clock'
      (VoteCreate.mk ("poll_" +:+ timestamp clock) question_id answer) voter
      db' = (Raise e, db') ∧
    e = unhandled "KeyError" ∧
    status_code e = HTTP_500_INTERNAL_SERVER_ERROR.
Proof.
  intros He Hact Horg Hqs Hsingle Hfresh Hpart Hfirst.
  set (poll := Poll.mk ("poll_" +:+ timestamp clock)
         (PollCreate.title poll_data) (PollCreate.description poll_data)
         (PollCreate.event_id poll_data) (User.id current_user)
         (question_with_counts <$> PollCreate.questions poll_data)
         (PollCreate.is_anonymous poll_data)
         (PollCreate.allow_multiple_votes poll_data) 0 true (utcnow clock)
         (utcnow clock)).
  set (db' := set_docs polls_collection
                (<["poll_" +:+ timestamp clock := poll]> (polls db)) db).
  assert (create_poll clock poll_data current_user db =
            (Raise (unhandled "ValidationError"), db')) as Hcreate.
  { unfold create_poll. found event.
    passes; [|by apply bool_decide_eq_false_2; intros ?].
    cbv zeta. rewrite bind_insert_one_fresh by done.
    fold poll. change (docs polls_collection db) with (polls db). fold db'.
    destruct (PollCreate.questions poll_data); [done|reflexivity]. }
  exists poll, db', (unhandled "KeyError").
  split; [by rewrite Hcreate|]. split; [apply lookup_insert_eq|].
  split; [done|]. split; [done|]. split; [done|]. split.
  { cbn [Poll.questions poll]. rewrite <- list_fmap_compose.
    by apply list_fmap_ext. }
  split; [|done].
  apply (vote_poll_key_error _ _ _ _ _ _ poll).
  - apply lookup_insert_eq.
  - done.
  - cbn [Poll.event_id poll]. change (events db') with (events db).
    by rewrite (find_one_by_id_in_Some _ _ _ event).
  - right. intros (id & v & Hv & Hvp & Hvu). apply Hfirst. by exists id, v.
  - cbn [Poll.questions poll]. by destruct (PollCreate.questions poll_data).
Qed.

(** alice asks the party about dessert; bob's first vote, for the declared
    answer "yes", gets a 500 and is not counted. *)
Lemma first_vote_on_created_poll_fails_witness :
  let poll_data :=
    PollCreate.mk "Dessert" None "event_1"
      [QuestionCreate.mk "Cake?" ["yes"; "no"]] false false in
  ∃ poll db',
    (create_poll Example.later poll_data Example.alice Example.db).2 = db' ∧
    polls db' !! "poll_1700000100.25" = Some poll ∧
    Poll.is_active poll = true ∧
    Question.answers <$> Poll.questions poll = [["yes"; "no"]] ∧
    vote_poll Example.clock
      (VoteCreate.mk "poll_1700000100.25" "question_1" "yes") Example.bob db'
      = (Raise (unhandled "KeyError"), db') ∧
    Poll.total_responses <$> polls db' !! "poll_1700000100.25" = Some 0.
Proof.
  intros poll_data.
  destruct (first_vote_on_created_poll_fails Example.later Example.clock
              Example.db poll_data Example.alice Example.party Example.bob
              "question_1" "yes")
    as (poll & db' & e & Hcreate & Hpoll & Hact & _ & _ & Hanswers & Hvote
        & -> & _);
    [reflexivity|reflexivity| |done|reflexivity|reflexivity| | |].
  - apply (bool_decide_unpack _). by vm_compute.
  - left. apply (bool_decide_unpack _). by vm_compute.
  - intros (id & v & Hv & _).
    change (votes Example.db) with (∅ : gmap string Vote.t) in Hv.
    by rewrite lookup_empty in Hv.
  - exists poll, db'. split; [exact Hcreate|]. split; [exact Hpoll|].
    split; [exact Hact|]. split; [exact Hanswers|]. split; [exact Hvote|].
    rewrite <- Hcreate. reflexivity.
Defined.




(** * Further properties of the handlers *)

(** ** Shared steps *)

Lemma find_one_by_id_in_missing {D} id (q : D → bool) (c : gmap string D) :
  c !! id = None → find_one_by_id_in id q c = None.
Proof. intros H. unfold find_one_by_id_in. by rewrite H. Qed.

Lemma reread_group_stored group_id g db :
  groups db !! group_id = Some g → reread_group group_id db = (Ok g, db).
Proof.
  intros H. unfold reread_group.
  by rewrite bind_find_one_by_id, (find_one_by_id_in_Some _ _ _ g).
Qed.


Lemma pull_app_new x l : x ∉ l → pull x (l ++ [x]) = l.
Proof.
  intros Hx. unfold pull. rewrite filter_app.
  rewrite (filter_cons_False _ x) by (intros H; by apply H).
  rewrite filter_nil, app_nil_r.
  induction l as [|y l IH]; [done|].
  apply not_elem_of_cons in Hx as [Hne Hx].
  rewrite filter_cons_True by done. by rewrite IH.
Qed.

Lemma elem_of_pull x y l : y ∈ pull x l ↔ y ≠ x ∧ y ∈ l.
Proof. unfold pull. by rewrite list_elem_of_filter. Qed.

Lemma elem_of_addToSet x y l : y ∈ addToSet x l ↔ y = x ∨ y ∈ l.
Proof.
  unfold addToSet. case_bool_decide as Hx.
  - split; [auto|]. intros [->|?]; done.
  - rewrite elem_of_app, list_elem_of_singleton. tauto.
Qed.

(** [validate_users_exist] writes nothing; it passes when every id names an
    active user and raises 404 as soon as one does not. *)
Lemma validate_users_exist_ok ids db :
  (∀ id, id ∈ ids → ∃ u, users db !! id = Some u ∧
                         UserInDB.is_active u = true) →
  validate_users_exist ids db = (Ok tt, db).
Proof.
  induction ids as [|id ids IH]; intros Hall; [done|].
  destruct (Hall id) as (u & Hu & Hact); [left|].
  cbn [validate_users_exist]. unfold validate_user_exists.
  rewrite bind_assoc. found u. passes; [|done].
  apply IH. intros id' Hin. apply Hall. by right.
Qed.

Lemma validate_users_exist_fails ids db id :
  id ∈ ids →
  find_one_by_id_in id UserInDB.is_active (users db) = None →
  ∃ e, validate_users_exist ids db = (Raise e, db) ∧
       status_code e = HTTP_404_NOT_FOUND.
Proof.
  induction ids as [|id' ids IH]; intros Hin Hnone.
  - by apply elem_of_nil in Hin.
  - cbn [validate_users_exist]. unfold validate_user_exists.
    rewrite bind_assoc, bind_find_one_by_id.
    change (docs users_collection db) with (users db).
    destruct (find_one_by_id_in id' UserInDB.is_active (users db))
      as [u|] eqn:Hid'.
    + passes; [|done]. apply elem_of_cons in Hin as [->|Hin].
      * congruence.
      * by apply IH.
    + rewrite bind_raise_if_true by done. eauto.
Qed.

Lemma with_group_lookup group_id g db :
  groups (with_group group_id g db) !! group_id = Some g.
Proof. apply lookup_insert_eq. Qed.

Lemma update_group_stored {B} id (f : Group.t → Group.t) g
    (k : unit → Handler B) db :
  groups db !! id = Some g →
  bind (update_one groups_collection id f) k db = k tt (with_group id (f g) db).
Proof.
  intros Hg. rewrite bind_update_one. unfold with_group.
  change (docs groups_collection db) with (groups db).
  by rewrite (alter_stored _ _ _ g).
Qed.

Lemma join_group_ok clock db group_id group current_user :
  groups db !! group_id = Some group →
  Group.is_active group = true →
  Group.type group ≠ GroupType.SECRET →
  User.id current_user ∉ Group.member_ids group →
  User.id current_user ∉ Group.admin_ids group →
  join_group clock group_id current_user db =
    (Ok (joined_by (utcnow clock) (User.id current_user) group),
     with_group group_id
       (joined_by (utcnow clock) (User.id current_user) group) db).
Proof.
  intros Hg Hact Hty Hm Ha. unfold join_group. found group.
  passes; [|by apply bool_decide_eq_false_2].
  passes; [|by apply bool_decide_eq_false_2].
  passes; [|by apply bool_decide_eq_false_2].
  rewrite (update_group_stored _ _ group) by done.
  unfold addToSet. rewrite bool_decide_eq_false_2 by done.
  apply reread_group_stored, with_group_lookup.
Qed.

(** ** Joining, leaving and promoting in a group *)

(** X1. Joining an active group that is not secret, as someone who is neither
    member nor admin, appends the caller to [member_ids] and touches nothing
    else but [updated_at]; a second join is then refused with 400 and writes
    nothing. *)
Theorem join_group_adds_member_once clock db group_id group current_user :
  groups db !! group_id = Some group →
  Group.is_active group = true →
  Group.type group ≠ GroupType.SECRET →
  User.id current_user ∉ Group.member_ids group →
  User.id current_user ∉ Group.admin_ids group →
  ∃ joined db',
    join_group clock group_id current_user db = (Ok joined, db') ∧
    groups db' = <[group_id := joined]> (groups db) ∧
    Group.member_ids joined =
      (Group.member_ids group ++ [User.id current_user])%list ∧
    Group.set_member_ids (Group.member_ids group) joined =
      Group.set_updated_at (utcnow clock) group ∧
    ∀ clock',
      join_group clock' group_id current_user db' =
        (Raise (mkHTTPException HTTP_400_BAD_REQUEST
                  "Already a member of this group"), db').
Proof.
  intros Hg Hact Hty Hm Ha. do 2 eexists.
  split; [by apply join_group_ok|]. split; [done|]. split; [done|].
  split; [by destruct group|].
  intros clock'. unfold join_group.
  found (joined_by (utcnow clock) (User.id current_user) group).
  passes; [|by apply bool_decide_eq_false_2].
  rewrite bind_raise_if_true; [done|].
  apply bool_decide_eq_true_2. cbn. apply elem_of_app. right. by left.
Qed.

(** dave joins the forum. *)
Lemma join_group_adds_member_once_witness :
  ∃ joined db',
    join_group Example.clock "group_2" Example.dave Example.db =
      (Ok joined, db') ∧
    Group.member_ids joined = ["user_4"] ∧
    join_group Example.later "group_2" Example.dave db' =
      (Raise (mkHTTPException HTTP_400_BAD_REQUEST
                "Already a member of this group"), db').
Proof.
  destruct (join_group_adds_member_once Example.clock Example.db "group_2"
              Example.forum Example.dave)
    as (joined & db' & Hjoin & _ & Hmembers & _ & Hagain);
    [reflexivity|reflexivity|done| | |].
  - apply (bool_decide_unpack _). by vm_compute.
  - apply (bool_decide_unpack _). by vm_compute.
  - exists joined, db'. split; [exact Hjoin|]. split; [by rewrite Hmembers|].
    apply Hagain.
Defined.

(** X2. Joining and then leaving is a round trip: the group is stored as it
    was before the join, [updated_at] apart, and no other group moves. *)
Theorem join_then_leave_group clock clock' db group_id group current_user :
  groups db !! group_id = Some group →
  Group.is_active group = true →
  Group.type group ≠ GroupType.SECRET →
  User.id current_user ∉ Group.member_ids group →
  User.id current_user ∉ Group.admin_ids group →
  ∃ joined db1 left db2,
    join_group clock group_id current_user db = (Ok joined, db1) ∧
    leave_group clock' group_id current_user db1 = (Ok left, db2) ∧
    left = Group.set_updated_at (utcnow clock') group ∧
    groups db2 = <[group_id := left]> (groups db).
Proof.
  intros Hg Hact Hty Hm Ha. do 4 eexists.
  split; [by apply join_group_ok|].
  set (joined := joined_by (utcnow clock) (User.id current_user) group).
  assert (User.id current_user ∈ Group.member_ids joined) as Hin.
  { cbn. apply elem_of_app. right. by left. }
  split; [|split; [reflexivity|]].
  - unfold leave_group. found joined.
    passes; [|apply andb_false_intro1, bool_decide_eq_false_2; tauto].
    change (Group.admin_ids joined) with (Group.admin_ids group).
    rewrite (bool_decide_eq_false_2 (_ ∈ Group.admin_ids _)) by done.
    cbn [andb]. passes; [|done].
    rewrite (bool_decide_eq_true_2 (_ ∈ Group.member_ids joined)) by done.
    rewrite (update_group_stored _ _ joined) by apply with_group_lookup.
    erewrite reread_group_stored by apply with_group_lookup.
    cbn [Group.member_ids Group.set_updated_at Group.set_member_ids joined
         joined_by].
    rewrite pull_app_new by done. by destruct group.
  - cbn [groups set_docs groups_collection with_group].
    by rewrite !insert_insert_eq.
Qed.

(** dave joins the forum and leaves it again. *)
Lemma join_then_leave_group_witness :
  ∃ joined db1 left db2,
    join_group Example.clock "group_2" Example.dave Example.db =
      (Ok joined, db1) ∧
    leave_group Example.later "group_2" Example.dave db1 = (Ok left, db2) ∧
    left = Group.set_updated_at 2000 Example.forum ∧
    groups db2 = <["group_2" := left]> (groups Example.db).
Proof.
  apply (join_then_leave_group Example.clock Example.later Example.db
           "group_2" Example.forum Example.dave);
    [reflexivity|reflexivity|done| |];
    apply (bool_decide_unpack _); by vm_compute.
Defined.

Lemma pull_keeps_another x l :
  NoDup l → x ∈ l → ¬ (length l = 1%nat ∧ l !! 0%nat = Some x) → pull x l ≠ [].
Proof.
  intros Hnd Hx Hnot Hnil.
  destruct l as [|y [|z l]].
  - by apply elem_of_nil in Hx.
  - apply list_elem_of_singleton in Hx as ->. by apply Hnot.
  - assert (∀ w, w ∈ y :: z :: l → w = x) as Hall.
    { intros w Hw. destruct (decide (w = x)) as [|Hne]; [done|].
      assert (w ∈ pull x (y :: z :: l)) as Hin by by apply elem_of_pull.
      rewrite Hnil in Hin. by apply elem_of_nil in Hin. }
    apply NoDup_cons in Hnd as [Hy _]. apply Hy.
    rewrite (Hall y), (Hall z); [left|right; left|left].
Qed.

(** X3. [leave_group] never takes the last admin away from a group whose
    [admin_ids] has no duplicate: whatever the caller and the outcome, the
    group is still stored and still has an admin. *)
Theorem leave_group_keeps_an_admin
    clock db group_id group current_user outcome db' :
  groups db !! group_id = Some group →
  NoDup (Group.admin_ids group) →
  Group.admin_ids group ≠ [] →
  leave_group clock group_id current_user db = (outcome, db') →
  ∃ group', groups db' !! group_id = Some group' ∧
            Group.admin_ids group' ≠ [].
Proof.
  intros Hg Hnd Hne. unfold leave_group. rewrite bind_find_one_by_id.
  unfold find_one_by_id_in. change (docs groups_collection db) with (groups db).
  rewrite Hg. destruct (Group.is_active group) eqn:Hact.
  2:{ intros [= _ <-]. eauto. }
  branch Hmember. { intros [= _ <-]. eauto. }
  branch Hsole. { intros [= _ <-]. eauto. }
  rewrite (update_group_stored _ _ group) by done.
  erewrite reread_group_stored by apply with_group_lookup.
  intros [= _ <-]. eexists. split; [apply with_group_lookup|].
  destruct (bool_decide (User.id current_user ∈ Group.admin_ids group))
    eqn:Hadmin.
  - apply bool_decide_eq_true in Hadmin. cbn [andb] in Hsole.
    assert (pull (User.id current_user) (Group.admin_ids group) ≠ [])
      as Hleft.
    { apply pull_keeps_another; [done..|]. intros [Hlen Hhead].
      by rewrite !bool_decide_eq_true_2 in Hsole by done. }
    by destruct (bool_decide (_ ∈ Group.member_ids group)).
  - by destruct (bool_decide (_ ∈ Group.member_ids group)).
Qed.

(** bob leaves the club; alice remains its admin. *)
Lemma leave_group_keeps_an_admin_witness :
  ∃ group',
    groups (leave_group Example.clock "group_1" Example.bob Example.db).2
      !! "group_1" = Some group' ∧
    Group.admin_ids group' ≠ [].
Proof.
  apply (leave_group_keeps_an_admin Example.clock Example.db "group_1"
           Example.club Example.bob
           (leave_group Example.clock "group_1" Example.bob Example.db).1);
    [reflexivity| |done|apply surjective_pairing].
  apply (bool_decide_unpack _). by vm_compute.
Defined.

(** ** Creating a group *)

Lemma pull_all x l : Forall (λ a, a = x) l → pull x l = [].
Proof.
  induction 1 as [|a l -> _ IH]; [done|].
  unfold pull. rewrite filter_cons_False by (intros H; by apply H). exact IH.
Qed.

Lemma create_group_ok clock db group_data current_user :
  (∀ id, id ∈ GroupCreate.admin_ids group_data →
     ∃ u, users db !! id = Some u ∧ UserInDB.is_active u = true) →
  groups db !! ("group_" +:+ timestamp clock) = None →
  ∃ group,
    create_group clock group_data current_user db =
      (Ok group, with_group ("group_" +:+ timestamp clock) group db) ∧
    Group._id group = "group_" +:+ timestamp clock ∧
    Group.admin_ids group =
      (if bool_decide
            (User.id current_user ∉ GroupCreate.admin_ids group_data)
       then GroupCreate.admin_ids group_data ++ [User.id current_user]
       else GroupCreate.admin_ids group_data)%list ∧
    Group.member_ids group = [] ∧
    Group.creator_id group = User.id current_user ∧
    Group.type group = GroupCreate.type group_data ∧
    Group.is_active group = true.
Proof.
  intros Hadmins Hfresh. eexists. split.
  - unfold create_group.
    rewrite (bind_ok _ _ _ _ _ (validate_users_exist_ok _ _ Hadmins)).
    rewrite bind_insert_one_fresh by done. reflexivity.
  - by repeat split.
Qed.

(** Who may read a group with [get_group]. *)
(** A caller whom the access test of [get_group] lets through gets no
    group: the reply fails its validation. *)
Lemma get_group_reply_fails group_id group current_user db :
  groups db !! group_id = Some group →
  Group.is_active group = true →
  Group.type group ≠ GroupType.SECRET ∨
    User.id current_user ∈ Group.member_ids group ∨
    User.id current_user ∈ Group.admin_ids group ∨
    User.id current_user = Group.creator_id group →
  get_group group_id current_user db =
    (Raise (unhandled "ValidationError"), db).
Proof.
  intros Hg Hact Hmay. unfold get_group. found group.
  passes.
  2:{ rewrite !andb_false_iff, !bool_decide_eq_false.
      destruct Hmay as [?|[?|[?|?]]]; [by left|right..].
      - left. left. by intros ?.
      - left. right. by intros ?.
      - right. by intros ?. }
  destruct (user_details_total (Group.admin_ids group) db) as [ad Had].
  rewrite (bind_ok _ _ _ _ _ Had).
  destruct (user_details_total (Group.member_ids group) db) as [md Hmd].
  rewrite (bind_ok _ _ _ _ _ Hmd).
  cbv zeta. by rewrite bind_count_documents.
Qed.

(** X4. The creator of a group is one of its admins and the group starts
    without members, but [get_group] does not serve it, not even to the
    creator: the access test lets the creator through, whatever the type of
    the group, and the reply, built from the dump of the [Group], fails its
    validation, an unhandled error that is answered with status 500. *)
Theorem create_group_then_get clock db group_data current_user :
  (∀ id, id ∈ GroupCreate.admin_ids group_data →
     ∃ u, users db !! id = Some u ∧ UserInDB.is_active u = true) →
  groups db !! ("group_" +:+ timestamp clock) = None →
  ∃ group db',
    create_group clock group_data current_user db = (Ok group, db') ∧
    User.id current_user ∈ Group.admin_ids group ∧
    Group.member_ids group = [] ∧
    Group.creator_id group = User.id current_user ∧
    groups db' = <[Group._id group := group]> (groups db) ∧
    get_group (Group._id group) current_user db' =
      (Raise (unhandled "ValidationError"), db').
Proof.
  intros Hadmins Hfresh.
  destruct (create_group_ok clock db group_data current_user Hadmins Hfresh)
    as (group & Hcreate & Hid & Hadm & Hmem & Hcreator & _ & Hact).
  assert (User.id current_user ∈ Group.admin_ids group) as Hin.
  { rewrite Hadm. case_bool_decide as Hc.
    - apply elem_of_app. right. by left.
    - done. }
  exists group, (with_group ("group_" +:+ timestamp clock) group db).
  rewrite Hid. split; [done|]. split; [done|]. split; [done|].
  split; [done|]. split; [done|].
  apply (get_group_reply_fails _ group);
    [apply with_group_lookup|done|auto].
Qed.

(** dave founds a secret group with bob as second admin and cannot read
    it back. *)
Lemma create_group_then_get_witness :
  ∃ group db',
    create_group Example.clock
      (GroupCreate.mk "Chess" None None None GroupType.SECRET true true
         ["user_2"]) Example.dave Example.db = (Ok group, db') ∧
    Group.admin_ids group = ["user_2"; "user_4"] ∧
    get_group (Group._id group) Example.dave db' =
      (Raise (unhandled "ValidationError"), db').
Proof.
  destruct (create_group_then_get Example.clock Example.db
              (GroupCreate.mk "Chess" None None None GroupType.SECRET true
                 true ["user_2"]) Example.dave)
    as (group & db' & Hcreate & _ & _ & _ & _ & Hget).
  - intros id Hin. apply list_elem_of_singleton in Hin as ->.
    by exists Example.bob_doc.
  - reflexivity.
  - exists group, db'. split; [exact Hcreate|]. split; [|exact Hget].
    assert (create_group Example.clock
              (GroupCreate.mk "Chess" None None None GroupType.SECRET true
                 true ["user_2"]) Example.dave Example.db =
            (Ok (Group.mk "group_1700000000.5" "Chess" None None None
                   GroupType.SECRET true true ["user_2"; "user_4"] []
                   "user_4" true 1000 1000),
             with_group "group_1700000000.5"
               (Group.mk "group_1700000000.5" "Chess" None None None
                  GroupType.SECRET true true ["user_2"; "user_4"] []
                  "user_4" true 1000 1000) Example.db)) as Hrun
      by (vm_compute; reflexivity).
    rewrite Hrun in Hcreate. by injection Hcreate as <- _.
Defined.

(** X5. An admin id of the request that names no active user makes
    [create_group] fail with 404 before anything is stored. *)
Theorem create_group_unknown_admin clock db group_data current_user id :
  id ∈ GroupCreate.admin_ids group_data →
  find_one_by_id_in id UserInDB.is_active (users db) = None →
  ∃ e, create_group clock group_data current_user db = (Raise e, db) ∧
       status_code e = HTTP_404_NOT_FOUND.
Proof.
  intros Hin Hnone.
  destruct (validate_users_exist_fails _ db id Hin Hnone) as (e & He & Hs).
  exists e. split; [|done]. unfold create_group. by erewrite bind_fail.
Qed.

(** carol's account is deleted and cannot be made admin. *)
Lemma create_group_unknown_admin_witness :
  ∃ e,
    create_group Example.clock
      (GroupCreate.mk "Chess" None None None GroupType.PUBLIC true true
         ["user_2"; "user_3"]) Example.dave Example.db =
      (Raise e, Example.db) ∧
    status_code e = HTTP_404_NOT_FOUND.
Proof.
  apply (create_group_unknown_admin Example.clock Example.db
           (GroupCreate.mk "Chess" None None None GroupType.PUBLIC true true
              ["user_2"; "user_3"]) Example.dave "user_3");
    [|reflexivity].
  apply (bool_decide_unpack _). by vm_compute.
Defined.

(** X6. [create_group] does not deduplicate [admin_ids], and the sole-admin
    guard of [leave_group] counts entries: a creator who listed nobody but
    themselves, more than once, can leave the group just created, which
    stays active with no admin and no member. *)
Theorem creator_listed_twice_can_orphan clock clock' db group_data current_user :
  Forall (λ a, a = User.id current_user) (GroupCreate.admin_ids group_data) →
  (2 ≤ length (GroupCreate.admin_ids group_data))%nat →
  (∃ u, users db !! User.id current_user = Some u ∧
        UserInDB.is_active u = true) →
  groups db !! ("group_" +:+ timestamp clock) = None →
  ∃ group db1 left db2,
    create_group clock group_data current_user db = (Ok group, db1) ∧
    leave_group clock' (Group._id group) current_user db1 = (Ok left, db2) ∧
    groups db2 !! Group._id group = Some left ∧
    Group.is_active left = true ∧
    Group.admin_ids left = [] ∧
    Group.member_ids left = [].
Proof.
  intros Hall Hlen Huser Hfresh.
  destruct (create_group_ok clock db group_data current_user)
    as (group & Hcreate & Hid & Hadm & Hmem & Hcreator & _ & Hact);
    [|done|].
  { intros id Hin. rewrite Forall_forall in Hall. by rewrite (Hall id Hin). }
  assert (User.id current_user ∈ GroupCreate.admin_ids group_data) as Hin.
  { destruct (GroupCreate.admin_ids group_data) as [|a l]; [simpl in Hlen; lia|].
    apply Forall_cons in Hall as [-> _]. left. }
  rewrite bool_decide_eq_false_2 in Hadm by (intros H; by apply H).
  exists group. rewrite Hid. do 3 eexists. split; [exact Hcreate|].
  unfold leave_group. found group.
  passes; [|apply andb_false_intro2, bool_decide_eq_false_2; rewrite Hadm;
            by intros H; apply H].
  rewrite Hadm, Hmem. rewrite (bool_decide_eq_true_2 _ Hin). cbn [andb].
  passes; [|apply andb_false_intro1, bool_decide_eq_false_2; lia].
  rewrite (bool_decide_eq_false_2 (_ ∈ [])) by apply not_elem_of_nil.
  rewrite (update_group_stored _ _ group) by apply with_group_lookup.
  erewrite reread_group_stored by apply with_group_lookup.
  split; [reflexivity|]. split; [apply with_group_lookup|].
  cbn [Group.is_active Group.admin_ids Group.member_ids Group.set_updated_at
       Group.set_admin_ids].
  rewrite Hadm, (pull_all _ _ Hall). by repeat split.
Qed.

(** dave founds a group, listed twice as admin, and walks away. *)
Lemma creator_listed_twice_can_orphan_witness :
  ∃ group db1 left db2,
    create_group Example.clock
      (GroupCreate.mk "Chess" None None None GroupType.PUBLIC true true
         ["user_4"; "user_4"]) Example.dave Example.db = (Ok group, db1) ∧
    leave_group Example.later (Group._id group) Example.dave db1 =
      (Ok left, db2) ∧
    groups db2 !! Group._id group = Some left ∧
    Group.is_active left = true ∧
    Group.admin_ids left = [] ∧
    Group.member_ids left = [].
Proof.
  apply (creator_listed_twice_can_orphan Example.clock Example.later
           Example.db
           (GroupCreate.mk "Chess" None None None GroupType.PUBLIC true true
              ["user_4"; "user_4"]) Example.dave).
  - by repeat constructor.
  - done.
  - by exists Example.dave_doc.
  - reflexivity.
Defined.

(** ** Promotion, update and deletion of a group *)

(** X7. Promotion is what frees a sole admin: once the only admin has
    promoted a member, the target is stored as second admin and remains a
    member, and the promoter may leave; the group then has the promoted
    member as its only admin. *)
Theorem promote_then_leave
    clock clock' db group_id group user_id current_user :
  groups db !! group_id = Some group →
  Group.is_active group = true →
  Group.admin_ids group = [User.id current_user] →
  user_id ∈ Group.member_ids group →
  user_id ≠ User.id current_user →
  ∃ promoted db1 left db2,
    promote_to_admin clock group_id user_id current_user db =
      (Ok promoted, db1) ∧
    Group.admin_ids promoted = [User.id current_user; user_id] ∧
    Group.member_ids promoted = Group.member_ids group ∧
    leave_group clock' group_id current_user db1 = (Ok left, db2) ∧
    groups db2 !! group_id = Some left ∧
    Group.admin_ids left = [user_id] ∧
    user_id ∈ Group.member_ids left.
Proof.
  intros Hg Hact Hadm Hmem Hne.
  set (promoted := Group.set_updated_at (utcnow clock)
         (Group.set_admin_ids [User.id current_user; user_id] group)).
  assert (promote_to_admin clock group_id user_id current_user db =
            (Ok promoted, with_group group_id promoted db)) as Hpromote.
  { unfold promote_to_admin. found group. rewrite Hadm.
    passes; [|apply andb_false_intro1, bool_decide_eq_false_2;
              intros H; apply H; left].
    passes; [|by apply bool_decide_eq_false_2; intros ?].
    passes; [|apply bool_decide_eq_false_2;
              by rewrite list_elem_of_singleton].
    rewrite (update_group_stored _ _ group) by done.
    erewrite reread_group_stored by apply with_group_lookup.
    unfold addToSet. rewrite Hadm.
    by rewrite bool_decide_eq_false_2 by by rewrite list_elem_of_singleton. }
  exists promoted, (with_group group_id promoted db). do 2 eexists.
  split; [exact Hpromote|]. split; [done|]. split; [done|].
  assert (pull (User.id current_user) [User.id current_user; user_id] =
          [user_id]) as Hpull.
  { unfold pull. rewrite filter_cons_False by (intros H; by apply H).
    by rewrite filter_cons_True by done. }
  split; [|split; [apply with_group_lookup|]].
  - unfold leave_group. found promoted.
    passes; [|apply andb_false_intro2, bool_decide_eq_false_2;
              intros H; apply H; left].
    cbn [Group.admin_ids promoted Group.set_updated_at Group.set_admin_ids].
    rewrite (bool_decide_eq_true_2 (_ ∈ [_; _])) by left. cbn [andb].
    passes; [|by apply andb_false_intro1, bool_decide_eq_false_2].
    rewrite (update_group_stored _ _ promoted) by apply with_group_lookup.
    erewrite reread_group_stored by apply with_group_lookup. reflexivity.
  - cbn [Group.admin_ids Group.member_ids Group.set_updated_at promoted
         Group.set_admin_ids Group.set_member_ids].
    split.
    + by destruct (bool_decide (_ ∈ Group.member_ids group)).
    + destruct (bool_decide (_ ∈ Group.member_ids group));
        cbn [Group.member_ids Group.set_member_ids]; [|done].
      by apply elem_of_pull.
Qed.

(** alice promotes bob in the club and leaves the club to bob. *)
Lemma promote_then_leave_witness :
  ∃ promoted db1 left db2,
    promote_to_admin Example.clock "group_1" "user_2" Example.alice
      Example.db = (Ok promoted, db1) ∧
    Group.admin_ids promoted = ["user_1"; "user_2"] ∧
    leave_group Example.later "group_1" Example.alice db1 = (Ok left, db2) ∧
    Group.admin_ids left = ["user_2"].
Proof.
  destruct (promote_then_leave Example.clock Example.later Example.db
              "group_1" Example.club "user_2" Example.alice)
    as (promoted & db1 & left & db2 & Hp & Hadm & _ & Hl & _ & Hleft & _);
    [reflexivity|reflexivity|reflexivity| |done|].
  - apply (bool_decide_unpack _). by vm_compute.
  - by exists promoted, db1, left, db2.
Defined.

(** X8. Deleting a group is final: an admin or the creator turns
    [is_active] off, the record stays stored, and from then on every group
    route that takes the id answers 404 to every caller and writes
    nothing. *)
Theorem delete_group_is_final clock db group_id group current_user :
  groups db !! group_id = Some group →
  Group.is_active group = true →
  User.id current_user ∈ Group.admin_ids group ∨
    User.id current_user = Group.creator_id group →
  ∃ db',
    delete_group clock group_id current_user db = (Ok tt, db') ∧
    groups db' !! group_id = Some (deactivate_group (utcnow clock) group) ∧
    ∀ clock' caller,
      (∃ e, get_group group_id caller db' = (Raise e, db') ∧
            status_code e = HTTP_404_NOT_FOUND) ∧
      (∃ e, join_group clock' group_id caller db' = (Raise e, db') ∧
            status_code e = HTTP_404_NOT_FOUND) ∧
      (∃ e, leave_group clock' group_id caller db' = (Raise e, db') ∧
            status_code e = HTTP_404_NOT_FOUND) ∧
      (∀ user_id,
         ∃ e, promote_to_admin clock' group_id user_id caller db' =
                (Raise e, db') ∧ status_code e = HTTP_404_NOT_FOUND) ∧
      (∀ group_data,
         ∃ e, update_group clock' group_id group_data caller db' =
                (Raise e, db') ∧ status_code e = HTTP_404_NOT_FOUND) ∧
      (∃ e, delete_group clock' group_id caller db' = (Raise e, db') ∧
            status_code e = HTTP_404_NOT_FOUND).
Proof.
  intros Hg Hact Hmay.
  exists (with_group group_id (deactivate_group (utcnow clock) group) db).
  split; [|split; [apply with_group_lookup|]].
  - unfold delete_group. found group.
    passes.
    2:{ rewrite andb_false_iff, !bool_decide_eq_false.
        destruct Hmay; [left|right]; by intros ?. }
    unfold update_one, with_group.
    change (docs groups_collection db) with (groups db).
    by rewrite (alter_stored _ _ _ group).
  - intros clock' caller.
    assert (∀ B (k : option Group.t → Handler B),
      bind (find_one_by_id groups_collection group_id Group.is_active) k
        (with_group group_id (deactivate_group (utcnow clock) group) db) =
      k None
        (with_group group_id (deactivate_group (utcnow clock) group) db))
      as Hgone.
    { intros B k. rewrite bind_find_one_by_id.
      by rewrite (find_one_by_id_in_inactive _ _ _
                    (deactivate_group (utcnow clock) group))
        by stored. }
    unfold get_group, join_group, leave_group, promote_to_admin,
      update_group, delete_group.
    repeat split; intros; rewrite Hgone; eauto.
Qed.

(** alice deletes the club; bob, a member, no longer finds it. *)
Lemma delete_group_is_final_witness :
  ∃ db',
    delete_group Example.clock "group_1" Example.alice Example.db =
      (Ok tt, db') ∧
    Group.is_active <$> groups db' !! "group_1" = Some false ∧
    ∃ e, get_group "group_1" Example.bob db' = (Raise e, db') ∧
         status_code e = HTTP_404_NOT_FOUND.
Proof.
  destruct (delete_group_is_final Example.clock Example.db "group_1"
              Example.club Example.alice)
    as (db' & Hdel & Hstored & Hgone); [reflexivity|reflexivity| |].
  - left. apply (bool_decide_unpack _). by vm_compute.
  - exists db'. split; [exact Hdel|]. split; [by rewrite Hstored|].
    apply (Hgone Example.later Example.bob).
Defined.

(** X9. [update_group] by an admin or the creator rewrites the fields that
    the request carries and [updated_at], and nothing else: the roles, the
    creator and [is_active] stay, and a description, once set, can be
    replaced but not cleared. Anyone else is answered 403 and nothing is
    written. *)
Theorem update_group_keeps_roles
    clock db group_id group group_data current_user :
  groups db !! group_id = Some group →
  Group.is_active group = true →
  (User.id current_user ∈ Group.admin_ids group ∨
     User.id current_user = Group.creator_id group →
   ∃ updated db',
     update_group clock group_id group_data current_user db =
       (Ok updated, db') ∧
     groups db' = <[group_id := updated]> (groups db) ∧
     Group.admin_ids updated = Group.admin_ids group ∧
     Group.member_ids updated = Group.member_ids group ∧
     Group.creator_id updated = Group.creator_id group ∧
     Group.is_active updated = true ∧
     (∀ t, GroupUpdate.type group_data = Some t → Group.type updated = t) ∧
     (GroupUpdate.type group_data = None →
        Group.type updated = Group.type group) ∧
     (is_Some (Group.description group) →
        is_Some (Group.description updated))) ∧
  (User.id current_user ∉ Group.admin_ids group →
   User.id current_user ≠ Group.creator_id group →
     update_group clock group_id group_data current_user db =
       (Raise (mkHTTPException HTTP_403_FORBIDDEN
                 "Not authorized to update this group"), db)).
Proof.
  intros Hg Hact. split.
  - intros Hmay. do 2 eexists. split.
    + unfold update_group. found group.
      passes.
      2:{ rewrite andb_false_iff, !bool_decide_eq_false.
          destruct Hmay; [left|right]; by intros ?. }
      rewrite (update_group_stored _ _ group) by done.
      erewrite reread_group_stored by apply with_group_lookup. reflexivity.
    + split; [done|]. cbn. repeat split; try done.
      * by intros t ->.
      * by intros ->.
      * intros [d Hd]. rewrite Hd.
        by destruct (GroupUpdate.description group_data).
  - intros Ha Hc. unfold update_group. found group.
    rewrite bind_raise_if_true; [done|].
    by rewrite andb_true_iff, !bool_decide_eq_true.
Qed.

(** alice opens the club to the public; bob, a mere member, may not rename
    it. *)
Lemma update_group_keeps_roles_witness :
  (∃ updated db',
     update_group Example.later "group_1"
       (GroupUpdate.mk None None None None (Some GroupType.PUBLIC) None None)
       Example.alice Example.db = (Ok updated, db') ∧
     Group.type updated = GroupType.PUBLIC ∧
     Group.admin_ids updated = ["user_1"] ∧
     Group.member_ids updated = ["user_2"]) ∧
  update_group Example.later "group_1"
    (GroupUpdate.mk (Some "Bob's") None None None None None None)
    Example.bob Example.db =
    (Raise (mkHTTPException HTTP_403_FORBIDDEN
              "Not authorized to update this group"), Example.db).
Proof.
  split.
  - destruct (update_group_keeps_roles Example.later Example.db "group_1"
                Example.club
                (GroupUpdate.mk None None None None (Some GroupType.PUBLIC)
                   None None) Example.alice eq_refl eq_refl) as [Hmay _].
    destruct Hmay as (u & db' & Hrun & _ & Ha & Hm & _ & _ & Hty & _).
    { left. apply (bool_decide_unpack _). by vm_compute. }
    exists u, db'. split; [exact Hrun|]. split; [by apply Hty|]. by split.
  - destruct (update_group_keeps_roles Example.later Example.db "group_1"
                Example.club
                (GroupUpdate.mk (Some "Bob's") None None None None None None)
                Example.bob eq_refl eq_refl) as [_ Hno].
    apply Hno; [|done]. apply (bool_decide_unpack _). by vm_compute.
Defined.

(** X10. [get_user_groups] lists the active groups in which [user_id] is
    creator, admin or member, and only those; the caller plays no part, so
    the secret groups of a user are listed to anyone who asks for them. *)
Theorem get_user_groups_of_anyone db user_id :
  (∀ caller skip limit page db',
     get_user_groups user_id skip limit caller db = (Ok page, db') →
     db' = db ∧
     ∀ g, g ∈ page →
       Group.is_active g = true ∧
       (Group.creator_id g = user_id ∨ user_id ∈ Group.admin_ids g ∨
        user_id ∈ Group.member_ids g)) ∧
  (∀ group_id group,
     groups db !! group_id = Some group →
     Group.is_active group = true →
     Group.creator_id group = user_id ∨ user_id ∈ Group.admin_ids group ∨
       user_id ∈ Group.member_ids group →
     ∃ rank, ∀ caller skip limit,
       (skip ≤ rank < skip + limit)%nat →
       ∃ page,
         get_user_groups user_id skip limit caller db = (Ok page, db) ∧
         group ∈ page).
Proof.
  split.
  - intros caller skip limit page db'. unfold get_user_groups.
    rewrite bind_find. unfold ret. intros Hrun.
    assert (db' = db) as -> by congruence. split; [done|].
    intros g Hin.
    assert (g ∈ to_list limit
              (take limit (drop skip (sort_by_created_at_desc
                 (find_in
                    (λ g, Group.is_active g &&
                          (bool_decide (Group.creator_id g = user_id) ||
                           bool_decide (user_id ∈ Group.admin_ids g) ||
                           bool_decide (user_id ∈ Group.member_ids g)))
                    (docs groups_collection db)))))) as Hin'
      by congruence.
    apply elem_of_page in Hin'.
    rewrite elem_of_sort_by_created_at_desc, elem_of_find_in in Hin'.
    destruct Hin' as [Hq _]. apply andb_true_iff in Hq as [Hact Hq].
    split; [done|].
    rewrite !orb_true_iff, !bool_decide_eq_true in Hq. tauto.
  - intros group_id group Hg Hact Hinv.
    set (q := λ g : Group.t,
           Group.is_active g &&
           (bool_decide (Group.creator_id g = user_id) ||
            bool_decide (user_id ∈ Group.admin_ids g) ||
            bool_decide (user_id ∈ Group.member_ids g))).
    assert (group ∈ sort_by_created_at_desc (find_in q (groups db))) as Hin.
    { apply elem_of_sort_by_created_at_desc, elem_of_find_in.
      split; [|eauto]. unfold q. rewrite Hact. cbn [andb].
      rewrite !orb_true_iff, !bool_decide_eq_true. tauto. }
    apply list_elem_of_lookup in Hin as [rank Hrank]. exists rank.
    intros caller skip limit Hr. eexists. split; [reflexivity|].
    unfold to_list. by eapply lookup_page.
Qed.

(** dave asks for bob's groups and is shown the secret club. *)
Lemma get_user_groups_of_anyone_witness :
  ∃ rank, ∀ caller skip limit,
    (skip ≤ rank < skip + limit)%nat →
    ∃ page,
      get_user_groups "user_2" skip limit caller Example.db =
        (Ok page, Example.db) ∧
      Example.club ∈ page.
Proof.
  destruct (get_user_groups_of_anyone Example.db "user_2") as [_ Hlisted].
  apply (Hlisted "group_1" Example.club); [reflexivity|reflexivity|].
  right. right. apply (bool_decide_unpack _). by vm_compute.
Defined.

(** ** Joining and deleting an event *)

Lemma with_event_lookup event_id e db :
  events (with_event event_id e db) !! event_id = Some e.
Proof. apply lookup_insert_eq. Qed.




(** X12. A private event cannot be joined by anyone: [join_event] answers
    403 to every caller, its members, organizers and creator included, and
    writes nothing. *)
Theorem join_event_private_refused clock db event_id event current_user :
  events db !! event_id = Some event →
  Event.is_active event = true →
  Event.privacy event = EventPrivacy.PRIVATE →
  join_event clock event_id current_user db =
    (Raise (mkHTTPException HTTP_403_FORBIDDEN
              "Cannot join a private event without invitation"), db).
Proof.
  intros He Hact Hpriv. unfold join_event. found event.
  rewrite bind_raise_if_true; [done|].
  apply bool_decide_eq_true_2. by rewrite Hpriv.
Qed.

Lemma join_event_private_refused_witness :
  join_event Example.clock "event_1" Example.dave Example.db =
    (Raise (mkHTTPException HTTP_403_FORBIDDEN
              "Cannot join a private event without invitation"), Example.db).
Proof.
  apply (join_event_private_refused Example.clock Example.db "event_1"
           Example.party Example.dave); reflexivity.
Defined.

(** X13. Deleting an event is final for the routes that read it: an
    organizer or the creator turns [is_active] off, the record stays, and
    reading, joining, updating, deleting the event, listing or extending its
    shopping list and creating a poll for it all answer 404 to every caller
    and write nothing. *)
Theorem delete_event_is_final clock db event_id event current_user :
  events db !! event_id = Some event →
  Event.is_active event = true →
  User.id current_user ∈ Event.organizers event ∨
    User.id current_user = Event.creator_id event →
  ∃ db',
    delete_event clock event_id current_user db = (Ok tt, db') ∧
    events db' !! event_id = Some (deactivate_event (utcnow clock) event) ∧
    ∀ clock' caller,
      (∃ e, get_event event_id caller db' = (Raise e, db') ∧
            status_code e = HTTP_404_NOT_FOUND) ∧
      (∃ e, join_event clock' event_id caller db' = (Raise e, db') ∧
            status_code e = HTTP_404_NOT_FOUND) ∧
      (∀ event_data,
         ∃ e, update_event clock' event_id event_data caller db' =
                (Raise e, db') ∧ status_code e = HTTP_404_NOT_FOUND) ∧
      (∃ e, delete_event clock' event_id caller db' = (Raise e, db') ∧
            status_code e = HTTP_404_NOT_FOUND) ∧
      (∃ e, get_event_shopping_list event_id caller db' = (Raise e, db') ∧
            status_code e = HTTP_404_NOT_FOUND) ∧
      (∀ name quantity unit arrival_time notes,
         ∃ e, create_shopping_item clock'
                (ShoppingItemCreate.mk name quantity unit event_id
                   arrival_time notes) caller db' = (Raise e, db') ∧
              status_code e = HTTP_404_NOT_FOUND) ∧
      (∀ title description questions is_anonymous allow_multiple_votes,
         ∃ e, create_poll clock'
                (PollCreate.mk title description event_id questions
                   is_anonymous allow_multiple_votes) caller db' =
                (Raise e, db') ∧
              status_code e = HTTP_404_NOT_FOUND).
Proof.
  intros He Hact Hmay.
  exists (with_event event_id (deactivate_event (utcnow clock) event) db).
  split; [|split; [apply with_event_lookup|]].
  - unfold delete_event. found event.
    passes.
    2:{ rewrite andb_false_iff, !bool_decide_eq_false.
        destruct Hmay; [left|right]; by intros ?. }
    unfold update_one, with_event.
    change (docs events_collection db) with (events db).
    by rewrite (alter_stored _ _ _ event).
  - intros clock' caller.
    assert (∀ B (k : option Event.t → Handler B),
      bind (find_one_by_id events_collection event_id Event.is_active) k
        (with_event event_id (deactivate_event (utcnow clock) event) db) =
      k None
        (with_event event_id (deactivate_event (utcnow clock) event) db))
      as Hgone.
    { intros B k. rewrite bind_find_one_by_id.
      by rewrite (find_one_by_id_in_inactive _ _ _
                    (deactivate_event (utcnow clock) event))
        by stored. }
    unfold get_event, join_event, update_event, delete_event,
      get_event_shopping_list, create_shopping_item, create_poll.
    cbn [ShoppingItemCreate.event_id PollCreate.event_id].
    repeat split; intros; rewrite Hgone; eauto.
Qed.

(** alice cancels the party; bob can no longer see its shopping list. *)
Lemma delete_event_is_final_witness :
  ∃ db',
    delete_event Example.clock "event_1" Example.alice Example.db =
      (Ok tt, db') ∧
    Event.is_active <$> events db' !! "event_1" = Some false ∧
    ∃ e, get_event_shopping_list "event_1" Example.bob db' = (Raise e, db') ∧
         status_code e = HTTP_404_NOT_FOUND.
Proof.
  destruct (delete_event_is_final Example.clock Example.db "event_1"
              Example.party Example.alice)
    as (db' & Hdel & Hstored & Hgone); [reflexivity|reflexivity| |].
  - left. apply (bool_decide_unpack _). by vm_compute.
  - exists db'. split; [exact Hdel|]. split; [by rewrite Hstored|].
    apply (Hgone Example.later Example.bob).
Defined.

(** ** Votes *)

(** X14. The participation test of [vote_poll] is skipped when the event of
    the poll cannot be found. Take an active poll, a question of it that
    the search of the handler finds (the questions up to it have an [_id]),
    a declared answer of that question that addresses a counter, and a
    stranger to the event who has no vote on the poll: the stranger is
    refused with 403 while the event is active, and once an organizer has
    deleted the event the same vote is recorded, [total_responses] and the
    counter growing by 1 (the generated vote [_id] must be free). *)
Theorem vote_poll_after_event_deleted
    clock clock' db event organizer poll_id poll question_id question answer
    voter :
  events db !! Poll.event_id poll = Some event →
  Event.is_active event = true →
  User.id organizer ∈ Event.organizers event ∨
    User.id organizer = Event.creator_id event →
  polls db !! poll_id = Some poll →
  Poll.is_active poll = true →
  ¬ is_participant (User.id voter) event →
  ¬ has_voted db poll_id (User.id voter) →
  find_question question_id (Poll.questions poll) = QuestionFound question →
  answer ∈ Question.answers question →
  addresses_counter answer question →
  votes db !! ("vote_" +:+ timestamp clock') = None →
  vote_poll clock' (VoteCreate.mk poll_id question_id answer) voter db =
    (Raise (mkHTTPException HTTP_403_FORBIDDEN
              "Not authorized to vote in this poll"), db) ∧
  ∃ db1 response db2 poll',
    delete_event clock (Poll.event_id poll) organizer db = (Ok tt, db1) ∧
    vote_poll clock' (VoteCreate.mk poll_id question_id answer) voter db1 =
      (Ok response, db2) ∧
    polls db2 !! poll_id = Some poll' ∧
    Poll.total_responses poll' = Poll.total_responses poll + 1 ∧
    response_count question_id answer poll' =
      response_count question_id answer poll + 1.
Proof.
  intros He Hact Hmay Hp Hpact Hstranger Hnv Hq Hans Hcounter Hfresh.
  destruct (record_vote_counts question_id answer poll question Hq Hcounter)
    as (poll' & _ & Hrecorded & Htotal & Hcount & _).
  split.
  { unfold vote_poll.
    cbn [VoteCreate.poll_id VoteCreate.question_id VoteCreate.answer].
    found poll. found event.
    rewrite bind_raise_if_true; [done|].
    rewrite andb_true_iff, !bool_decide_eq_true.
    unfold is_participant in Hstranger. tauto. }
  set (db1 := with_event (Poll.event_id poll)
                (deactivate_event (utcnow clock) event) db).
  assert (delete_event clock (Poll.event_id poll) organizer db = (Ok tt, db1))
    as Hdel.
  { unfold delete_event. found event.
    passes.
    2:{ rewrite andb_false_iff, !bool_decide_eq_false.
        destruct Hmay; [left|right]; by intros ?. }
    unfold update_one, db1, with_event.
    change (docs events_collection db) with (events db).
    by rewrite (alter_stored _ _ _ event). }
  exists db1. do 2 eexists. exists poll'.
  split; [exact Hdel|]. split.
  - apply (vote_poll_recorded clock' db1 poll_id question_id answer voter
             poll question); try done.
    + rewrite (find_one_by_id_in_inactive _ _ _
                 (deactivate_event (utcnow clock) event)); [done| |done].
      apply with_event_lookup.
    + by right.
  - split.
    + unfold after_vote. cbn [polls set_docs polls_collection
        votes_collection]. change (polls db1) with (polls db).
      rewrite lookup_alter_eq, Hp. cbn [fmap option_fmap option_map].
      by rewrite Hrecorded.
    + done.
Qed.

(** dave has nothing to do with the party; dave's vote on its menu counts
    once alice has cancelled it. *)
Lemma vote_poll_after_event_deleted_witness :
  vote_poll Example.later (VoteCreate.mk "poll_1" "question_1" "no")
    Example.dave Example.db =
    (Raise (mkHTTPException HTTP_403_FORBIDDEN
              "Not authorized to vote in this poll"), Example.db) ∧
  ∃ db1 response db2,
    delete_event Example.clock "event_1" Example.alice Example.db =
      (Ok tt, db1) ∧
    vote_poll Example.later (VoteCreate.mk "poll_1" "question_1" "no")
      Example.dave db1 = (Ok response, db2) ∧
    Poll.total_responses <$> polls db2 !! "poll_1" = Some 1.
Proof.
  destruct (vote_poll_after_event_deleted Example.clock Example.later
              Example.db Example.party Example.alice "poll_1" Example.survey
              "question_1" Example.menu "no" Example.dave)
    as (Hbefore & db1 & response & db2 & poll' & Hdel & Hvote & Hp & Ht & _);
    try reflexivity.
  - left. apply (bool_decide_unpack _). by vm_compute.
  - intros [H|H]; apply (bool_decide_pack _) in H; by vm_compute in H.
  - intros (id & v & Hv & _).
    change (votes Example.db) with (∅ : gmap string Vote.t) in Hv.
    by rewrite lookup_empty in Hv.
  - apply (bool_decide_unpack _). by vm_compute.
  - split; [reflexivity|]. split; [reflexivity|].
    intros fields Hfields. by vm_compute in Hfields.
  - split; [exact Hbefore|]. exists db1, response, db2.
    split; [exact Hdel|]. split; [exact Hvote|]. rewrite Hp.
    cbn [fmap option_fmap option_map]. by rewrite Ht.
Defined.

Lemma answer_total_insert (counts : gmap string Counter.t) answer c :
  map_fold (λ _ c acc, number c + acc) 0 (<[answer := c]> counts) =
  map_fold (λ _ c acc, number c + acc) 0 counts
    - from_option number 0 (counts !! answer) + number c.
Proof.
  destruct (counts !! answer) as [c0|] eqn:Hc.
  - rewrite <- insert_delete_eq. rewrite map_fold_insert_L.
    2: intros; lia.
    2: apply lookup_delete_eq.
    rewrite (map_fold_delete_L _ _ answer c0 counts).
    2: intros; lia.
    2: done.
    cbn [from_option]. lia.
  - rewrite map_fold_insert_L.
    2: intros; lia.
    2: done.
    cbn [from_option]. lia.
Qed.

(** The increment of an answer without a dot adds 1 to the numbers of the
    question. *)
Lemma answer_total_inc answer q q' :
  undotted answer →
  inc_response_count answer q = Some q' →
  answer_total q' = answer_total q + 1.
Proof.
  unfold undotted, inc_response_count, answer_total. intros ->.
  cbn [inc_path].
  destruct (Question.response_counts q !! answer) as [[n|fields]|] eqn:Hc;
    [| done |]; intros [= <-];
    cbn [Question.response_counts Question.set_response_counts];
    rewrite answer_total_insert, Hc; cbn [from_option number]; lia.
Qed.

Lemma tally_inc question_id answer questions questions' :
  undotted answer →
  Exists (λ q, Question._id q = Some question_id) questions →
  inc_matched_question question_id answer questions = Some questions' →
  foldr (λ q acc, answer_total q + acc) 0 questions' =
  foldr (λ q acc, answer_total q + acc) 0 questions + 1.
Proof.
  intros Hpath. revert questions'.
  induction questions as [|q qs IH]; intros qs' Hex.
  - by apply Exists_nil in Hex.
  - cbn [inc_matched_question]. case_bool_decide as Hq.
    + destruct (inc_response_count answer q) as [q'|] eqn:Hinc; [|done].
      intros [= <-]. cbn [foldr].
      rewrite (answer_total_inc _ _ _ Hpath Hinc). lia.
    + apply Exists_cons in Hex as [?|Hex]; [done|].
      destruct (inc_matched_question question_id answer qs) as [qs0|] eqn:Hqs;
        [|done].
      intros [= <-]. cbn [foldr]. rewrite (IH qs0) by done. lia.
Qed.

Lemma recorded_well_counted question_id answer p :
  undotted answer →
  well_counted p → well_counted (recorded question_id answer p).
Proof.
  unfold well_counted, recorded, record_vote, tally. intros Hpath Hp.
  destruct (forallb _ _); [|done]. case_bool_decide as Hex; [|done].
  destruct (inc_matched_question _ _ _) as [qs'|] eqn:Hqs; [|done].
  cbn. rewrite (tally_inc _ _ _ _ Hpath Hex Hqs). lia.
Qed.

(** All that [vote_poll] ever writes is one vote and, when the server takes
    the update, its count. *)
Lemma vote_poll_writes clock db vote_data current_user outcome db' :
  vote_poll clock vote_data current_user db = (outcome, db') →
  db' = db ∨
  db' = after_vote clock (VoteCreate.poll_id vote_data)
          (VoteCreate.question_id vote_data) (VoteCreate.answer vote_data)
          (User.id current_user) db.
Proof.
  unfold vote_poll. rewrite bind_find_one_by_id.
  destruct (find_one_by_id_in _ _ _) as [poll|];
    [|intros [= _ <-]; by left].
  rewrite bind_find_one_by_id.
  destruct (find_one_by_id_in _ _ _) as [event|];
    [branch Hpart; [intros [= _ <-]; by left|]|rewrite bind_ret];
    (destruct (Poll.allow_multiple_votes poll); simpl negb; cbv iota;
     [rewrite bind_ret
     |rewrite bind_assoc, bind_find_one;
      branch Hdup; [intros [= _ <-]; by left|]]);
    (destruct (find_question _ _) as [question| |];
     [branch Hans; [intros [= _ <-]; by left|]
     |rewrite bind_raise; intros [= _ <-]; by left
     |rewrite bind_raise; intros [= _ <-]; by left]);
    cbv zeta;
    (destruct (docs votes_collection db !! ("vote_" +:+ timestamp clock))
       as [taken|] eqn:Hid;
     [erewrite bind_insert_one_taken by exact Hid; intros [= _ <-]; by left
     |rewrite bind_insert_one_fresh by exact Hid]);
    intros Hrun; right; revert Hrun; unfold after_vote, recorded;
    (branch Hpath;
     [apply negb_true_iff in Hpath; rewrite Hpath; intros [= _ <-];
      by rewrite alter_id
     |apply negb_false_iff in Hpath; rewrite Hpath]);
    unfold bind at 1, update_one_or_fail;
    cbn [docs set_docs polls_collection votes_collection polls votes];
    (destruct (polls db !! VoteCreate.poll_id vote_data) as [p|] eqn:Hp;
     [destruct (record_vote _ _ p) as [p'|] eqn:Hrecord;
      [rewrite bind_find_one_by_id; unfold ret; intros [= _ <-];
       rewrite (alter_stored _ _ _ p) by done; by rewrite Hrecord
      |intros [= _ <-];
       rewrite alter_id; [done|]; intros p0 Hp0;
       assert (p0 = p) as -> by congruence; by rewrite Hrecord]
     |rewrite bind_find_one_by_id; unfold ret; intros [= _ <-];
      rewrite alter_id; [done|]; intros p0 Hp0; congruence]).
Qed.

(** Why the answer must have no dot: for the declared answer "1.0" the
    update goes to the field "0" of an embedded document "1";
    [total_responses] grows to 1 and the counter of "1.0" stays at 0. *)
Lemma dotted_answer_miscounts :
  let versions :=
    Question.mk (Some "question_1") "Version?" ["1.0"; "2.0"]
      (zero_counts ["1.0"; "2.0"]) in
  let poll :=
    Poll.mk "poll_3" "Release" None "event_1" "user_1" [versions] false
      false 0 true 9 9 in
  well_counted poll ∧
  ∃ poll',
    record_vote "question_1" "1.0" poll = Some poll' ∧
    Poll.total_responses poll' = 1 ∧
    response_count "question_1" "1.0" poll' = 0 ∧
    tally poll' = 0.
Proof.
  intros versions poll. split; [by vm_compute|].
  eexists. split; [vm_compute; reflexivity|]. by vm_compute.
Qed.

(** X15. [vote_poll] keeps the count of every poll right for answers
    without a dot: if, in each stored poll, [total_responses] is the sum of
    the numbers in the [response_counts] of its questions, the same holds
    after any call whose answer has no dot, whatever its outcome. With a
    dot the [$inc] leaves the numbers of [response_counts] alone and writes
    into an embedded document, while [total_responses] grows. *)
Theorem vote_poll_keeps_the_count
    clock db vote_data current_user outcome db' :
  undotted (VoteCreate.answer vote_data) →
  (∀ poll_id p, polls db !! poll_id = Some p → well_counted p) →
  vote_poll clock vote_data current_user db = (outcome, db') →
  ∀ poll_id p, polls db' !! poll_id = Some p → well_counted p.
Proof.
  intros Hpath Hinv Hrun poll_id p.
  destruct (vote_poll_writes _ _ _ _ _ _ Hrun) as [->| ->]; [apply Hinv|].
  unfold after_vote. cbn [polls set_docs polls_collection votes_collection].
  rewrite lookup_alter.
  case_decide as Hid; [|apply Hinv]. subst poll_id.
  destruct (polls db !! VoteCreate.poll_id vote_data) as [p0|] eqn:Hp0;
    [|done].
  intros [= <-]. apply recorded_well_counted; [done|]. by eapply Hinv.
Qed.

(** bob votes on the menu; one response, one counted answer. *)
Lemma vote_poll_keeps_the_count_witness :
  map_Forall (λ _ p, well_counted p)
    (polls (vote_poll Example.clock
              (VoteCreate.mk "poll_1" "question_1" "yes") Example.bob
              Example.db).2).
Proof.
  intros poll_id p Hp. cbv beta.
  eapply (vote_poll_keeps_the_count Example.clock Example.db
            (VoteCreate.mk "poll_1" "question_1" "yes") Example.bob);
    [reflexivity| |apply surjective_pairing|exact Hp].
  apply (bool_decide_unpack
           (map_Forall (λ _ p, Poll.total_responses p = tally p)
              (polls Example.db))).
  by vm_compute.
Defined.

(** ** Creating a poll *)

Lemma zero_counts_lookup answers answer :
  zero_counts answers !! answer =
  if bool_decide (answer ∈ answers) then Some (Counter.Int 0) else None.
Proof.
  unfold zero_counts. induction answers as [|a l IH].
  - rewrite bool_decide_eq_false_2 by apply not_elem_of_nil.
    apply lookup_empty.
  - cbn [fmap list_fmap list_to_map foldr curry].
    destruct (decide (answer = a)) as [->|Hne].
    + rewrite lookup_insert_eq. by rewrite bool_decide_eq_true_2 by left.
    + rewrite lookup_insert_ne by done. rewrite IH.
      rewrite (bool_decide_ext (answer ∈ a :: l) (answer ∈ l)); [done|].
      rewrite elem_of_cons. tauto.
Qed.

Lemma answer_total_zero (counts : gmap string Counter.t) :
  map_Forall (λ _ c, c = Counter.Int 0) counts →
  map_fold (λ _ c acc, number c + acc) 0 counts = 0.
Proof.
  induction counts as [|a c counts Ha IH] using map_ind; intros Hzero.
  - by rewrite map_fold_empty.
  - rewrite map_fold_insert_L.
    2: intros; lia.
    2: done.
    apply map_Forall_insert in Hzero as [-> Hzero]; [|done].
    rewrite IH by done. done.
Qed.

Lemma tally_zero questions :
  foldr (λ q acc, answer_total q + acc) 0
    (question_with_counts <$> questions) = 0.
Proof.
  induction questions as [|q qs IH]; [done|].
  cbn [fmap list_fmap foldr]. fold (fmap question_with_counts qs).
  rewrite IH. unfold answer_total. cbn [Question.response_counts
    question_with_counts].
  rewrite answer_total_zero; [done|].
  intros a n. rewrite zero_counts_lookup. by case_bool_decide; intros [=].
Qed.

(** X16. [create_poll] by an organizer of the event stores the poll, with
    no response, one counter at 0 per declared answer and no other counter,
    and then fails with 500 when it builds its reply, since the stored
    questions have no [_id]. For the same reason no vote on that poll can
    succeed: every [vote_poll] on it raises and writes nothing, and a
    participant of the event who has no vote on it gets the 500 of the
    [KeyError]. *)
Theorem create_poll_stores_then_fails clock db poll_data current_user event :
  events db !! PollCreate.event_id poll_data = Some event →
  Event.is_active event = true →
  User.id current_user ∈ Event.organizers event →
  PollCreate.questions poll_data ≠ [] →
  polls db !! ("poll_" +:+ timestamp clock) = None →
  ∃ poll db',
    create_poll clock poll_data current_user db =
      (Raise (unhandled "ValidationError"), db') ∧
    polls db' = <["poll_" +:+ timestamp clock := poll]> (polls db) ∧
    votes db' = votes db ∧
    Poll.is_active poll = true ∧
    Poll.total_responses poll = 0 ∧
    well_counted poll ∧
    Poll.questions poll =
      question_with_counts <$> PollCreate.questions poll_data ∧
    (∀ q answer,
       q ∈ Poll.questions poll →
       Question.response_counts q !! answer =
         if bool_decide (answer ∈ Question.answers q)
         then Some (Counter.Int 0) else None)
    ∧
    (∀ clock' question_id answer voter,
       ∃ e,
         vote_poll clock'
           (VoteCreate.mk ("poll_" +:+ timestamp clock) question_id answer)
           voter db' = (Raise e, db') ∧
         (is_participant (User.id voter) event →
          ¬ has_voted db ("poll_" +:+ timestamp clock) (User.id voter) →
          e = unhandled "KeyError")).
Proof.
  intros He Hact Horg Hqs Hfresh.
  set (poll := Poll.mk ("poll_" +:+ timestamp clock)
         (PollCreate.title poll_data) (PollCreate.description poll_data)
         (PollCreate.event_id poll_data) (User.id current_user)
         (question_with_counts <$> PollCreate.questions poll_data)
         (PollCreate.is_anonymous poll_data)
         (PollCreate.allow_multiple_votes poll_data) 0 true (utcnow clock)
         (utcnow clock)).
  set (db' := set_docs polls_collection
                (<["poll_" +:+ timestamp clock := poll]> (polls db)) db).
  exists poll, db'.
  split; [|split; [done|split; [done|split; [done|split; [done|split;
    [|split; [done|split]]]]]]].
  - unfold create_poll. found event.
    passes; [|by apply bool_decide_eq_false_2; intros ?].
    cbv zeta. rewrite bind_insert_one_fresh by done.
    fold poll. change (docs polls_collection db) with (polls db). fold db'.
    destruct (PollCreate.questions poll_data); [done|reflexivity].
  - unfold well_counted, tally. cbn [Poll.total_responses Poll.questions poll].
    by rewrite tally_zero.
  - intros q answer Hq. cbn [Poll.questions poll] in Hq.
    apply list_elem_of_fmap in Hq as (q0 & -> & _).
    apply zero_counts_lookup.
  - intros clock' question_id answer voter.
    assert (find_question question_id (Poll.questions poll) =
            QuestionKeyError) as Hkey.
    { cbn [Poll.questions poll].
      by destruct (PollCreate.questions poll_data). }
    unfold vote_poll.
    cbn [VoteCreate.poll_id VoteCreate.question_id VoteCreate.answer].
    found poll. cbn [Poll.event_id poll]. found event.
    branch Hpart.
    { eexists. split; [done|]. intros Hp.
      by rewrite (participant_passes _ _ Hp) in Hpart. }
    cbn [Poll.allow_multiple_votes poll].
    destruct (PollCreate.allow_multiple_votes poll_data);
      simpl negb; cbv iota.
    + rewrite bind_ret, Hkey, bind_raise. eauto.
    + rewrite bind_assoc, bind_find_one.
      change (docs votes_collection db') with (votes db).
      branch Hdup.
      * eexists. split; [done|]. intros _ Hnv.
        rewrite (not_voted_not_found _ _ _ Hnv) in Hdup.
        by rewrite bool_decide_eq_false_2 in Hdup by by intros [??].
      * rewrite Hkey, bind_raise. eauto.
Qed.

(** alice asks the party about dessert; the poll is stored, alice gets a
    500, and bob's vote on it dies on the missing [_id]. *)
Lemma create_poll_stores_then_fails_witness :
  let poll_data :=
    PollCreate.mk "Dessert" None "event_1"
      [QuestionCreate.mk "Cake?" ["yes"; "no"]] false false in
  ∃ poll db',
    create_poll Example.later poll_data Example.alice Example.db =
      (Raise (unhandled "ValidationError"), db') ∧
    polls db' !! "poll_1700000100.25" = Some poll ∧
    vote_poll Example.clock
      (VoteCreate.mk "poll_1700000100.25" "question_1" "yes") Example.bob db'
      = (Raise (unhandled "KeyError"), db').
Proof.
  intros poll_data.
  destruct (create_poll_stores_then_fails Example.later Example.db poll_data
              Example.alice Example.party)
    as (poll & db' & Hrun & Hpolls & _ & _ & _ & _ & _ & _ & Hvote);
    [reflexivity|reflexivity| |done|reflexivity|].
  - apply (bool_decide_unpack _). by vm_compute.
  - exists poll, db'. split; [exact Hrun|]. split.
    + rewrite Hpolls. apply lookup_insert_eq.
    + destruct (Hvote Example.clock "question_1" "yes" Example.bob)
        as (e & Hrun' & He).
      rewrite <- He; [exact Hrun'| |].
      * left. apply (bool_decide_unpack _). by vm_compute.
      * intros (id & v & Hv & _).
        change (votes Example.db) with (∅ : gmap string Vote.t) in Hv.
        by rewrite lookup_empty in Hv.
Defined.

(** ** Selling tickets *)

Lemma find_in_insert {D} (q : D → bool) (c : gmap string D) id d :
  c !! id = None →
  find_in q (<[id := d]> c) ≡ₚ (if q d then [d] else []) ++ find_in q c.
Proof.
  intros Hid. unfold find_in, documents.
  rewrite (map_to_list_insert c id d Hid). cbn [fmap list_fmap snd].
  fold (fmap (M:=list) (@snd string D) (map_to_list c)).
  destruct (q d) eqn:Hq.
  - rewrite filter_cons_True; [done|]. by rewrite Hq.
  - rewrite filter_cons_False; [done|]. rewrite Hq. by intros [].
Qed.

Lemma count_documents_in_insert {D} (q : D → bool) (c : gmap string D) id d :
  c !! id = None →
  count_documents_in q (<[id := d]> c) =
  ((if q d then 1 else 0) + count_documents_in q c)%nat.
Proof.
  intros Hid. unfold count_documents_in.
  rewrite (find_in_insert q c id d Hid), length_app. by destruct (q d).
Qed.

(** All that [purchase_ticket] ever writes is one ticket and its count, and
    only past the two guards. *)
Lemma purchase_ticket_writes clock db purchase_data current_user outcome db' :
  purchase_ticket clock purchase_data current_user db = (outcome, db') →
  (∃ e, outcome = Raise e ∧ db' = db) ∨
  ∃ ticket_type,
    ticket_types db !! TicketPurchase.ticket_type_id purchase_data =
      Some ticket_type ∧
    TicketType.is_active ticket_type = true ∧
    0 < TicketType.quantity ticket_type - TicketType.sold_count ticket_type ∧
    Z.of_nat (valid_tickets_held db
                (TicketPurchase.ticket_type_id purchase_data)
                (User.id current_user)) <
      TicketType.max_per_person ticket_type ∧
    tickets db !!
      Ticket._id (issued_ticket clock purchase_data current_user ticket_type)
      = None ∧
    outcome =
      Ok (issued_ticket clock purchase_data current_user ticket_type) ∧
    db' = after_purchase
            (issued_ticket clock purchase_data current_user ticket_type) db.
Proof.
  unfold purchase_ticket. rewrite bind_find_one_by_id.
  unfold find_one_by_id_in.
  change (docs ticket_types_collection db) with (ticket_types db).
  destruct (ticket_types db !! _) as [ticket_type|] eqn:Htt;
    [|intros [= <- <-]; left; eauto].
  destruct (TicketType.is_active ticket_type) eqn:Hactive;
    [|intros [= <- <-]; left; eauto].
  branch Hrem; [intros [= <- <-]; left; eauto|].
  cbv zeta. rewrite bind_count_documents.
  branch Hcap; [intros [= <- <-]; left; eauto|].
  destruct (docs tickets_collection db !!
              Ticket._id (issued_ticket clock purchase_data current_user
                            ticket_type)) as [taken|] eqn:Hid.
  - erewrite bind_insert_one_taken by exact Hid. intros [= <- <-]. left. eauto.
  - unfold issued_ticket in Hid. cbn [Ticket._id] in Hid.
    rewrite bind_insert_one_fresh by exact Hid.
    rewrite bind_update_one. unfold ret. intros [= <- <-].
    right. exists ticket_type.
    apply bool_decide_eq_false in Hrem, Hcap.
    split; [done|]. split; [done|]. split; [lia|]. split; [exact (proj1 (Z.nle_gt _ _) Hcap)|].
    by repeat split.
Qed.

(** X17. [purchase_ticket] never oversells by itself: if no ticket type of
    the database has sold more than its quantity, none has after a call,
    whatever the outcome. *)
Theorem purchase_ticket_never_oversells
    clock db purchase_data current_user outcome db' :
  (∀ id tt, ticket_types db !! id = Some tt →
     TicketType.sold_count tt ≤ TicketType.quantity tt) →
  purchase_ticket clock purchase_data current_user db = (outcome, db') →
  ∀ id tt, ticket_types db' !! id = Some tt →
    TicketType.sold_count tt ≤ TicketType.quantity tt.
Proof.
  intros Hinv Hrun id tt.
  destruct (purchase_ticket_writes _ _ _ _ _ _ Hrun)
    as [(e & _ & ->)|(ticket_type & Htt & _ & Hrem & _ & _ & _ & ->)];
    [apply Hinv|].
  unfold after_purchase.
  cbn [ticket_types set_docs ticket_types_collection tickets_collection
       issued_ticket Ticket.ticket_type_id].
  rewrite lookup_alter. case_decide as Hid; [|apply Hinv].
  rewrite Htt. intros [= <-]. cbn. lia.
Qed.

(** bob buys the last standard ticket. *)
Lemma purchase_ticket_never_oversells_witness :
  map_Forall (λ _ tt, TicketType.sold_count tt ≤ TicketType.quantity tt)
    (ticket_types
       (purchase_ticket Example.clock (TicketPurchase.mk "ticket_type_1" ∅)
          Example.bob Example.db).2).
Proof.
  intros id tt Htt. cbv beta.
  eapply (purchase_ticket_never_oversells Example.clock Example.db
            (TicketPurchase.mk "ticket_type_1" ∅) Example.bob);
    [|apply surjective_pairing|exact Htt].
  apply (bool_decide_unpack
           (map_Forall (λ _ tt,
              TicketType.sold_count tt ≤ TicketType.quantity tt)
              (ticket_types Example.db))).
  by vm_compute.
Defined.

Lemma valid_tickets_held_after_purchase ticket db ticket_type_id buyer_id :
  tickets db !! Ticket._id ticket = None →
  valid_tickets_held (after_purchase ticket db) ticket_type_id buyer_id =
  ((if bool_decide (Ticket.ticket_type_id ticket = ticket_type_id) &&
       bool_decide (Ticket.buyer_id ticket = buyer_id) &&
       Ticket.is_valid ticket then 1 else 0) +
   valid_tickets_held db ticket_type_id buyer_id)%nat.
Proof.
  intros Hfresh. unfold valid_tickets_held, after_purchase.
  cbn [tickets set_docs ticket_types_collection tickets_collection].
  by rewrite count_documents_in_insert.
Qed.

(** X18. [purchase_ticket] keeps everyone under the cap: if no buyer holds
    more valid tickets of any type than its [max_per_person], the same is
    true after a call, whatever the outcome. *)
Theorem purchase_ticket_keeps_the_cap
    clock db purchase_data current_user outcome db' :
  (∀ id tt buyer_id, ticket_types db !! id = Some tt →
     Z.of_nat (valid_tickets_held db id buyer_id) ≤
       TicketType.max_per_person tt) →
  purchase_ticket clock purchase_data current_user db = (outcome, db') →
  ∀ id tt buyer_id, ticket_types db' !! id = Some tt →
    Z.of_nat (valid_tickets_held db' id buyer_id) ≤
      TicketType.max_per_person tt.
Proof.
  intros Hinv Hrun id tt buyer_id.
  destruct (purchase_ticket_writes _ _ _ _ _ _ Hrun)
    as [(e & _ & ->)|(ticket_type & Htt & _ & _ & Hcap & Hfresh & _ & ->)];
    [apply Hinv|].
  rewrite valid_tickets_held_after_purchase by done.
  unfold after_purchase.
  cbn [ticket_types set_docs ticket_types_collection tickets_collection
       issued_ticket Ticket.ticket_type_id Ticket.buyer_id Ticket.is_valid].
  rewrite andb_true_r, lookup_alter. intros Hlookup.
  assert (∃ tt0, ticket_types db !! id = Some tt0 ∧
                 TicketType.max_per_person tt = TicketType.max_per_person tt0)
    as (tt0 & Htt0 & ->).
  { case_decide as Hid; [|eauto]. subst id. rewrite Htt in Hlookup.
    injection Hlookup as <-. eauto. }
  specialize (Hinv id tt0 buyer_id Htt0).
  destruct (bool_decide _ && bool_decide _) eqn:Hsame; [|lia].
  apply andb_true_iff in Hsame as [Hid Hbuyer].
  apply bool_decide_eq_true in Hid, Hbuyer. subst id buyer_id.
  rewrite Htt in Htt0. injection Htt0 as <-. lia.
Qed.

(** bob buys the standard ticket that is left. *)
Lemma purchase_ticket_keeps_the_cap_witness :
  map_Forall
    (λ id tt,
       Z.of_nat
         (valid_tickets_held
            (purchase_ticket Example.clock
               (TicketPurchase.mk "ticket_type_1" ∅) Example.bob
               Example.db).2 id "user_2") ≤
         TicketType.max_per_person tt)
    (ticket_types
       (purchase_ticket Example.clock (TicketPurchase.mk "ticket_type_1" ∅)
          Example.bob Example.db).2).
Proof.
  intros id tt Hstored. cbv beta.
  eapply (purchase_ticket_keeps_the_cap Example.clock Example.db
            (TicketPurchase.mk "ticket_type_1" ∅) Example.bob);
    [|apply surjective_pairing|exact Hstored].
  clear id tt Hstored. intros id tt buyer_id Htt.
  assert (1 ≤ TicketType.max_per_person tt) as Hmax.
  { revert id tt Htt.
    apply (bool_decide_unpack
             (map_Forall (λ _ tt, 1 ≤ TicketType.max_per_person tt)
                (ticket_types Example.db))). by vm_compute. }
  assert (valid_tickets_held Example.db id buyer_id ≤ 1)%nat; [|lia].
  unfold valid_tickets_held, count_documents_in.
  etrans; [apply length_filter|]. by vm_compute.
Defined.

(** X19. With [max_per_person] at 1 a buyer is served once: after a
    successful purchase every further purchase of that type by the same
    buyer is answered 400 and writes nothing. *)
Theorem second_ticket_refused
    clock clock' db ticket_type_id buyer_info buyer_info' current_user
    ticket_type ticket db' :
  ticket_types db !! ticket_type_id = Some ticket_type →
  TicketType.max_per_person ticket_type = 1 →
  purchase_ticket clock (TicketPurchase.mk ticket_type_id buyer_info)
    current_user db = (Ok ticket, db') →
  ∃ e,
    purchase_ticket clock' (TicketPurchase.mk ticket_type_id buyer_info')
      current_user db' = (Raise e, db') ∧
    status_code e = HTTP_400_BAD_REQUEST.
Proof.
  intros Htt Hmax Hrun.
  destruct (purchase_ticket_writes _ _ _ _ _ _ Hrun)
    as [(e & [=] & _)|(tt & Htt' & Hactive & _ & _ & Hfresh & Hticket & ->)].
  cbn [TicketPurchase.ticket_type_id] in Htt'. rewrite Htt in Htt'.
  injection Htt' as <-.
  set (sold := after_purchase
                 (issued_ticket clock
                    (TicketPurchase.mk ticket_type_id buyer_info)
                    current_user ticket_type) db).
  unfold purchase_ticket.
  cbn [TicketPurchase.ticket_type_id TicketPurchase.buyer_info].
  rewrite bind_find_one_by_id. unfold find_one_by_id_in.
  change (docs ticket_types_collection sold) with
    (alter (λ tt, TicketType.set_sold_count (TicketType.sold_count tt + 1) tt)
       ticket_type_id (ticket_types db)).
  rewrite lookup_alter_eq, Htt. cbn [fmap option_fmap option_map].
  cbn [TicketType.is_active TicketType.set_sold_count]. rewrite Hactive.
  branch Hrem; [eauto|]. cbv zeta. rewrite bind_count_documents.
  rewrite bind_raise_if_true; [eauto|].
  apply bool_decide_eq_true.
  cbn [TicketType.max_per_person TicketType.set_sold_count]. rewrite Hmax.
  change (count_documents_in _ (docs tickets_collection sold)) with
    (valid_tickets_held sold ticket_type_id (User.id current_user)).
  unfold sold. rewrite valid_tickets_held_after_purchase by done.
  cbn [issued_ticket Ticket.ticket_type_id Ticket.buyer_id Ticket.is_valid
       TicketPurchase.ticket_type_id].
  rewrite !bool_decide_eq_true_2 by done. cbn [andb]. lia.
Qed.

(** bob has a standard ticket and asks for a second one. *)
Lemma second_ticket_refused_witness :
  ∃ ticket db' e,
    purchase_ticket Example.clock (TicketPurchase.mk "ticket_type_1" ∅)
      Example.bob Example.db = (Ok ticket, db') ∧
    purchase_ticket Example.later (TicketPurchase.mk "ticket_type_1" ∅)
      Example.bob db' = (Raise e, db') ∧
    status_code e = HTTP_400_BAD_REQUEST.
Proof.
  eexists _, _. 
  assert (∀ ticket db',
    purchase_ticket Example.clock (TicketPurchase.mk "ticket_type_1" ∅)
      Example.bob Example.db = (Ok ticket, db') →
    ∃ e,
      purchase_ticket Example.later (TicketPurchase.mk "ticket_type_1" ∅)
        Example.bob db' = (Raise e, db') ∧
      status_code e = HTTP_400_BAD_REQUEST) as Hthen.
  { intros ticket db'.
    apply (second_ticket_refused Example.clock Example.later Example.db
             "ticket_type_1" ∅ ∅ Example.bob Example.standard ticket db');
      reflexivity. }
  destruct (Hthen _ _ ltac:(vm_compute; reflexivity)) as (e & Hrun & Hs).
  exists e. split; [vm_compute; reflexivity|]. split; [exact Hrun|exact Hs].
Defined.

(** X20. A ticket that has just been bought is among the buyer's tickets:
    [get_user_tickets] for the buyer returns it, as long as the buyer held
    fewer than a hundred valid tickets, the length of the page. *)
Theorem purchased_ticket_is_listed
    clock db purchase_data current_user ticket db' :
  purchase_ticket clock purchase_data current_user db = (Ok ticket, db') →
  (count_documents_in
     (λ t, bool_decide (Ticket.buyer_id t = User.id current_user) &&
           Ticket.is_valid t) (tickets db) < 100)%nat →
  ∃ page,
    get_user_tickets (User.id current_user) current_user db' =
      (Ok page, db') ∧
    ticket ∈ page.
Proof.
  intros Hrun Hfew.
  destruct (purchase_ticket_writes _ _ _ _ _ _ Hrun)
    as [(e & [=] & _)|(tt & _ & _ & _ & _ & Hfresh & [= ->] & ->)].
  unfold get_user_tickets.
  passes; [|by apply bool_decide_eq_false_2; intros H; apply H].
  rewrite bind_find. eexists. split; [reflexivity|].
  unfold after_purchase.
  cbn [docs tickets set_docs ticket_types_collection tickets_collection].
  set (q := λ t : Ticket.t,
         bool_decide (Ticket.buyer_id t = User.id current_user) &&
         Ticket.is_valid t).
  pose proof (find_in_insert q (tickets db) _
                (issued_ticket clock purchase_data current_user tt) Hfresh)
    as Hperm.
  assert (q (issued_ticket clock purchase_data current_user tt) = true)
    as Hq by (unfold q; cbn; by rewrite bool_decide_eq_true_2).
  rewrite Hq in Hperm.
  unfold to_list. rewrite take_ge.
  - rewrite Hperm. left.
  - rewrite Hperm. cbn [length app]. unfold count_documents_in in Hfew.
    fold q in Hfew. lia.
Qed.

(** bob buys a standard ticket and finds it among bob's tickets. *)
Lemma purchased_ticket_is_listed_witness :
  ∃ ticket db' page,
    purchase_ticket Example.clock (TicketPurchase.mk "ticket_type_1" ∅)
      Example.bob Example.db = (Ok ticket, db') ∧
    get_user_tickets "user_2" Example.bob db' = (Ok page, db') ∧
    ticket ∈ page.
Proof.
  eexists _, _.
  assert (∀ ticket db',
    purchase_ticket Example.clock (TicketPurchase.mk "ticket_type_1" ∅)
      Example.bob Example.db = (Ok ticket, db') →
    ∃ page,
      get_user_tickets (User.id Example.bob) Example.bob db' =
        (Ok page, db') ∧ ticket ∈ page) as Hthen.
  { intros ticket db' Hrun.
    apply (purchased_ticket_is_listed Example.clock Example.db
             (TicketPurchase.mk "ticket_type_1" ∅) Example.bob ticket db'
             Hrun).
    apply (bool_decide_unpack _). by vm_compute. }
  destruct (Hthen _ _ ltac:(vm_compute; reflexivity)) as (page & Hpage & Hin).
  exists page. split; [vm_compute; reflexivity|]. by split.
Defined.

(** ** The shopping list *)

(** X21. [create_shopping_item] keeps the names of the active items of an
    event distinct, and stores no item that carries an arrival time. A
    participant's item is refused with 400 when an active item of the event
    has its name. When none has, an item with an [arrival_time] makes
    [insert_one] raise [InvalidDocument] (500) and nothing is stored; an
    item without one is stored, active and not yet brought; right after
    that the same name is refused, and the created item is on the list
    returned to the participant (as long as the event had fewer than a
    hundred items). *)
Theorem create_shopping_item_once
    clock db name quantity unit event_id arrival_time notes current_user
    event :
  events db !! event_id = Some event →
  Event.is_active event = true →
  is_participant (User.id current_user) event →
  ((∃ id item, shopping_items db !! id = Some item ∧
               ShoppingItemInDB.event_id item = event_id ∧
               ShoppingItemInDB.name item = name ∧
               ShoppingItemInDB.is_active item = true) →
   create_shopping_item clock
     (ShoppingItemCreate.mk name quantity unit event_id arrival_time notes)
     current_user db =
     (Raise (mkHTTPException HTTP_400_BAD_REQUEST
               "An item with this name already exists for this event"), db))
  ∧
  ((∀ id item, shopping_items db !! id = Some item →
      ShoppingItemInDB.event_id item = event_id →
      ShoppingItemInDB.is_active item = true →
      ShoppingItemInDB.name item ≠ name) →
   (is_Some arrival_time →
    create_shopping_item clock
      (ShoppingItemCreate.mk name quantity unit event_id arrival_time notes)
      current_user db = (Raise (unhandled "InvalidDocument"), db)) ∧
   (arrival_time = None →
    shopping_items db !! ("shopping_" +:+ timestamp clock) = None →
    ∃ item db',
     create_shopping_item clock
       (ShoppingItemCreate.mk name quantity unit event_id arrival_time notes)
       current_user db = (Ok (ShoppingItem.of_doc item), db') ∧
     shopping_items db' =
       <["shopping_" +:+ timestamp clock := item]> (shopping_items db) ∧
     ShoppingItemInDB.name item = name ∧
     ShoppingItemInDB.user_id item = User.id current_user ∧
     ShoppingItemInDB.is_active item = true ∧
     ShoppingItemInDB.is_brought item = false ∧
     (∀ clock' quantity' unit' arrival_time' notes' caller,
        is_participant (User.id caller) event →
        create_shopping_item clock'
          (ShoppingItemCreate.mk name quantity' unit' event_id arrival_time'
             notes') caller db' =
          (Raise (mkHTTPException HTTP_400_BAD_REQUEST
                    "An item with this name already exists for this event"),
           db')) ∧
     ((count_documents_in
         (λ i, bool_decide (ShoppingItemInDB.event_id i = event_id))
         (shopping_items db) < 100)%nat →
      ∃ response,
        get_event_shopping_list event_id current_user db' =
          (Ok response, db') ∧
        ShoppingItem.of_doc item ∈ ShoppingListResponse.items response))).
Proof.
  intros He Hact Hpart.
  assert (∀ clock' quantity' unit' arrival_time' notes' caller db0,
    events db0 = events db →
    is_participant (User.id caller) event →
    (∃ id item, shopping_items db0 !! id = Some item ∧
                ShoppingItemInDB.event_id item = event_id ∧
                ShoppingItemInDB.name item = name ∧
                ShoppingItemInDB.is_active item = true) →
    create_shopping_item clock'
      (ShoppingItemCreate.mk name quantity' unit' event_id arrival_time'
         notes') caller db0 =
      (Raise (mkHTTPException HTTP_400_BAD_REQUEST
                "An item with this name already exists for this event"),
       db0)) as Hdup.
  { intros clock' quantity' unit' arrival_time' notes' caller db0 Hev Hp
      (id & item & Hitem & Hie & Hin & Hia).
    unfold create_shopping_item.
    cbn [ShoppingItemCreate.event_id ShoppingItemCreate.name].
    rewrite bind_find_one_by_id.
    change (docs events_collection db0) with (events db0). rewrite Hev.
    rewrite (find_one_by_id_in_Some _ _ _ event) by done.
    passes; [|by apply participant_passes].
    rewrite bind_find_one. rewrite bind_raise_if_true; [done|].
    apply bool_decide_eq_true_2.
    eapply find_one_in_is_Some; [exact Hitem|].
    by rewrite Hia, !bool_decide_eq_true_2. }
  split; [by apply Hdup|].
  intros Hfree.
  assert (
    create_shopping_item clock
      (ShoppingItemCreate.mk name quantity unit event_id arrival_time notes)
      current_user db =
    bind (raise_if (bool_decide (is_Some arrival_time))
            (unhandled "InvalidDocument"))
      (λ _, bind (insert_one shopping_collection
                    ("shopping_" +:+ timestamp clock)
                    (ShoppingItemInDB.mk ("shopping_" +:+ timestamp clock)
                       name quantity unit event_id (User.id current_user)
                       arrival_time notes false true true (utcnow clock)
                       (utcnow clock)))
              (λ _, ret (ShoppingItem.of_doc
                           (ShoppingItemInDB.mk
                              ("shopping_" +:+ timestamp clock) name quantity
                              unit event_id (User.id current_user)
                              arrival_time notes false true true
                              (utcnow clock) (utcnow clock))))) db)
    as Hpast.
  { unfold create_shopping_item.
    cbn [ShoppingItemCreate.event_id ShoppingItemCreate.name
         ShoppingItemCreate.quantity ShoppingItemCreate.unit
         ShoppingItemCreate.arrival_time ShoppingItemCreate.notes].
    found event. passes; [|by apply participant_passes].
    rewrite bind_find_one. rewrite find_one_in_None.
    2:{ intros id i Hi.
        change (docs shopping_collection db) with (shopping_items db) in Hi.
        destruct (decide (ShoppingItemInDB.event_id i = event_id)) as [Hie|];
          [|by rewrite bool_decide_eq_false_2].
        destruct (ShoppingItemInDB.is_active i) eqn:Hia;
          [|by rewrite andb_false_r].
        rewrite (bool_decide_eq_false_2 (ShoppingItemInDB.name i = name))
          by eauto.
        by rewrite andb_false_r. }
    passes; [|by apply bool_decide_eq_false_2; intros [??]].
    reflexivity. }
  split.
  { intros Htime. rewrite Hpast.
    by rewrite bind_raise_if_true by by apply bool_decide_eq_true_2. }
  intros -> Hfresh.
  set (item := ShoppingItemInDB.mk ("shopping_" +:+ timestamp clock) name
         quantity unit event_id (User.id current_user) None notes
         false true true (utcnow clock) (utcnow clock)).
  set (db' := set_docs shopping_collection
                (<["shopping_" +:+ timestamp clock := item]>
                   (shopping_items db)) db).
  exists item, db'.
  split; [|split; [done|split; [done|split; [done|split; [done|split;
    [done|split]]]]]].
  - rewrite Hpast.
    passes; [|by apply bool_decide_eq_false_2; intros [??]].
    by rewrite bind_insert_one_fresh by done.
  - intros clock' quantity' unit' arrival_time' notes' caller Hp.
    apply Hdup; [done|done|].
    exists ("shopping_" +:+ timestamp clock), item.
    split; [apply lookup_insert_eq|done].
  - intros Hfew. unfold get_event_shopping_list. found event.
    passes; [|by apply participant_passes].
    rewrite bind_find. eexists. split; [reflexivity|].
    cbn [ShoppingListResponse.items]. apply list_elem_of_fmap_2.
    unfold db'. cbn [docs shopping_items set_docs shopping_collection].
    set (q := λ i : ShoppingItemInDB.t,
           bool_decide (ShoppingItemInDB.event_id i = event_id)).
    pose proof (find_in_insert q (shopping_items db) _ item Hfresh) as Hperm.
    assert (q item = true) as Hq by by apply bool_decide_eq_true_2.
    rewrite Hq in Hperm. unfold to_list. rewrite take_ge.
    + rewrite Hperm. left.
    + rewrite Hperm. cbn [length app]. unfold count_documents_in in Hfew.
      fold q in Hfew. lia.
Qed.

(** bob may not add a second juice to the party; bread announced for 18
    o'clock is not stored; chips without an hour are, the chips on record
    being inactive, and after that chips are refused to alice. *)
Lemma create_shopping_item_once_witness :
  create_shopping_item Example.clock
    (ShoppingItemCreate.mk "juice" 3 None "event_1" None None) Example.bob
    Example.db =
    (Raise (mkHTTPException HTTP_400_BAD_REQUEST
              "An item with this name already exists for this event"),
     Example.db) ∧
  create_shopping_item Example.clock
    (ShoppingItemCreate.mk "bread" 1 None "event_1" (Some 18) None)
    Example.bob Example.db =
    (Raise (unhandled "InvalidDocument"), Example.db) ∧
  ∃ item db',
    create_shopping_item Example.clock
      (ShoppingItemCreate.mk "chips" 3 None "event_1" None None) Example.bob
      Example.db = (Ok (ShoppingItem.of_doc item), db') ∧
    create_shopping_item Example.later
      (ShoppingItemCreate.mk "chips" 1 None "event_1" None None)
      Example.alice db' =
      (Raise (mkHTTPException HTTP_400_BAD_REQUEST
                "An item with this name already exists for this event"),
       db') ∧
    ∃ response,
      get_event_shopping_list "event_1" Example.bob db' =
        (Ok response, db') ∧
      ShoppingItem.of_doc item ∈ ShoppingListResponse.items response.
Proof.
  assert (is_participant (User.id Example.bob) Example.party) as Hbob
    by (apply (bool_decide_unpack _); by vm_compute).
  assert (is_participant (User.id Example.alice) Example.party) as Halice
    by (apply (bool_decide_unpack _); by vm_compute).
  split; [|split].
  - destruct (create_shopping_item_once Example.clock Example.db "juice" 3
                None "event_1" None None Example.bob Example.party
                eq_refl eq_refl Hbob) as [Hdup _].
    apply Hdup. exists "shopping_2", Example.juice.
    split; [reflexivity|]. split; [reflexivity|]. split; reflexivity.
  - destruct (create_shopping_item_once Example.clock Example.db "bread" 1
                None "event_1" (Some 18) None Example.bob Example.party
                eq_refl eq_refl Hbob) as [_ Hnew].
    destruct Hnew as [Htime _].
    + apply (bool_decide_unpack
               (map_Forall (λ _ item,
                  ShoppingItemInDB.event_id item = "event_1" →
                  ShoppingItemInDB.is_active item = true →
                  ShoppingItemInDB.name item ≠ "bread") _)).
      by vm_compute.
    + apply Htime. by eexists.
  - destruct (create_shopping_item_once Example.clock Example.db "chips" 3
                None "event_1" None None Example.bob Example.party
                eq_refl eq_refl Hbob) as [_ Hnew].
    destruct Hnew as [_ Hstored].
    + apply (bool_decide_unpack
               (map_Forall (λ _ item,
                  ShoppingItemInDB.event_id item = "event_1" →
                  ShoppingItemInDB.is_active item = true →
                  ShoppingItemInDB.name item ≠ "chips") _)).
      by vm_compute.
    + destruct Hstored
        as (item & db' & Hrun & _ & _ & _ & _ & _ & Hagain & Hlist);
        [reflexivity|reflexivity|].
      exists item, db'. split; [exact Hrun|]. split; [by apply Hagain|].
      apply Hlist. apply (bool_decide_unpack _). by vm_compute.
Defined.

(** ** Access to discussions ([validate_discussion_access]) *)

Lemma delete_group_ok clock db group_id group current_user :
  groups db !! group_id = Some group →
  Group.is_active group = true →
  User.id current_user ∈ Group.admin_ids group ∨
    User.id current_user = Group.creator_id group →
  delete_group clock group_id current_user db =
    (Ok tt, with_group group_id (deactivate_group (utcnow clock) group) db).
Proof.
  intros Hg Hact Hmay. unfold delete_group. found group.
  passes.
  2:{ rewrite andb_false_iff, !bool_decide_eq_false.
      destruct Hmay; [left|right]; by intros ?. }
  unfold update_one, with_group.
  change (docs groups_collection db) with (groups db).
  by rewrite (alter_stored _ _ _ group).
Qed.

(** X22. [validate_discussion_access] guards the discussions of a secret
    group only while the group is active: a user who is neither member nor
    admin is refused with 403, and is let through once the group has been
    deleted, the check being skipped when the active group is not found. *)
Theorem deleted_group_opens_its_discussions
    clock db group_id group current_user discussion user_id :
  groups db !! group_id = Some group →
  Group.is_active group = true →
  Group.type group = GroupType.SECRET →
  User.id current_user ∈ Group.admin_ids group ∨
    User.id current_user = Group.creator_id group →
  Discussion.discussion_type discussion = DiscussionType.GROUP →
  Discussion.linked_id discussion = group_id →
  user_id ∉ Group.member_ids group →
  user_id ∉ Group.admin_ids group →
  validate_discussion_access discussion user_id db =
    (Raise (mkHTTPException HTTP_403_FORBIDDEN
              "Not authorized to access this discussion"), db) ∧
  ∃ db',
    delete_group clock group_id current_user db = (Ok tt, db') ∧
    validate_discussion_access discussion user_id db' = (Ok tt, db').
Proof.
  intros Hg Hact Hsecret Hmay Hkind Hlink Hnm Hna. split.
  - unfold validate_discussion_access. rewrite Hkind, Hlink. cbv zeta.
    found group. unfold raise_if.
    by rewrite !bool_decide_eq_true_2.
  - eexists. split; [by apply delete_group_ok|].
    unfold validate_discussion_access. rewrite Hkind, Hlink. cbv zeta.
    rewrite bind_find_one_by_id.
    by rewrite (find_one_by_id_in_inactive _ _ _
                  (deactivate_group (utcnow clock) group)) by stored.
Qed.

(** dave is kept out of the discussions of the club until alice deletes
    the club. *)
Lemma deleted_group_opens_its_discussions_witness :
  let discussion :=
    Discussion.mk "disc_1" "Plans" None DiscussionType.GROUP "group_1"
      "user_1" false true 0 20 20 in
  validate_discussion_access discussion "user_4" Example.db =
    (Raise (mkHTTPException HTTP_403_FORBIDDEN
              "Not authorized to access this discussion"), Example.db) ∧
  ∃ db',
    delete_group Example.clock "group_1" Example.alice Example.db =
      (Ok tt, db') ∧
    validate_discussion_access discussion "user_4" db' = (Ok tt, db').
Proof.
  intros discussion.
  apply (deleted_group_opens_its_discussions Example.clock Example.db
           "group_1" Example.club Example.alice discussion "user_4");
    try reflexivity.
  - left. apply (bool_decide_unpack _). by vm_compute.
  - apply (bool_decide_unpack _). by vm_compute.
  - apply (bool_decide_unpack _). by vm_compute.
Defined.

(** ** Updating an event *)




(** ** Listing events *)

Lemma elem_of_sort_by_start_date e l : e ∈ sort_by_start_date l ↔ e ∈ l.
Proof. unfold sort_by_start_date. by rewrite merge_sort_Permutation. Qed.

Lemma Sorted_drop {A} (R : relation A) n l : Sorted R l → Sorted R (drop n l).
Proof.
  revert l. induction n as [|n IH]; intros l H; [done|].
  destruct l as [|x l]; [done|]. cbn. apply IH. by inversion H.
Qed.

Lemma Sorted_take {A} (R : relation A) n l : Sorted R l → Sorted R (take n l).
Proof.
  revert l. induction n as [|n IH]; intros l H; [constructor|].
  destruct l as [|x l]; [constructor|]. cbn. inversion H as [|? ? Hl Hx]; subst.
  constructor; [by apply IH|].
  destruct Hx; destruct n; cbn; constructor; done.
Qed.

(** X24. What the event listings show of a private event. [get_events]
    returns its pages in the order of [start_date], writes nothing, and
    shows an active private event only with [public_only] off and only to
    its members, organizers and creator;
    [get_user_events] shows it to any caller who asks for the events of one
    of those users. *)
Theorem private_event_listing db event_id event :
  events db !! event_id = Some event →
  Event.is_active event = true →
  Event.privacy event = EventPrivacy.PRIVATE →
  (∀ caller skip limit public_only page db',
     get_events skip limit public_only caller db = (Ok page, db') →
     db' = db ∧
     Sorted earlier_first page ∧
     (event ∈ page →
      public_only = false ∧
      (User.id caller ∈ Event.members event ∨
       User.id caller ∈ Event.organizers event ∨
       Event.creator_id event = User.id caller))) ∧
  (∀ user_id,
     Event.creator_id event = user_id ∨ user_id ∈ Event.organizers event ∨
       user_id ∈ Event.members event →
     ∃ rank, ∀ caller skip limit,
       (skip ≤ rank < skip + limit)%nat →
       ∃ page,
         get_user_events user_id skip limit caller db = (Ok page, db) ∧
         event ∈ page).
Proof.
  intros He Hact Hprivate. split.
  - intros caller skip limit public_only page db'. unfold get_events.
    rewrite bind_find. unfold ret. cbv zeta. intros Hrun.
    assert (db' = db) as -> by congruence. split; [done|].
    injection Hrun as <-. split.
    + unfold to_list. apply Sorted_take, Sorted_take, Sorted_drop.
      apply (Sorted_merge_sort earlier_first).
    + intros Hin. apply elem_of_page in Hin.
      rewrite elem_of_sort_by_start_date, elem_of_find_in in Hin.
      destruct Hin as [Hq _]. rewrite Hact, Hprivate in Hq. cbn [andb] in Hq.
      destruct public_only; [by apply bool_decide_eq_true in Hq|].
      split; [done|].
      rewrite !orb_true_iff, !bool_decide_eq_true in Hq.
      destruct Hq as [[[?|?]|?]|?]; [done|tauto..].
  - intros user_id Hinv.
    set (q := λ e : Event.t,
           Event.is_active e &&
           (bool_decide (Event.creator_id e = user_id) ||
            bool_decide (user_id ∈ Event.organizers e) ||
            bool_decide (user_id ∈ Event.members e))).
    assert (event ∈ sort_by_start_date (find_in q (events db))) as Hin.
    { apply elem_of_sort_by_start_date, elem_of_find_in.
      split; [|eauto]. unfold q. rewrite Hact. cbn [andb].
      rewrite !orb_true_iff, !bool_decide_eq_true. tauto. }
    apply list_elem_of_lookup in Hin as [rank Hrank]. exists rank.
    intros caller skip limit Hr. eexists. split; [reflexivity|].
    unfold to_list. by eapply lookup_page.
Qed.

(** dave does not find the private party among the events, and finds it
    among bob's events. *)
Lemma private_event_listing_witness :
  (∀ skip limit public_only page db',
     get_events skip limit public_only Example.dave More.db =
       (Ok page, db') →
     Example.party ∉ page) ∧
  ∃ rank, ∀ skip limit,
    (skip ≤ rank < skip + limit)%nat →
    ∃ page,
      get_user_events "user_2" skip limit Example.dave More.db =
        (Ok page, More.db) ∧
      Example.party ∈ page.
Proof.
  destruct (private_event_listing More.db "event_1" Example.party)
    as [Hhidden Hshown]; [reflexivity..|].
  split.
  - intros skip limit public_only page db' Hrun Hin.
    destruct (Hhidden _ _ _ _ _ _ Hrun) as (_ & _ & Honly).
    destruct (Honly Hin) as [_ Hinv].
    revert Hinv. apply (bool_decide_unpack _). by vm_compute.
  - destruct (Hshown "user_2") as [rank Hrank].
    + right. right. apply (bool_decide_unpack _). by vm_compute.
    + exists rank. intros skip limit. apply Hrank.
Defined.

(** ** Accounts *)

Lemma find_one_in_unique {D} (q : D → bool) (c : gmap string D) id d :
  c !! id = Some d → q d = true →
  (∀ id' d', c !! id' = Some d' → q d' = true → d' = d) →
  find_one_in q c = Some d.
Proof.
  intros Hd Hq Honly. unfold find_one_in.
  destruct (find_in q c) as [|x l] eqn:E.
  - assert (d ∈ find_in q c) as Hin by (apply elem_of_find_in; eauto).
    rewrite E in Hin. by apply not_elem_of_nil in Hin.
  - assert (x ∈ find_in q c) as Hin by (rewrite E; left).
    apply elem_of_find_in in Hin as [Hqx [id' Hx]].
    cbn. f_equal. by eapply Honly.
Qed.

(** X25. [update_user] never updates: whatever it is sent, it raises and
    leaves the database as it was. An unknown or deleted account gives 404,
    the account of someone else 403, and the caller's own active account an
    unhandled [AttributeError], the handler reading [user_data.email], a
    field that [UserUpdate] does not have. *)
Theorem update_user_never_updates user_id user_data current_user db :
  (∃ e, update_user user_id user_data current_user db = (Raise e, db)) ∧
  (∀ user,
     users db !! user_id = Some user →
     UserInDB.is_active user = true →
     update_user user_id user_data current_user db =
       (Raise (if bool_decide (User.id current_user = user_id)
               then unhandled "AttributeError"
               else mkHTTPException HTTP_403_FORBIDDEN
                      "Not authorized to update this user"), db)) ∧
  ((∀ user, users db !! user_id = Some user →
            UserInDB.is_active user = false) →
   update_user user_id user_data current_user db =
     (Raise (mkHTTPException HTTP_404_NOT_FOUND "User not found"), db)).
Proof.
  assert (∀ user,
     users db !! user_id = Some user →
     UserInDB.is_active user = true →
     update_user user_id user_data current_user db =
       (Raise (if bool_decide (User.id current_user = user_id)
               then unhandled "AttributeError"
               else mkHTTPException HTTP_403_FORBIDDEN
                      "Not authorized to update this user"), db)) as Hknown.
  { intros user Hu Hact. unfold update_user. found user.
    destruct (decide (User.id current_user = user_id)) as [Hown|Hother].
    - rewrite (bool_decide_eq_true_2 _ Hown).
      by passes; [|apply bool_decide_eq_false_2; intros ?].
    - rewrite (bool_decide_eq_false_2 _ Hother).
      by rewrite bind_raise_if_true by by apply bool_decide_eq_true_2. }
  assert ((∀ user, users db !! user_id = Some user →
                   UserInDB.is_active user = false) →
     update_user user_id user_data current_user db =
       (Raise (mkHTTPException HTTP_404_NOT_FOUND "User not found"), db))
    as Hunknown.
  { intros Hnone. unfold update_user. rewrite bind_find_one_by_id.
    change (docs users_collection db) with (users db).
    unfold find_one_by_id_in.
    destruct (users db !! user_id) as [user|]; [|done].
    by rewrite (Hnone user). }
  split; [|by split].
  destruct (users db !! user_id) as [user|] eqn:Hu.
  - destruct (UserInDB.is_active user) eqn:Hact.
    + rewrite (Hknown user) by done. eauto.
    + rewrite Hunknown; [eauto|]. intros ? [= <-]. done.
  - rewrite Hunknown; [eauto|]. by intros ? [=].
Qed.

(** bob cannot rename bob, nor alice, nor carol who has left. *)
Lemma update_user_never_updates_witness :
  let rename := UserUpdate.mk (Some "robert") None None None None in
  update_user "user_2" rename Example.bob Example.db =
    (Raise (unhandled "AttributeError"), Example.db) ∧
  update_user "user_1" rename Example.bob Example.db =
    (Raise (mkHTTPException HTTP_403_FORBIDDEN
              "Not authorized to update this user"), Example.db) ∧
  update_user "user_3" rename Example.bob Example.db =
    (Raise (mkHTTPException HTTP_404_NOT_FOUND "User not found"),
     Example.db).
Proof.
  intros rename. split; [|split].
  - destruct (update_user_never_updates "user_2" rename Example.bob
                Example.db) as (_ & Hknown & _).
    apply (Hknown Example.bob_doc); reflexivity.
  - destruct (update_user_never_updates "user_1" rename Example.bob
                Example.db) as (_ & Hknown & _).
    apply (Hknown Example.alice_doc); reflexivity.
  - destruct (update_user_never_updates "user_3" rename Example.bob
                Example.db) as (_ & _ & Hunknown).
    apply Hunknown. intros user Hu.
    assert (users Example.db !! "user_3" = Some Example.carol_doc) as Hc
      by reflexivity.
    assert (user = Example.carol_doc) as -> by congruence.
    reflexivity.
Defined.

Section accounts.

Variable bcrypt_hashpw : string → string.
Variable verify_password : string → string → bool.
Variable jwt_encode : gmap string string → string.
Variable ACCESS_TOKEN_EXPIRE_MINUTES : Z.

(** [login] with the email of an account that no other record shares. *)
Lemma login_of_holder clock db id user password :
  users db !! id = Some user →
  (∀ id' user', users db !! id' = Some user' →
     UserInDB.email user' = UserInDB.email user → user' = user) →
  login verify_password jwt_encode ACCESS_TOKEN_EXPIRE_MINUTES clock
    (LoginRequest.mk (UserInDB.email user) password) db =
    if verify_password password (UserInDB.hashed_password user)
    then
      if UserInDB.is_active user
      then
        (Ok (LoginResponse.mk
               (create_access_token jwt_encode ACCESS_TOKEN_EXPIRE_MINUTES
                  clock {["sub" := UserInDB._id user]}
                  (Some (ACCESS_TOKEN_EXPIRE_MINUTES * 60)))
               "bearer" (UserInDB._id user) (UserInDB.email user)
               (UserInDB.username user)), db)
      else (Raise (mkHTTPException HTTP_400_BAD_REQUEST "Inactive user"), db)
    else
      (Raise (mkHTTPException HTTP_401_UNAUTHORIZED
                "Incorrect email or password"), db).
Proof.
  intros Hu Honly. unfold login. cbn [LoginRequest.username
    LoginRequest.password]. rewrite bind_find_one.
  rewrite (find_one_in_unique _ _ id user); [|done| |].
  - destruct (verify_password password (UserInDB.hashed_password user));
      [|by rewrite bind_raise_if_true].
    passes; [|done].
    destruct (UserInDB.is_active user); [|by rewrite bind_raise_if_true].
    by passes.
  - by apply bool_decide_eq_true_2.
  - intros id' user' Hu' Hq. apply bool_decide_eq_true in Hq. eauto.
Qed.


(** X27. Every account that [register] creates opens with the same password:
    [get_password_hash] hashes the literal "password" whatever it is given,
    so that, the email being new and the generated [_id] free, [login] with
    the new email returns a token for the new account exactly for the
    passwords that verify against the hash of "password", and answers 401
    for the others, the registered password among them unless it verifies
    too. *)
Theorem register_then_login clock db user_data :
  (∀ id u, users db !! id = Some u →
     UserInDB.email u ≠ UserCreate.email user_data) →
  users db !! ("user_" +:+ timestamp clock) = None →
  ∃ user db',
    register bcrypt_hashpw clock user_data db = (Ok user, db') ∧
    User.id user = "user_" +:+ timestamp clock ∧
    User.email user = UserCreate.email user_data ∧
    ∀ clock' password,
      login verify_password jwt_encode ACCESS_TOKEN_EXPIRE_MINUTES clock'
        (LoginRequest.mk (UserCreate.email user_data) password) db' =
        if verify_password password (bcrypt_hashpw "password")
        then
          (Ok (LoginResponse.mk
                 (create_access_token jwt_encode ACCESS_TOKEN_EXPIRE_MINUTES
                    clock' {["sub" := User.id user]}
                    (Some (ACCESS_TOKEN_EXPIRE_MINUTES * 60)))
                 "bearer" (User.id user) (UserCreate.email user_data)
                 (UserCreate.username user_data)), db')
        else
          (Raise (mkHTTPException HTTP_401_UNAUTHORIZED
                    "Incorrect email or password"), db').
Proof.
  intros Hnew Hfresh.
  set (doc := UserInDB.mk ("user_" +:+ timestamp clock)
         (UserCreate.username user_data) (UserCreate.email user_data)
         (UserCreate.first_name user_data) (UserCreate.last_name user_data)
         (UserCreate.profile_picture user_data) (bcrypt_hashpw "password")
         true (utcnow clock) (utcnow clock)).
  set (db' := set_docs users_collection
                (<["user_" +:+ timestamp clock := doc]> (users db)) db).
  exists (User.of_doc doc), db'. split; [|split; [done|split; [done|]]].
  - unfold register. erewrite bind_ok; cycle 1.
    { apply validate_email_unique_free. intros id u Hu _. eauto. }
    cbv zeta. by rewrite bind_insert_one_fresh by done.
  - intros clock' password.
    pose proof (login_of_holder clock' db' ("user_" +:+ timestamp clock) doc
                  password) as Hlogin.
    cbn [doc UserInDB.email UserInDB.hashed_password UserInDB.is_active
           UserInDB._id UserInDB.username] in Hlogin.
    apply Hlogin; [apply lookup_insert_eq|].
    intros id' user' Hu' Hmail.
    destruct (decide (id' = "user_" +:+ timestamp clock)) as [->|Hne].
    + unfold db' in Hu'. cbn [users set_docs users_collection] in Hu'.
      rewrite lookup_insert_eq in Hu'. congruence.
    + unfold db' in Hu'. cbn [users set_docs users_collection] in Hu'.
      rewrite lookup_insert_ne in Hu' by done.
      by apply Hnew in Hu'.
Qed.

End accounts.


(** erin registers with a chosen password; it is refused at [login], and
    "password" opens the account. *)
Lemma register_then_login_witness :
  let user_data :=
    UserCreate.mk "erin" "erin@example.com" None None None "correct horse" in
  ∃ user db',
    register Example.bcrypt_hashpw Example.clock user_data Example.db =
      (Ok user, db') ∧
    login More.verify_password More.jwt_encode 30 Example.later
      (LoginRequest.mk "erin@example.com" "correct horse") db' =
      (Raise (mkHTTPException HTTP_401_UNAUTHORIZED
                "Incorrect email or password"), db') ∧
    ∃ response,
      login More.verify_password More.jwt_encode 30 Example.later
        (LoginRequest.mk "erin@example.com" "password") db' =
        (Ok response, db') ∧
      LoginResponse.user_id response = User.id user.
Proof.
  intros user_data.
  destruct (register_then_login Example.bcrypt_hashpw More.verify_password
              More.jwt_encode 30 Example.clock Example.db user_data)
    as (user & db' & Hreg & _ & _ & Hlogin).
  - apply (bool_decide_unpack
             (map_Forall (λ id u, UserInDB.email u ≠ "erin@example.com")
                (users Example.db))).
    by vm_compute.
  - reflexivity.
  - exists user, db'. split; [exact Hreg|]. split.
    + exact (Hlogin Example.later "correct horse").
    + eexists. split; [exact (Hlogin Example.later "password")|reflexivity].
Defined.
